(** * A shallow embedding of the Webull client (webull.py, paper_webull.py,
      endpoints.py) and the properties of its request construction.

    Python values are an inductive type; a method of the client is a
    computation in a state-and-exception monad over a [World] that holds the
    client object, the one header dictionary it shares between calls, the
    requests sent so far and the responses the vendor will give. *)

From Stdlib Require Import ZArith String Ascii List Bool Floats Lia.
From stdpp Require Import base option list gmap strings pretty.

Local Open Scope string_scope.
Local Open Scope Z_scope.
#[local] Set Warnings "-register-all".

(** ** Python values and exceptions *)

Module Py.

(** JSON-shaped Python data.  A [dict] keeps its insertion order, so it is an
    association list; its keys are strings, as in parsed JSON. *)
Inductive value : Type :=
| VNone
| VBool (b : bool)
| VInt (n : Z)
| VFloat (f : float)
| VStr (s : string)
| VList (l : list value)
| VDict (d : list (string * value)).

Inductive exn : Type :=
| ValueError (msg : string)
| JSONDecodeError                      (* a subclass of ValueError *)
| TypeError
| KeyError (key : string)
| IndexError
| AttributeError
| OverflowError
| UnknownTimeZoneError
| ConnectionError
| Exception_ (msg : string) (status : Z) (reason : string).

Inductive result (A : Type) : Type :=
| Ok (a : A)
| Raise (e : exn).
Arguments Ok {A} a.
Arguments Raise {A} e.

Definition is_ValueError (e : exn) : bool :=
  match e with ValueError _ | JSONDecodeError => true | _ => false end.

#[global] Instance result_ret : MRet result := λ A a, Ok a.
#[global] Instance result_bind : MBind result := λ A B f r,
  match r with Ok a => f a | Raise e => Raise e end.

(** What the model takes from Python's library rather than from this
    repository: the text formats of [float] and [str], URL quoting, the e-mail
    validator, the time-zone table, the platform's timestamp range, and the
    rounding of a clock reading to whole milliseconds. *)
Class PyLib : Type := {
  float_of_str : string → option float;   (* float(s); None: ValueError *)
  int_of_str : string → option Z;         (* int(s); None: ValueError *)
  float_repr : float → string;            (* repr(x) of a float *)
  str_repr : string → string;             (* repr(s) of a str *)
  url_quote : value → result string;      (* urllib.parse.quote(v) *)
  validate_email : value → result bool;   (* Ok false: EmailNotValidError *)
  pytz_timezone : value → result string;  (* pytz.timezone(v), by zone name *)
  fromtimestamp_ok : Z → bool;            (* datetime.fromtimestamp accepts *)
  round_millis : float → Z;               (* round(t * 1000), t a clock reading *)
}.

(** *** Dictionaries *)

Fixpoint dict_get (k : string) (d : list (string * value)) : option value :=
  match d with
  | [] => None
  | (k', v) :: d' => if String.eqb k k' then Some v else dict_get k d'
  end.

(** [d[k] = v]: an existing key keeps its place, a new one goes last. *)
Fixpoint dict_set (k : string) (v : value) (d : list (string * value))
  : list (string * value) :=
  match d with
  | [] => [(k, v)]
  | (k', v') :: d' =>
      if String.eqb k k' then (k, v) :: d' else (k', v') :: dict_set k v d'
  end.

Definition dict_has (k : string) (d : list (string * value)) : bool :=
  match dict_get k d with Some _ => true | None => false end.

(** *** Numbers *)

Definition float_of_Z (n : Z) : float :=
  SF2Prim (binary_normalize prec emax n 0 false).

(** The integer part of a float, towards zero; [None] for inf and nan. *)
Definition float_trunc (f : float) : option Z :=
  match Prim2SF f with
  | S754_zero _ => Some 0
  | S754_finite s m e =>
      let a := if 0 <=? e then Z.pos m * 2 ^ e else Z.pos m / 2 ^ (- e) in
      Some (if s then - a else a)
  | _ => None
  end.

(** [x == n] for a float and an integer, compared exactly. *)
Definition float_eq_Z (f : float) (n : Z) : bool :=
  match Prim2SF f with
  | S754_zero _ => n =? 0
  | S754_finite s m e =>
      let a := if s then Z.neg m else Z.pos m in
      if 0 <=? e then n =? a * 2 ^ e else n * 2 ^ (- e) =? a
  | _ => false
  end.

Definition Z_of_bool (b : bool) : Z := if b then 1 else 0.

(** *** Truth, equality, conversions *)

(** [bool(v)], the test of [if v], [not v], [v or w]. *)
Definition truthy (v : value) : bool :=
  match v with
  | VNone => false
  | VBool b => b
  | VInt n => negb (n =? 0)
  | VFloat f => negb (PrimFloat.eqb f 0%float)
  | VStr s => negb (String.eqb s "")
  | VList l => match l with [] => false | _ => true end
  | VDict d => match d with [] => false | _ => true end
  end.

(** [a == b].  Numbers compare by value across bool, int and float; a dict
    compares by keys, whatever their order. *)
Fixpoint py_eq (a b : value) {struct a} : bool :=
  match a, b with
  | VNone, VNone => true
  | VBool x, VBool y => Bool.eqb x y
  | VBool x, VInt n | VInt n, VBool x => n =? Z_of_bool x
  | VBool x, VFloat f | VFloat f, VBool x => float_eq_Z f (Z_of_bool x)
  | VInt n, VInt m => n =? m
  | VInt n, VFloat f | VFloat f, VInt n => float_eq_Z f n
  | VFloat f, VFloat g => PrimFloat.eqb f g
  | VStr s, VStr t => String.eqb s t
  | VList l, VList m =>
      (fix go (l m : list value) : bool :=
         match l, m with
         | [], [] => true
         | x :: l', y :: m' => py_eq x y && go l' m'
         | _, _ => false
         end) l m
  | VDict d, VDict e =>
      (length d =? length e)%nat &&
      (fix go (d : list (string * value)) : bool :=
         match d with
         | [] => true
         | (k, v) :: d' =>
             match dict_get k e with
             | Some w => py_eq v w && go d'
             | None => false
             end
         end) d
  | _, _ => false
  end.

Definition is_str (v : value) : bool :=
  match v with VStr _ => true | _ => false end.
Definition is_None (v : value) : bool :=
  match v with VNone => true | _ => false end.
Definition is_bool (v : value) : bool :=
  match v with VBool _ => true | _ => false end.

(** *** Dictionaries the code builds

    A [dict] the code fills itself takes any hashable value as a key, and
    two keys are one when they are equal; a list or a dict is not hashable.
    An existing key keeps its place and its first spelling. *)
Definition pydict : Type := list (value * value).

Definition hashable (v : value) : bool :=
  match v with VList _ | VDict _ => false | _ => true end.

Fixpoint pydict_get (k : value) (d : pydict) : option value :=
  match d with
  | [] => None
  | (k', v) :: d' => if py_eq k k' then Some v else pydict_get k d'
  end.

Fixpoint pydict_set (k v : value) (d : pydict) : pydict :=
  match d with
  | [] => [(k, v)]
  | (k', v') :: d' =>
      if py_eq k k' then (k', v) :: d' else (k', v') :: pydict_set k v d'
  end.

(** [d[k] = v] *)
Definition pydict_store (k v : value) (d : pydict) : result pydict :=
  if hashable k then Ok (pydict_set k v d) else Raise TypeError.

(** The dictionary with the entries of [d], its keys strings. *)
Definition str_keyed (d : list (string * value)) : pydict :=
  map (λ kv, (VStr kv.1, kv.2)) d.

Section WithLib.
Context `{!PyLib}.

Fixpoint py_repr (v : value) : string :=
  match v with
  | VNone => "None"
  | VBool true => "True"
  | VBool false => "False"
  | VInt n => pretty n
  | VFloat f => float_repr f
  | VStr s => str_repr s
  | VList l => "[" +:+ String.concat ", " (map py_repr l) +:+ "]"
  | VDict d =>
      "{" +:+ String.concat ", "
                (map (λ kv, str_repr kv.1 +:+ ": " +:+ py_repr kv.2) d) +:+ "}"
  end.

(** [str(v)], also what an f-string writes for [{v}]. *)
Definition py_str (v : value) : string :=
  match v with VStr s => s | _ => py_repr v end.

(** [int(v)] *)
Definition py_int (v : value) : result Z :=
  match v with
  | VInt n => Ok n
  | VBool b => Ok (Z_of_bool b)
  | VFloat f =>
      match float_trunc f with
      | Some n => Ok n
      | None => if PrimFloat.is_nan f
                then Raise (ValueError "cannot convert float NaN to integer")
                else Raise OverflowError
      end
  | VStr s =>
      match int_of_str s with
      | Some n => Ok n
      | None => Raise (ValueError "invalid literal for int()")
      end
  | _ => Raise TypeError
  end.

(** [float(v)] *)
Definition py_float (v : value) : result float :=
  match v with
  | VFloat f => Ok f
  | VInt n =>
      let f := float_of_Z n in
      if PrimFloat.is_infinity f then Raise OverflowError else Ok f
  | VBool b => Ok (float_of_Z (Z_of_bool b))
  | VStr s =>
      match float_of_str s with
      | Some f => Ok f
      | None => Raise (ValueError "could not convert string to float")
      end
  | _ => Raise TypeError
  end.

End WithLib.

(** [v[k]] with a string key. *)
Definition getitem (v : value) (k : string) : result value :=
  match v with
  | VDict d => match dict_get k d with Some x => Ok x | None => Raise (KeyError k) end
  | _ => Raise TypeError
  end.

(** [v[i]] with an integer index. *)
Definition getindex (v : value) (i : Z) : result value :=
  match v with
  | VList l =>
      let j := if i <? 0 then i + Z.of_nat (length l) else i in
      if j <? 0 then Raise IndexError
      else match l !! Z.to_nat j with Some x => Ok x | None => Raise IndexError end
  | VStr s =>
      let j := if i <? 0 then i + Z.of_nat (String.length s) else i in
      if j <? 0 then Raise IndexError
      else match String.get (Z.to_nat j) s with
           | Some c => Ok (VStr (String c EmptyString))
           | None => Raise IndexError
           end
  | VDict _ => Raise (KeyError (pretty i))
  | _ => Raise TypeError
  end.

(** [v.get(k)], defined on a dict only. *)
Definition dict_get_method (v : value) (k : string) : result value :=
  match v with
  | VDict d => Ok (default VNone (dict_get k d))
  | _ => Raise AttributeError
  end.

Fixpoint is_substring (s t : string) : bool :=
  String.prefix s t ||
  match t with
  | EmptyString => false
  | String _ t' => is_substring s t'
  end.

(** [k in v] for a string [k]. *)
Definition contains (k : string) (v : value) : result bool :=
  match v with
  | VDict d => Ok (dict_has k d)
  | VList l => Ok (existsb (λ x, py_eq x (VStr k)) l)
  | VStr s => Ok (is_substring k s)
  | _ => Raise TypeError
  end.

(** [len(v)] *)
Definition len (v : value) : result Z :=
  match v with
  | VList l => Ok (Z.of_nat (length l))
  | VDict d => Ok (Z.of_nat (length d))
  | VStr s => Ok (Z.of_nat (String.length s))
  | _ => Raise TypeError
  end.

(** [v[k] = x] on a dict value. *)
Definition setitem (v : value) (k : string) (x : value) : result value :=
  match v with
  | VDict d => Ok (VDict (dict_set k x d))
  | _ => Raise TypeError
  end.

(** [s.split(sep)] for a one-character separator. *)
Fixpoint split_on (sep : ascii) (s : string) : list string :=
  match s with
  | EmptyString => [EmptyString]
  | String c s' =>
      if Ascii.eqb c sep then EmptyString :: split_on sep s'
      else match split_on sep s' with
           | [] => [String c EmptyString]
           | w :: ws => String c w :: ws
           end
  end.

(** What the methods of the session take from Python's library besides:
    the MD5 digest of a text, and the text of a path as [pathlib] writes it,
    which is never empty. *)
Class PyOS : Type := {
  md5_hexdigest : string → string;     (* hashlib.md5(s.encode()).hexdigest() *)
  path_str : value → result string;    (* str(Path(p)) *)
  path_str_nonempty : ∀ p s, path_str p = Ok s → s ≠ EmptyString;
}.

Definition is_KeyError (e : exn) : bool :=
  match e with KeyError _ => true | _ => false end.

(** [v > 0] *)
Definition py_positive (v : value) : result bool :=
  match v with
  | VInt n => Ok (0 <? n)
  | VBool b => Ok b
  | VFloat f => Ok (PrimFloat.ltb 0 f)
  | _ => Raise TypeError
  end.

End Py.

(** ** The world a client runs in *)

Module Env.
Import Py.

(** The address of a dictionary object.  The client's header dictionary is
    created once and every [headers] variable of every method is a reference
    to it. *)
Definition loc := positive.

Inductive http_method : Type := GET | POST.

(** One call of [requests.get] or [requests.post], with the keyword arguments
    the source passes.  [req_headers] is the content of the dictionary passed
    as [headers=] at the moment of the call. *)
Record Request : Type := mkRequest {
  req_method : http_method;
  req_url : string;
  req_json : option value;
  req_params : option value;
  req_headers : option (gmap string value);
  req_timeout : value;
}.

(** [body] is what [response.json()] parses; [None] when it is not JSON. *)
Record Response : Type := mkResponse {
  status_code : Z;
  reason : string;
  body : option value;
}.

Record UUID : Type := mkUUID { uuid_str : string; uuid_hex : string }.

(** The attributes [Webull.__init__] sets, and [_credential_data], which
    exists only once a login has set it. *)
Record Client : Type := mkClient {
  _headers : loc;
  _account_id : value;
  _trade_token : value;
  _access_token : value;
  _refresh_token : value;
  _token_expire : value;
  _uuid : value;
  _did : value;
  _region_code : value;
  zone_var : value;
  timeout : value;
  _credential_data : option value;
}.

(** What is at the name of a did.bin file: nothing (and then whether a file
    can be created there, or the exception [open(f, 'wb')] raises), a file
    that unpickles to a value, or something [pickle.load(open(f, 'rb'))]
    raises on (a directory, a file that cannot be read or is not a pickle). *)
Inductive did_file : Type :=
| NoFile (creating : option exn)
| Pickled (did : value)
| Unreadable (e : exn).

Record World : Type := mkWorld {
  self : Client;
  heap : gmap loc (gmap string value);   (* the dictionary objects *)
  inbox : list Response;                 (* the vendor's next responses *)
  sent : list Request;                   (* requests made, oldest first *)
  clock : nat → float;                   (* what time.time() will return *)
  ticks : nat;
  uuid_src : nat → UUID;                 (* what uuid.uuid4() will return *)
  uuid_n : nat;
  stdout : list value;                   (* arguments of print *)
  did_bin : string → did_file;           (* the did.bin files, by file name *)
  written : list (value * value);        (* json.dump(content) to path *)
}.

Definition with_self (c : Client) (w : World) : World :=
  mkWorld c (heap w) (inbox w) (sent w) (clock w) (ticks w) (uuid_src w)
          (uuid_n w) (stdout w) (did_bin w) (written w).
Definition with_heap (h : gmap loc (gmap string value)) (w : World) : World :=
  mkWorld (self w) h (inbox w) (sent w) (clock w) (ticks w) (uuid_src w)
          (uuid_n w) (stdout w) (did_bin w) (written w).
Definition with_net (i : list Response) (s : list Request) (w : World) : World :=
  mkWorld (self w) (heap w) i s (clock w) (ticks w) (uuid_src w)
          (uuid_n w) (stdout w) (did_bin w) (written w).
Definition with_ticks (n : nat) (w : World) : World :=
  mkWorld (self w) (heap w) (inbox w) (sent w) (clock w) n (uuid_src w)
          (uuid_n w) (stdout w) (did_bin w) (written w).
Definition with_uuid_n (n : nat) (w : World) : World :=
  mkWorld (self w) (heap w) (inbox w) (sent w) (clock w) (ticks w) (uuid_src w)
          n (stdout w) (did_bin w) (written w).
Definition with_stdout (o : list value) (w : World) : World :=
  mkWorld (self w) (heap w) (inbox w) (sent w) (clock w) (ticks w) (uuid_src w)
          (uuid_n w) o (did_bin w) (written w).
Definition with_did_bin (d : string → did_file) (w : World) : World :=
  mkWorld (self w) (heap w) (inbox w) (sent w) (clock w) (ticks w) (uuid_src w)
          (uuid_n w) (stdout w) d (written w).
Definition with_written (f : list (value * value)) (w : World) : World :=
  mkWorld (self w) (heap w) (inbox w) (sent w) (clock w) (ticks w) (uuid_src w)
          (uuid_n w) (stdout w) (did_bin w) f.

Definition set_account_id (v : value) (c : Client) : Client :=
  mkClient (_headers c) v (_trade_token c) (_access_token c) (_refresh_token c)
           (_token_expire c) (_uuid c) (_did c) (_region_code c) (zone_var c)
           (timeout c) (_credential_data c).
Definition set_trade_token (v : value) (c : Client) : Client :=
  mkClient (_headers c) (_account_id c) v (_access_token c) (_refresh_token c)
           (_token_expire c) (_uuid c) (_did c) (_region_code c) (zone_var c)
           (timeout c) (_credential_data c).
Definition set_access_token (v : value) (c : Client) : Client :=
  mkClient (_headers c) (_account_id c) (_trade_token c) v (_refresh_token c)
           (_token_expire c) (_uuid c) (_did c) (_region_code c) (zone_var c)
           (timeout c) (_credential_data c).
Definition set_refresh_token (v : value) (c : Client) : Client :=
  mkClient (_headers c) (_account_id c) (_trade_token c) (_access_token c) v
           (_token_expire c) (_uuid c) (_did c) (_region_code c) (zone_var c)
           (timeout c) (_credential_data c).
Definition set_token_expire (v : value) (c : Client) : Client :=
  mkClient (_headers c) (_account_id c) (_trade_token c) (_access_token c)
           (_refresh_token c) v (_uuid c) (_did c) (_region_code c) (zone_var c)
           (timeout c) (_credential_data c).
Definition set_zone_var (v : value) (c : Client) : Client :=
  mkClient (_headers c) (_account_id c) (_trade_token c) (_access_token c)
           (_refresh_token c) (_token_expire c) (_uuid c) (_did c)
           (_region_code c) v (timeout c) (_credential_data c).

(** *** The monad of a method body: state, and an exception or a value.
    A raised exception keeps the state reached, as Python does. *)

Definition M (A : Type) : Type := World → result A * World.

#[global] Instance M_ret : MRet M := λ A a w, (Ok a, w).
#[global] Instance M_bind : MBind M := λ A B f m w,
  match m w with
  | (Ok a, w') => f a w'
  | (Raise e, w') => (Raise e, w')
  end.

Definition raise {A : Type} (e : exn) : M A := λ w, (Raise e, w).
Definition lift {A : Type} (r : result A) : M A := λ w, (r, w).
Definition get_self : M Client := λ w, (Ok (self w), w).
Definition modify_self (f : Client → Client) : M unit :=
  λ w, (Ok tt, with_self (f (self w)) w).

(** [try: body except ValueError: handler] *)
Definition try_ValueError {A : Type} (body : M A) (handler : M A) : M A := λ w,
  match body w with
  | (Raise e, w') => if is_ValueError e then handler w' else (Raise e, w')
  | r => r
  end.

(** The dictionary at [l]; an address never allocated reads as empty. *)
Definition deref (l : loc) (w : World) : gmap string value :=
  default ∅ (heap w !! l).

(** The world with the dictionary at [l] replaced by [d] *)
Definition set_dict (l : loc) (d : gmap string value) (w : World) : World :=
  with_heap (<[l := d]> (heap w)) w.

(** [d[k] = v] on the dictionary object at [l] *)
Definition dict_store (l : loc) (k : string) (v : value) : M unit :=
  λ w, (Ok tt, set_dict l (<[k := v]> (deref l w)) w).

(** A new dictionary object *)
Definition alloc (d : gmap string value) : M loc := λ w,
  let l := fresh (dom (heap w)) in
  (Ok l, with_heap (<[l := d]> (heap w)) w).

(** The request is made, then the next response is taken; with none left
    the connection fails. *)
Definition send (r : Request) : M Response := λ w,
  match inbox w with
  | [] => (Raise ConnectionError, with_net [] (sent w ++ [r]) w)
  | resp :: rest => (Ok resp, with_net rest (sent w ++ [r]) w)
  end.

Definition snapshot (headers : option loc) (w : World)
  : option (gmap string value) :=
  (λ l, deref l w) <$> headers.

(** [requests.get(url, params=, headers=, timeout=self.timeout)] *)
Definition requests_get (url : string) (params : option value)
    (headers : option loc) : M Response := λ w,
  send (mkRequest GET url None params (snapshot headers w) (timeout (self w))) w.

(** [requests.post(url, json=, headers=, timeout=self.timeout)] *)
Definition requests_post (url : string) (json : option value)
    (headers : option loc) : M Response := λ w,
  send (mkRequest POST url json None (snapshot headers w) (timeout (self w))) w.

(** [response.json()] *)
Definition json (r : Response) : M value :=
  match body r with
  | Some v => mret v
  | None => raise JSONDecodeError
  end.

(** [bool(response)], that is [response.ok]: the status is not a client or
    server error, 400 to 599. *)
Definition response_ok (r : Response) : bool :=
  negb ((400 <=? status_code r) && (status_code r <? 600)).

(** [time.time()], [datetime.now().timestamp()] *)
Definition time_time : M float := λ w,
  (Ok (clock w (ticks w)), with_ticks (S (ticks w)) w).

(** [uuid.uuid4()] *)
Definition uuid4 : M UUID := λ w,
  (Ok (uuid_src w (uuid_n w)), with_uuid_n (S (uuid_n w)) w).

Definition print (v : value) : M unit :=
  λ w, (Ok tt, with_stdout (stdout w ++ [v]) w).

(** [with open(path, 'w') as f: json.dump(content, f)] *)
Definition json_dump (path content : value) : M unit :=
  λ w, (Ok tt, with_written (written w ++ [(path, content)]) w).

(** [pickle.load(open(f, 'rb'))] if [os.path.exists(f)] *)
Definition load_did_bin (f : string) : M (option value) := λ w,
  match did_bin w f with
  | NoFile _ => (Ok None, w)
  | Pickled did => (Ok (Some did), w)
  | Unreadable e => (Raise e, w)
  end.

(** [pickle.dump(did, open(f, 'wb'))], reached only when no file is there *)
Definition dump_did_bin (f : string) (did : value) : M unit := λ w,
  match did_bin w f with
  | NoFile (Some e) => (Raise e, w)
  | _ => (Ok tt, with_did_bin (λ g, if String.eqb g f then Pickled did
                                     else did_bin w g) w)
  end.

(** [for x in xs: body x], stopping at the first exception *)
Fixpoint for_each {A : Type} (xs : list A) (body : A → M unit) : M unit :=
  match xs with
  | [] => mret tt
  | x :: xs' => body x ;; for_each xs' body
  end.

Definition set_uuid (v : value) (c : Client) : Client :=
  mkClient (_headers c) (_account_id c) (_trade_token c) (_access_token c)
           (_refresh_token c) (_token_expire c) v (_did c) (_region_code c)
           (zone_var c) (timeout c) (_credential_data c).
Definition set_credential_data (v : value) (c : Client) : Client :=
  mkClient (_headers c) (_account_id c) (_trade_token c) (_access_token c)
           (_refresh_token c) (_token_expire c) (_uuid c) (_did c)
           (_region_code c) (zone_var c) (timeout c) (Some v).

(** [try: body except KeyError: handler] *)
Definition try_KeyError {A : Type} (body : M A) (handler : M A) : M A := λ w,
  match body w with
  | (Raise e, w') => if is_KeyError e then handler w' else (Raise e, w')
  | r => r
  end.

(** The content of the file at path [p]: what was last dumped to that path;
    a path nothing was dumped to is no file.  Two paths are the same file
    when [pathlib] writes them the same. *)
Fixpoint last_dump `{!PyOS} (p : string) (files : list (value * value))
    (found : option value) : option value :=
  match files with
  | [] => found
  | (path, content) :: rest =>
      last_dump p rest
        match path_str path with
        | Ok s => if String.eqb s p then Some content else found
        | Raise _ => found
        end
  end.

(** [with open(p, 'r') as f: json.load(f)], [None] when there is no such
    file *)
Definition json_load `{!PyOS} (p : string) : M (option value) := λ w,
  (Ok (last_dump p (written w) None), w).

End Env.

(** ** endpoints.py: the URL of each vendor call *)

Module endpoints.
Import Py.

Definition base_options_gw_url := "https://quotes-gw.webullbroker.com/api".
Definition base_paper_url := "https://act.webullbroker.com/webull-paper-center/api".
Definition base_quote_url := "https://quoteapi.webullbroker.com/api".
Definition base_trade_url := "https://tradeapi.webullbroker.com/api/trade".
Definition base_user_url := "https://userapi.webull.com/api".
Definition base_userbroker_url := "https://userapi.webullbroker.com/api".
Definition base_ustrade_url := "https://ustrade.webullfinance.com/api".
Definition base_paperfintech_url := "https://act.webullfintech.com/webull-paper-center/api".
Definition base_userfintech_url := "https://userapi.webullfintech.com/api".
Definition base_ustradebroker_url := "https://ustrade.webullbroker.com/api".

Section WithLib.
Context `{!PyLib}.

Definition account (account_id : value) : string :=
  base_trade_url +:+ "/v3/home/" +:+ py_str account_id.

Definition account_id : string :=
  base_trade_url +:+ "/account/getSecAccountList/v5".

Definition bars (stock : value) : string :=
  base_quote_url +:+ "/quote/tickerChartDatas/v5/" +:+ py_str stock.

Definition cancel_order (account_id : value) : string :=
  base_ustrade_url +:+ "/trade/order/" +:+ py_str account_id +:+ "/cancelStockOrder/".

Definition modify_otoco_orders (account_id : value) : string :=
  base_ustrade_url +:+ "/trade/v2/corder/stock/modify/" +:+ py_str account_id.

Definition cancel_otoco_orders (account_id combo_id : value) : string :=
  base_ustrade_url +:+ "/trade/v2/corder/stock/cancel/" +:+ py_str account_id
    +:+ "/" +:+ py_str combo_id.

Definition check_otoco_orders (account_id : value) : string :=
  base_ustrade_url +:+ "/trade/v2/corder/stock/check/" +:+ py_str account_id.

Definition place_otoco_orders (account_id : value) : string :=
  base_ustrade_url +:+ "/trade/v2/corder/stock/place/" +:+ py_str account_id.

Definition get_security (username account_type region_code event time url : value)
  : string :=
  let url := if py_eq url (VInt 1) then "getPrivacyQuestion"
             else "getSecurityQuestion" in
  base_userfintech_url +:+ "/user/risk/" +:+ url +:+ "?account=" +:+ py_str username
    +:+ "&accountType=" +:+ py_str account_type +:+ "&regionId=" +:+ py_str region_code
    +:+ "&event=" +:+ py_str event +:+ "&v=" +:+ py_str time.

Definition logout : string :=
  base_userbroker_url +:+ "/passport/login/logout".

Definition orders (account_id page_size : value) : string :=
  base_ustradebroker_url +:+ "/trade/v2/option/list?secAccountId=" +:+ py_str account_id
    +:+ "&startTime=1970-0-1&dateType=ORDER&pageSize=" +:+ py_str page_size
    +:+ "&status=".

Definition paper_orders (paper_account_id page_size : value) : string :=
  base_paper_url +:+ "/paper/1/acc/" +:+ py_str paper_account_id
    +:+ "/order?&startTime=1970-0-1&dateType=ORDER&pageSize=" +:+ py_str page_size
    +:+ "&status=".

Definition paper_account (paper_account_id : value) : string :=
  base_paperfintech_url +:+ "/paper/1/acc/" +:+ py_str paper_account_id.

Definition paper_account_id : string :=
  base_paperfintech_url +:+ "/myaccounts/true".

Definition paper_cancel_order (paper_account_id order_id : value) : string :=
  base_paper_url +:+ "/paper/1/acc/" +:+ py_str paper_account_id
    +:+ "/orderop/cancel/" +:+ py_str order_id.

Definition paper_modify_order (paper_account_id order_id : value) : string :=
  base_paper_url +:+ "/paper/1/acc/" +:+ py_str paper_account_id
    +:+ "/orderop/modify/" +:+ py_str order_id.

Definition paper_place_order (paper_account_id stock : value) : string :=
  base_paper_url +:+ "/paper/1/acc/" +:+ py_str paper_account_id
    +:+ "/orderop/place/" +:+ py_str stock.

Definition place_option_orders (account_id : value) : string :=
  base_ustrade_url +:+ "/trade/v2/option/placeOrder/" +:+ py_str account_id.

Definition place_orders (account_id : value) : string :=
  base_ustrade_url +:+ "/trade/order/" +:+ py_str account_id +:+ "/placeStockOrder".

(** [order_id] is a parameter the URL does not use. *)
Definition modify_order (account_id order_id : value) : string :=
  base_ustrade_url +:+ "/trading/v1/webull/order/stockOrderModify?secAccountId="
    +:+ py_str account_id.

Definition quotes (stock : value) : string :=
  base_options_gw_url +:+ "/quotes/ticker/getTickerRealTime?tickerId=" +:+ py_str stock
    +:+ "&includeSecu=1&includeQuote=1".

Definition refresh_login : string :=
  base_user_url +:+ "/passport/refreshToken?refreshToken=".

Definition replace_option_orders (account_id : value) : string :=
  base_trade_url +:+ "/v2/option/replaceOrder/" +:+ py_str account_id.

Definition stock_id (stock region_code : value) : string :=
  base_options_gw_url +:+ "/search/pc/tickers?keyword=" +:+ py_str stock
    +:+ "&pageIndex=1&pageSize=20&regionId=" +:+ py_str region_code.

Definition user : string := base_user_url +:+ "/user".

Definition screener : string :=
  base_userbroker_url +:+ "/wlas/screener/ng/query".

Definition base_info_url := "https://infoapi.webull.com/api".
Definition base_options_url := "https://quoteapi.webullbroker.com/api".
Definition base_securities_url := "https://securitiesapi.webullbroker.com/api".
Definition base_fintech_gw_url := "https://quotes-gw.webullfintech.com/api".
Definition base_new_trade_url := "https://trade.webullfintech.com/api".

Definition account_activities (account_id : value) : string :=
  base_ustrade_url +:+ "/trade/v2/funds/" +:+ py_str account_id +:+ "/activities".

Definition active_gainers_losers (direction region_code rank_type num : value)
  : string :=
  let url := if py_eq direction (VStr "gainer") then "topGainers"
             else if py_eq direction (VStr "loser") then "dropGainers"
             else "topActive" in
  base_fintech_gw_url +:+ "/wlas/ranking/" +:+ url +:+ "?regionId="
    +:+ py_str region_code +:+ "&rankType=" +:+ py_str rank_type
    +:+ "&pageIndex=1&pageSize=" +:+ py_str num.

Definition add_alert : string :=
  base_userbroker_url +:+ "/user/warning/v2/manage/overlap".

Definition analysis (stock : value) : string :=
  base_securities_url +:+ "/securities/ticker/v5/analysis/" +:+ py_str stock.

Definition analysis_shortinterest (stock : value) : string :=
  base_securities_url +:+ "/securities/stock/" +:+ py_str stock +:+ "/shortInterest".

Definition analysis_institutional_holding (stock : value) : string :=
  base_securities_url +:+ "/securities/stock/v5/" +:+ py_str stock
    +:+ "/institutionalHolding".

Definition analysis_etf_holding (stock has_num page_size : value) : string :=
  base_securities_url +:+ "/securities/stock/v5/" +:+ py_str stock
    +:+ "/belongEtf?hasNum=" +:+ py_str has_num +:+ "&pageSize=" +:+ py_str page_size.

Definition analysis_capital_flow (stock show_hist : value) : string :=
  base_securities_url +:+ "/wlas/capitalflow/ticker?tickerId=" +:+ py_str stock
    +:+ "&showHis=" +:+ py_str show_hist.

Definition bars_crypto (stock : value) : string :=
  base_fintech_gw_url +:+ "/crypto/charts/query?tickerIds=" +:+ py_str stock.

Definition dividends (account_id : value) : string :=
  base_trade_url +:+ "/v2/account/" +:+ py_str account_id +:+ "/dividends?direct=in".

Definition fundamentals (stock : value) : string :=
  base_securities_url +:+ "/securities/financial/index/" +:+ py_str stock.

Definition is_tradable (stock : value) : string :=
  base_trade_url +:+ "/ticker/broker/permissionV2?tickerId=" +:+ py_str stock.

Definition list_alerts : string :=
  base_userbroker_url +:+ "/user/warning/v2/query/tickers".

Definition login : string :=
  base_user_url +:+ "/passport/login/v5/account".

Definition get_mfa : string :=
  base_userfintech_url +:+ "/passport/v2/verificationCode/send".

Definition check_mfa : string :=
  base_userfintech_url +:+ "/passport/v2/verificationCode/checkCode".

Definition next_security (username account_type region_code event time url : value)
  : string :=
  let url := if py_eq url (VInt 1) then "nextPrivacyQuestion"
             else "nextSecurityQuestion" in
  base_userfintech_url +:+ "/user/risk/" +:+ url +:+ "?account=" +:+ py_str username
    +:+ "&accountType=" +:+ py_str account_type +:+ "&regionId=" +:+ py_str region_code
    +:+ "&event=" +:+ py_str event +:+ "&v=" +:+ py_str time.

Definition check_security : string :=
  base_userfintech_url +:+ "/user/risk/checkAnswer".

Definition news (stock Id items : value) : string :=
  base_fintech_gw_url +:+ "/information/news/tickerNews?tickerId=" +:+ py_str stock
    +:+ "&currentNewsId=" +:+ py_str Id +:+ "&pageSize=" +:+ py_str items.

Definition option_quotes : string :=
  base_options_gw_url +:+ "/quote/option/query/list".

Definition options (stock : value) : string :=
  base_options_url +:+ "/quote/option/" +:+ py_str stock +:+ "/list".

Definition options_exp_date (stock : value) : string :=
  base_options_url +:+ "/quote/option/" +:+ py_str stock +:+ "/list".

Definition options_bars (derivativeId : value) : string :=
  base_options_gw_url +:+ "/quote/option/chart/query?derivativeId="
    +:+ py_str derivativeId.

Definition history (account_id : value) : string :=
  base_ustrade_url +:+ "/trading/v1/webull/order/list?secAccountId="
    +:+ py_str account_id.

Definition rankings : string :=
  base_securities_url +:+ "/securities/market/v5/6/portal".

Definition remove_alert : string :=
  base_userbroker_url +:+ "/user/warning/v2/manage/overlap".

Definition trade_token : string :=
  base_new_trade_url +:+ "/trading/v1/global/trade/login".

Definition social_posts (topic num : value) : string :=
  base_user_url +:+ "/social/feed/topic/" +:+ py_str topic +:+ "/posts?size="
    +:+ py_str num.

Definition social_home (topic num : value) : string :=
  base_user_url +:+ "/social/feed/topic/" +:+ py_str topic +:+ "/home?size="
    +:+ py_str num.

Definition portfolio_lists : string :=
  base_options_gw_url +:+ "/personal/portfolio/v2/check".

End WithLib.
End endpoints.

(** ** webull.py: class Webull *)

Module Webull.
Import Py Env.

(** A method's parameters after [self], each with its default; [None] marks
    a parameter that has none. *)
Definition signature : Type := list (string * option value).

Definition DEFAULT_CREDENTIAL_PATH : value := VStr "webull_credentials.json".

(** [os.path.join(path, 'did.bin')] on a POSIX system: a separator is put
    in unless [path] ends with one.  A [path] that is not text is refused. *)
Definition ends_with_slash (p : string) : bool :=
  match rev (list_ascii_of_string p) with
  | c :: _ => Ascii.eqb c "/"%char
  | [] => false
  end.

Definition did_filename (path : value) : result string :=
  if truthy path then
    match path with
    | VStr p => Ok (if ends_with_slash p then p +:+ "did.bin"
                    else p +:+ "/" +:+ "did.bin")
    | _ => Raise TypeError
    end
  else Ok "did.bin".

(** [_get_did(path)]: the pickled id if the file exists, else a new one,
    saved there. *)
Definition _get_did (path : value) : M value :=
  filename ← lift (did_filename path);
  saved ← load_did_bin filename;
  match saved with
  | Some did => mret did
  | None =>
      u ← uuid4;
      let did := VStr (uuid_hex u) in
      dump_did_bin filename did;;
      mret did
  end.

Definition default_headers (did : value) : gmap string value :=
  list_to_map
    [("User-Agent", VStr "Mozilla/5.0 (Macintosh; Intel Mac OS X 10.15; rv:99.0) Gecko/20100101 Firefox/99.0");
     ("Accept", VStr "*/*");
     ("Accept-Encoding", VStr "gzip, deflate");
     ("Content-Type", VStr "application/json");
     ("platform", VStr "web");
     ("app", VStr "global");
     ("appid", VStr "webull-webapp");
     ("ver", VStr "3.39.18");
     ("lzone", VStr "dc_core_r001");
     ("device-type", VStr "Web");
     ("did", did)].

Definition __init__ : M unit :=
  did ← _get_did (VStr "");
  headers ← alloc (default_headers did);
  did' ← _get_did (VStr "");
  modify_self (λ _,
    mkClient headers (VStr "") (VStr "") (VStr "") (VStr "") (VStr "") (VStr "")
             did' (VInt 6) (VStr "dc_core_r001") (VInt 15) None).

(** [x or y]: [y] is evaluated only when [x] is false. *)
Definition py_or (x : value) (y : M value) : M value :=
  if truthy x then mret x else y.

(** The items a [for] loop visits. *)
Definition py_iter (v : value) : result (list value) :=
  match v with
  | VList l => Ok l
  | VDict d => Ok (map (λ kv, VStr kv.1) d)
  | VStr s => Ok (map (λ c, VStr (String c EmptyString)) (list_ascii_of_string s))
  | _ => Raise TypeError
  end.

(** The frame [get_bars] fills: one row per index label, in the order the
    labels were first assigned.  The label is the bar's instant (seconds since
    the epoch) shown in the market's time zone. *)
Record Bar : Type := mkBar {
  bar_open : float;
  bar_high : float;
  bar_low : float;
  bar_close : float;
  bar_volume : float;
  bar_vwap : float;
}.

Record Timestamp : Type := mkTimestamp { epoch : Z; zone : string }.

Definition DataFrame : Type := list (Timestamp * Bar).

(** [df.loc[label] = bar]: the row of an existing label (the same instant) is
    replaced where it stands, a new label is appended. *)
Fixpoint loc_assign (label : Timestamp) (bar : Bar) (df : DataFrame)
  : DataFrame :=
  match df with
  | [] => [(label, bar)]
  | (l, b) :: df' =>
      if epoch l =? epoch label then (label, bar) :: df'
      else (l, b) :: loc_assign label bar df'
  end.

(** [prefix + v]: a str takes only a str. *)
Definition str_add (prefix : string) (v : value) : result string :=
  match v with
  | VStr s => Ok (prefix +:+ s)
  | _ => Raise TypeError
  end.

Section WithLib.
Context `{!PyLib}.

Definition sig_build_req_headers : signature :=
  [("include_trade_token", Some (VBool false));
   ("include_time", Some (VBool false));
   ("include_zone_var", Some (VBool true))].

(** The headers are the client's own dictionary, updated in place and
    returned by reference. *)
Definition build_req_headers
    (include_trade_token include_time include_zone_var : bool) : M loc :=
  c ← get_self;
  let headers := _headers c in
  dict_store headers "did" (_did c);;
  dict_store headers "access_token" (_access_token c);;
  (if include_trade_token
   then dict_store headers "t_token" (_trade_token c)
   else mret tt);;
  (if include_time
   then t ← time_time;
        dict_store headers "t_time" (VStr (pretty (round_millis t)))
   else mret tt);;
  (if include_zone_var
   then dict_store headers "lzone" (zone_var c)
   else mret tt);;
  mret headers.

Definition _save_token (token path : value) : M unit :=
  let path := if truthy path then path else DEFAULT_CREDENTIAL_PATH in
  json_dump path token.

Definition get_account_type (username : value) : M value :=
  is_email ← lift (validate_email username);
  mret (VInt (if is_email : bool then 2 else 1)).

Definition sig_get_security : signature := [("username", Some (VStr ""))].

Definition get_security (username : value) : M value :=
  account_type ← get_account_type username;
  username ← lift (url_quote username);
  now ← time_time;
  let time := VFloat (now * 1000)%float in
  c ← get_self;
  response ← requests_get
    (endpoints.get_security (VStr username) account_type (_region_code c)
       (VStr "PRODUCT_LOGIN") time (VInt 0))
    None (Some (_headers c));
  data ← json response;
  n ← lift (len data);
  if n =? 0 then
    c ← get_self;
    response ← requests_get
      (endpoints.get_security (VStr username) account_type (_region_code c)
         (VStr "PRODUCT_LOGIN") time (VInt 1))
      None (Some (_headers c));
    json response
  else mret data.

Definition logout : M value :=
  headers ← build_req_headers false false true;
  response ← requests_get endpoints.logout None (Some headers);
  mret (VInt (status_code response)).

Definition sig_refresh_login : signature :=
  [("save_token", Some (VBool false)); ("token_path", Some VNone)].

(** The condition of the [if] in [refresh_login], its four tests taken from
    left to right, each only if the ones before it hold. *)
Definition refresh_condition (res : value) : result bool :=
  has ← contains "accessToken" res;
  if negb has then mret false else
  a ← getitem res "accessToken";
  if py_eq a (VStr "") then mret false else
  r ← getitem res "refreshToken";
  if py_eq r (VStr "") then mret false else
  e ← getitem res "tokenExpireTime";
  mret (negb (py_eq e (VStr ""))).

Definition refresh_login (save_token token_path : value) : M value :=
  headers ← build_req_headers false false true;
  c ← get_self;
  let data := VDict [("refreshToken", _refresh_token c)] in
  url ← lift (str_add endpoints.refresh_login (_refresh_token c));
  response ← requests_post url (Some data) (Some headers);
  result ← json response;
  cond ← lift (refresh_condition result);
  if cond : bool then
    a ← lift (getitem result "accessToken");
    modify_self (set_access_token a);;
    r ← lift (getitem result "refreshToken");
    modify_self (set_refresh_token r);;
    e ← lift (getitem result "tokenExpireTime");
    modify_self (set_token_expire e);;
    c ← get_self;
    result ← lift (setitem result "uuid" (_uuid c));
    (if truthy save_token then _save_token result token_path else mret tt);;
    mret result
  else mret result.

Definition get_detail : M value :=
  headers ← build_req_headers false false true;
  response ← requests_get endpoints.user None (Some headers);
  json response.

Definition sig_get_account_id : signature := [("id", Some (VInt 0))].

Definition get_account_id (id : value) : M value :=
  headers ← build_req_headers false false true;
  response ← requests_get endpoints.account_id None (Some headers);
  result ← json response;
  success ← lift (getitem result "success");
  nonempty ← (if truthy success
              then lift (data ← getitem result "data"; n ← len data; mret (0 <? n))
              else mret false);
  if nonempty : bool then
    zone ← lift (data ← getitem result "data"; i ← py_int id;
                 d ← getindex data i; getitem d "rzone");
    modify_self (set_zone_var (VStr (py_str zone)));;
    acct ← lift (data ← getitem result "data"; i ← py_int id;
                 d ← getindex data i; getitem d "secAccountId");
    modify_self (set_account_id (VStr (py_str acct)));;
    c ← get_self;
    mret (_account_id c)
  else mret VNone.

Definition sig_get_account : signature := [].

Definition get_account : M value :=
  headers ← build_req_headers false false true;
  c ← get_self;
  response ← requests_get (endpoints.account (_account_id c)) None (Some headers);
  json response.

Definition sig_get_positions : signature := [].

Definition get_positions : M value :=
  data ← get_account;
  lift (getitem data "positions").

Definition sig_get_current_orders : signature := [].

Definition get_current_orders : M value :=
  data ← get_account;
  lift (getitem data "openOrders").

Definition sig_get_history_orders : signature :=
  [("status", Some (VStr "All")); ("count", Some (VInt 20))].

Definition get_history_orders (status count : value) : M value :=
  headers ← build_req_headers true true true;
  c ← get_self;
  response ← requests_get
    (endpoints.orders (_account_id c) count +:+ py_str status)
    None (Some headers);
  json response.

(** The loop of [get_ticker]: the [tickerId] of the first item whose
    ['symbol'] or ['disSymbol'] is [stock], or [ticker_id] as it was. *)
Fixpoint get_ticker_loop (stock : value) (items : list value)
    (ticker_id : value) : result value :=
  match items with
  | [] => Ok ticker_id
  | item :: rest =>
      has ← contains "symbol" item;
      by_symbol ← (if has : bool then s ← getitem item "symbol"; mret (py_eq s stock)
                   else mret false);
      if by_symbol : bool then getitem item "tickerId"
      else
        has ← contains "disSymbol" item;
        by_dis ← (if has : bool then s ← getitem item "disSymbol"; mret (py_eq s stock)
                  else mret false);
        if by_dis : bool then getitem item "tickerId"
        else get_ticker_loop stock rest ticker_id
  end.

Definition sig_get_ticker : signature := [("stock", Some (VStr ""))].

Definition get_ticker (stock : value) : M value :=
  headers ← build_req_headers false false true;
  let ticker_id := VInt 0 in
  if truthy stock && is_str stock then
    c ← get_self;
    response ← requests_get (endpoints.stock_id stock (_region_code c))
                 None (Some headers);
    result ← json response;
    data ← lift (dict_get_method result "data");
    if truthy data then
      data ← lift (getitem result "data");
      items ← lift (py_iter data);
      ticker_id ← lift (get_ticker_loop stock items ticker_id);
      if py_eq ticker_id (VInt 0)
      then lift (data ← getitem result "data"; first ← getindex data 0;
                 getitem first "tickerId")
      else mret ticker_id
    else raise (ValueError ("TickerId could not be found for stock " +:+ py_str stock))
  else raise (ValueError "Stock symbol is required").

Definition sig_get_quote : signature :=
  [("stock", Some VNone); ("tId", Some VNone)].

Definition get_quote (stock tId : value) : M value :=
  headers ← build_req_headers false false true;
  (if negb (truthy stock) && negb (truthy tId)
   then raise (ValueError "Must provide a stock symbol or a stock id")
   else mret tt);;
  tId ← (if truthy stock
         then try_ValueError
                (t ← get_ticker stock; mret (VStr (py_str t)))
                (raise (ValueError ("Could not find ticker for stock "
                                    +:+ py_str stock)))
         else mret tId);
  response ← requests_get (endpoints.quotes tId) None (Some headers);
  json response.

Definition sig_place_order : signature :=
  [("stock", Some VNone); ("tId", Some VNone); ("price", Some (VInt 0));
   ("action", Some (VStr "BUY")); ("orderType", Some (VStr "LMT"));
   ("enforce", Some (VStr "GTC")); ("quant", Some (VInt 0));
   ("outsideRegularTradingHour", Some (VBool true)); ("stpPrice", Some VNone);
   ("trial_value", Some (VInt 0)); ("trial_type", Some (VStr "DOLLAR"))].

(** The [tId] / [stock] preamble shared by the order and market-data
    methods. *)
Definition resolve_tId (stock tId : value) : M value :=
  if negb (is_None tId) then mret tId
  else if negb (is_None stock) then get_ticker stock
  else raise (ValueError "Must provide a stock symbol or a stock id").

(** The payload [place_order] builds, from the arguments already resolved;
    the conversions of the price fields happen in the branch that uses
    them. *)
Definition place_order_data
    (tId price action orderType enforce quant_int outsideRegularTradingHour
     stpPrice trial_value trial_type serialId : value)
  : result (list (string * value)) :=
  let data :=
    [("action", action);
     ("comboType", VStr "NORMAL");
     ("orderType", orderType);
     ("outsideRegularTradingHour", outsideRegularTradingHour);
     ("quantity", quant_int);
     ("serialId", serialId);
     ("tickerId", tId);
     ("timeInForce", enforce)] in
  if py_eq orderType (VStr "MKT") then
    mret (dict_set "outsideRegularTradingHour" (VBool false) data)
  else if py_eq orderType (VStr "LMT") then
    p ← py_float price;
    mret (dict_set "lmtPrice" (VFloat p) data)
  else if py_eq orderType (VStr "STP") then
    a ← py_float stpPrice;
    mret (dict_set "auxPrice" (VFloat a) data)
  else if py_eq orderType (VStr "STP LMT") then
    p ← py_float price;
    a ← py_float stpPrice;
    mret (dict_set "auxPrice" (VFloat a) (dict_set "lmtPrice" (VFloat p) data))
  else if py_eq orderType (VStr "STP TRAIL") then
    t ← py_float trial_value;
    mret (dict_set "trailingType" (VStr (py_str trial_type))
            (dict_set "trailingStopStep" (VFloat t) data))
  else mret data.

Definition place_order
    (stock tId price action orderType enforce quant outsideRegularTradingHour
     stpPrice trial_value trial_type : value) : M value :=
  tId ← resolve_tId stock tId;
  headers ← build_req_headers true true true;
  q ← lift (py_int quant);
  u ← uuid4;
  data ← lift (place_order_data tId price action orderType enforce (VInt q)
                 outsideRegularTradingHour stpPrice trial_value trial_type
                 (VStr (uuid_str u)));
  c ← get_self;
  response ← requests_post (endpoints.place_orders (_account_id c))
               (Some (VDict data)) (Some headers);
  json response.

Definition sig_modify_order : signature :=
  [("order", Some VNone); ("order_id", Some (VInt 0)); ("stock", Some VNone);
   ("tId", Some VNone); ("price", Some (VInt 0)); ("action", Some VNone);
   ("orderType", Some VNone); ("enforce", Some VNone); ("quant", Some (VInt 0));
   ("outsideRegularTradingHour", Some VNone)].

Definition modify_order
    (order order_id stock tId price action orderType enforce quant
     outsideRegularTradingHour : value) : M value :=
  (if negb (truthy order) && negb (truthy order_id)
   then raise (ValueError "Must provide an order or order_id")
   else mret tt);;
  headers ← build_req_headers true true true;
  modifiedAction ← py_or action (lift (getitem order "action"));
  p ← py_or price (lift (getitem order "lmtPrice"));
  modifiedLmtPrice ← lift (py_float p);
  modifiedOrderType ← py_or orderType (lift (getitem order "orderType"));
  modifiedOutsideRegularTradingHour ←
    (if is_bool outsideRegularTradingHour then mret outsideRegularTradingHour
     else lift (getitem order "outsideRegularTradingHour"));
  modifiedEnforce ← py_or enforce (lift (getitem order "timeInForce"));
  q ← py_or quant (lift (getitem order "quantity"));
  modifiedQuant ← lift (py_int q);
  tId ← (if negb (is_None tId) then mret tId
         else if negb (is_None stock) then get_ticker stock
         else lift (t ← getitem order "ticker"; getitem t "tickerId"));
  order_id ← py_or order_id (lift (getitem order "orderId"));
  u ← uuid4;
  let data :=
    [("action", modifiedAction);
     ("lmtPrice", VFloat modifiedLmtPrice);
     ("orderType", modifiedOrderType);
     ("quantity", VInt modifiedQuant);
     ("comboType", VStr "NORMAL");
     ("outsideRegularTradingHour", modifiedOutsideRegularTradingHour);
     ("serialId", VStr (uuid_str u));
     ("orderId", order_id);
     ("tickerId", tId);
     ("timeInForce", modifiedEnforce)] in
  let data := if py_eq modifiedOrderType (VStr "MKT")
              then dict_set "outsideRegularTradingHour" (VBool false) data
              else data in
  c ← get_self;
  response ← requests_post (endpoints.modify_order (_account_id c) order_id)
               (Some (VDict data)) (Some headers);
  json response.

Definition sig_cancel_order : signature := [("order_id", Some (VStr ""))].

Definition cancel_order (order_id : value) : M value :=
  headers ← build_req_headers true true true;
  c ← get_self;
  u ← uuid4;
  response ← requests_post
    (endpoints.cancel_order (_account_id c) +:+ py_str order_id +:+ "/"
       +:+ uuid_str u)
    (Some (VDict [])) (Some headers);
  result ← json response;
  lift (getitem result "success").

(** One leg of an OTOCO payload, its fields in the order the source writes
    them: the quantity is converted, then the ticker looked up, then the
    price converted.  [extra] is what follows ['comboType']. *)
Definition otoco_leg (orderType time_in_force quant : value)
    (order_id : option value) (action : string) (stock : value)
    (price_key : string) (price : value) (comboType : string)
    (with_serial : bool) : M value :=
  q ← lift (py_int quant);
  tId ← get_ticker stock;
  p ← lift (py_float price);
  serial ← (if with_serial then u ← uuid4; mret [("serialId", VStr (uuid_str u))]
            else mret []);
  mret (VDict
    ([("orderType", orderType); ("timeInForce", time_in_force);
      ("quantity", VInt q)]
     ++ match order_id with
        | Some i => [("orderId", VStr (py_str i))]
        | None => []
        end
     ++ [("outsideRegularTradingHour", VBool false); ("action", VStr action);
         ("tickerId", tId); (price_key, VFloat p);
         ("comboType", VStr comboType)]
     ++ serial)).

Definition otoco_legs (stock price stop_loss_price limit_profit_price
    time_in_force quant : value) (ids : option (value * value * value))
    (with_serial : bool) : M value :=
  o1 ← otoco_leg (VStr "LMT") time_in_force quant (fmap (λ i, i.1.1) ids)
         "BUY" stock "lmtPrice" price "MASTER" with_serial;
  o2 ← otoco_leg (VStr "STP") time_in_force quant (fmap (λ i, i.1.2) ids)
         "SELL" stock "auxPrice" stop_loss_price "STOP_LOSS" with_serial;
  o3 ← otoco_leg (VStr "LMT") time_in_force quant (fmap (λ i, i.2) ids)
         "SELL" stock "lmtPrice" limit_profit_price "STOP_PROFIT" with_serial;
  mret (VList [o1; o2; o3]).

Definition sig_place_order_otoco : signature :=
  [("stock", Some (VStr "")); ("price", Some (VStr ""));
   ("stop_loss_price", Some (VStr "")); ("limit_profit_price", Some (VStr ""));
   ("time_in_force", Some (VStr "DAY")); ("quant", Some (VInt 0))].

Definition place_order_otoco
    (stock price stop_loss_price limit_profit_price time_in_force quant : value)
  : M value :=
  headers ← build_req_headers false true true;
  legs ← otoco_legs stock price stop_loss_price limit_profit_price
           time_in_force quant None false;
  let data1 := VDict [("newOrders", legs)] in
  c ← get_self;
  response1 ← requests_post (endpoints.check_otoco_orders (_account_id c))
                (Some data1) (Some headers);
  result1 ← json response1;
  forward ← lift (getitem result1 "forward");
  if truthy forward then
    legs ← otoco_legs stock price stop_loss_price limit_profit_price
             time_in_force quant None true;
    u ← uuid4;
    let data2 := VDict [("newOrders", legs); ("serialId", VStr (uuid_str u))] in
    c ← get_self;
    response2 ← requests_post (endpoints.place_otoco_orders (_account_id c))
                  (Some data2) (Some headers);
    json response2
  else
    code ← lift (l ← getitem result1 "checkResultList"; r ← getindex l 0;
                 getitem r "code");
    print code;;
    msg ← lift (l ← getitem result1 "checkResultList"; r ← getindex l 0;
                getitem r "msg");
    print msg;;
    mret (VBool false).

Definition sig_modify_order_otoco : signature :=
  [("order_id1", Some (VStr "")); ("order_id2", Some (VStr ""));
   ("order_id3", Some (VStr "")); ("stock", Some (VStr ""));
   ("price", Some (VStr "")); ("stop_loss_price", Some (VStr ""));
   ("limit_profit_price", Some (VStr "")); ("time_in_force", Some (VStr "DAY"));
   ("quant", Some (VInt 0))].

Definition modify_order_otoco
    (order_id1 order_id2 order_id3 stock price stop_loss_price
     limit_profit_price time_in_force quant : value) : M value :=
  headers ← build_req_headers false true true;
  legs ← otoco_legs stock price stop_loss_price limit_profit_price
           time_in_force quant (Some (order_id1, order_id2, order_id3)) true;
  u ← uuid4;
  let data := VDict [("modifyOrders", legs); ("serialId", VStr (uuid_str u))] in
  c ← get_self;
  response ← requests_post (endpoints.modify_otoco_orders (_account_id c))
               (Some data) (Some headers);
  json response.

Definition sig_cancel_order_otoco : signature := [("combo_id", Some (VStr ""))].

Definition cancel_order_otoco (combo_id : value) : M value :=
  headers ← build_req_headers true true true;
  c ← get_self;
  response ← requests_post
    (endpoints.cancel_otoco_orders (_account_id c) combo_id)
    (Some (VDict [])) (Some headers);
  json response.

Definition sig_place_order_crypto : signature :=
  [("stock", Some VNone); ("tId", Some VNone); ("price", Some (VInt 0));
   ("action", Some (VStr "BUY")); ("orderType", Some (VStr "LMT"));
   ("enforce", Some (VStr "DAY")); ("entrust_type", Some (VStr "QTY"));
   ("quant", Some (VInt 0)); ("outsideRegularTradingHour", Some (VBool false))].

Definition place_order_crypto
    (stock tId price action orderType enforce entrust_type quant
     outsideRegularTradingHour : value) : M value :=
  tId ← resolve_tId stock tId;
  headers ← build_req_headers true true true;
  u ← uuid4;
  let data :=
    [("action", action);
     ("assetType", VStr "crypto");
     ("comboType", VStr "NORMAL");
     ("entrustType", entrust_type);
     ("lmtPrice", VStr (py_str price));
     ("orderType", orderType);
     ("outsideRegularTradingHour", outsideRegularTradingHour);
     ("quantity", VStr (py_str quant));
     ("serialId", VStr (uuid_str u));
     ("tickerId", tId);
     ("timeInForce", enforce)] in
  c ← get_self;
  response ← requests_post (endpoints.place_orders (_account_id c))
               (Some (VDict data)) (Some headers);
  json response.

Definition sig_place_order_option : signature :=
  [("optionId", Some VNone); ("lmtPrice", Some VNone); ("stpPrice", Some VNone);
   ("action", Some VNone); ("orderType", Some (VStr "LMT"));
   ("enforce", Some (VStr "DAY")); ("quant", Some (VInt 0))].

Definition place_order_option
    (optionId lmtPrice stpPrice action orderType enforce quant : value)
  : M value :=
  headers ← build_req_headers true true true;
  u ← uuid4;
  q ← lift (py_int quant);
  t ← lift (py_int optionId);
  let data :=
    [("orderType", orderType);
     ("serialId", VStr (uuid_str u));
     ("timeInForce", enforce);
     ("orders", VList [VDict [("quantity", VInt q); ("action", action);
                              ("tickerId", VInt t);
                              ("tickerType", VStr "OPTION")]])] in
  data ← lift (
    if py_eq orderType (VStr "LMT") && truthy lmtPrice then
      p ← py_float lmtPrice;
      mret (dict_set "lmtPrice" (VFloat p) data)
    else if py_eq orderType (VStr "STP") && truthy stpPrice then
      a ← py_float stpPrice;
      mret (dict_set "auxPrice" (VFloat a) data)
    else if py_eq orderType (VStr "STP LMT") && truthy lmtPrice
            && truthy stpPrice then
      p ← py_float lmtPrice;
      a ← py_float stpPrice;
      mret (dict_set "auxPrice" (VFloat a) (dict_set "lmtPrice" (VFloat p) data))
    else mret data);
  c ← get_self;
  response ← requests_post (endpoints.place_option_orders (_account_id c))
               (Some (VDict data)) (Some headers);
  if negb (status_code response =? 200)
  then raise (Exception_ "place_option_order failed" (status_code response)
                (reason response))
  else json response.

Definition sig_modify_order_option : signature :=
  [("order", Some VNone); ("lmtPrice", Some VNone); ("stpPrice", Some VNone);
   ("enforce", Some VNone); ("quant", Some (VInt 0))].

(** [x or order.get(k)] as a test, and [x or order[k]] as a value *)
Definition or_get (x order : value) (k : string) : result bool :=
  if truthy x then mret true else v ← dict_get_method order k; mret (truthy v).
Definition or_item (x order : value) (k : string) : result value :=
  if truthy x then mret x else getitem order k.

Definition modify_order_option (order lmtPrice stpPrice enforce quant : value)
  : M value :=
  headers ← build_req_headers true true true;
  comboId ← lift (getitem order "comboId");
  orderType ← lift (getitem order "orderType");
  tif ← lift (or_item enforce order "timeInForce");
  u ← uuid4;
  q ← lift (or_item quant order "totalQuantity");
  action ← lift (getitem order "action");
  tickerId ← lift (t ← getitem order "ticker"; getitem t "tickerId");
  orderId ← lift (getitem order "orderId");
  let data :=
    [("comboId", comboId);
     ("orderType", orderType);
     ("timeInForce", tif);
     ("serialId", VStr (uuid_str u));
     ("orders", VList [VDict [("quantity", q); ("action", action);
                              ("tickerId", tickerId);
                              ("tickerType", VStr "OPTION");
                              ("orderId", orderId)]])] in
  data ← lift (
    ot ← getitem order "orderType";
    has_lmt ← (if py_eq ot (VStr "LMT") then or_get lmtPrice order "lmtPrice"
               else mret false);
    if has_lmt : bool then
      p ← or_item lmtPrice order "lmtPrice";
      mret (dict_set "lmtPrice" p data)
    else
      ot ← getitem order "orderType";
      has_stp ← (if py_eq ot (VStr "STP") then or_get stpPrice order "auxPrice"
                 else mret false);
      if has_stp : bool then
        a ← or_item stpPrice order "auxPrice";
        mret (dict_set "auxPrice" a data)
      else
        ot ← getitem order "orderType";
        has_both ← (if py_eq ot (VStr "STP LMT") then
                      s ← or_get stpPrice order "auxPrice";
                      if s : bool then or_get lmtPrice order "lmtPrice"
                      else mret false
                    else mret false);
        if has_both : bool then
          a ← or_item stpPrice order "auxPrice";
          p ← or_item lmtPrice order "lmtPrice";
          mret (dict_set "lmtPrice" p (dict_set "auxPrice" a data))
        else mret data);
  c ← get_self;
  response ← requests_post (endpoints.replace_option_orders (_account_id c))
               (Some (VDict data)) (Some headers);
  if negb (status_code response =? 200)
  then raise (Exception_ "replace_option_order failed" (status_code response)
                (reason response))
  else mret (VBool true).

Definition sig_cancel_all_orders : signature := [].

Definition cancel_all_orders : M value :=
  open_orders ← get_current_orders;
  orders ← lift (py_iter open_orders);
  for_each orders (λ order,
    order_id ← lift (getitem order "orderId");
    cancel_order order_id;;
    mret tt);;
  mret VNone.

Definition sig_run_screener : signature :=
  [("region", Some VNone); ("price_lte", Some VNone); ("price_gte", Some VNone);
   ("pct_chg_gte", Some VNone); ("pct_chg_lte", Some VNone);
   ("sort", Some VNone); ("sort_dir", Some VNone); ("vol_lte", Some VNone);
   ("vol_gte", Some VNone)].

(** The [jdict] that [run_screener] posts. *)
Definition run_screener_jdict
    (region price_lte price_gte pct_chg_gte pct_chg_lte sort sort_dir vol_lte
     vol_gte : value) : list (string * value) :=
  let rules := [("wlas.screener.rule.region", VStr "securities.region.name.6")] in
  let rules :=
    if negb (is_None price_lte) && negb (is_None price_gte)
    then dict_set "wlas.screener.rule.price"
           (VStr ("gte=" +:+ py_str price_lte +:+ "&lte=" +:+ py_str price_gte))
           rules
    else rules in
  let rules :=
    if negb (is_None vol_lte) && negb (is_None vol_gte)
    then dict_set "wlas.screener.rule.volume"
           (VStr ("gte=" +:+ py_str vol_lte +:+ "&lte=" +:+ py_str vol_gte))
           rules
    else rules in
  let rules :=
    if negb (is_None pct_chg_lte) && negb (is_None pct_chg_gte)
    then dict_set "wlas.screener.rule.changeRatio"
           (VStr ("gte=" +:+ py_str pct_chg_lte +:+ "&lte=" +:+ py_str pct_chg_gte))
           rules
    else rules in
  let sort_rules := [] in
  let sort_rules :=
    if is_None sort
    then dict_set "rule" (VStr "wlas.screener.rule.price") sort_rules
    else sort_rules in
  let sort_rules :=
    if is_None sort_dir
    then dict_set "desc" (VStr "true") sort_rules
    else sort_rules in
  [("fetch", VInt 200);
   ("rules", VDict rules);
   ("sort", VDict sort_rules);
   ("attach", VDict [("hkexPrivilege", VStr "true")])].

Definition run_screener
    (region price_lte price_gte pct_chg_gte pct_chg_lte sort sort_dir vol_lte
     vol_gte : value) : M value :=
  let jdict := run_screener_jdict region price_lte price_gte pct_chg_gte
                 pct_chg_lte sort sort_dir vol_lte vol_gte in
  response ← requests_post endpoints.screener (Some (VDict jdict)) None;
  json response.

Definition sig_get_bars : signature :=
  [("stock", Some VNone); ("tId", Some VNone); ("interval", Some (VStr "m1"));
   ("count", Some (VInt 1)); ("extendTrading", Some (VInt 0));
   ("timeStamp", Some VNone)].

(** [row[i]] of a split row *)
Definition column (row : list string) (i : nat) : result string :=
  match row !! i with Some s => Ok s | None => Raise IndexError end.

Definition float_column (row : list string) (i : nat) : result float :=
  s ← column row i;
  match float_of_str s with
  | Some f => Ok f
  | None => Raise (ValueError "could not convert string to float")
  end.

(** The body of the loop of [get_bars] up to the assignment: the row is
    split, its ['null'] fields become ['0'], the dict of prices is built in
    the order the source writes it, then the label is computed. *)
Definition bar_of_row (time_zone : string) (row : value)
  : result (Timestamp * Bar) :=
  match row with
  | VStr line =>
      let row := split_on "," line in
      let row := map (λ value, if String.eqb value "null" then "0" else value) row in
      o ← float_column row 1;
      h ← float_column row 3;
      l ← float_column row 4;
      c ← float_column row 2;
      v ← float_column row 6;
      w ← float_column row 7;
      t ← column row 0;
      match int_of_str t with
      | None => Raise (ValueError "invalid literal for int()")
      | Some n =>
          if fromtimestamp_ok n
          then Ok (mkTimestamp n time_zone, mkBar o h l c v w)
          else Raise OverflowError
      end
  | _ => Raise AttributeError
  end.

Fixpoint get_bars_loop (time_zone : string) (rows : list value) (df : DataFrame)
  : result DataFrame :=
  match rows with
  | [] => Ok df
  | row :: rest =>
      lb ← bar_of_row time_zone row;
      get_bars_loop time_zone rest (loc_assign lb.1 lb.2 df)
  end.

Definition get_bars (stock tId interval count extendTrading timeStamp : value)
  : M DataFrame :=
  headers ← build_req_headers false false true;
  tId ← resolve_tId stock tId;
  let params := VDict [("type", interval); ("count", count);
                       ("extendTrading", extendTrading);
                       ("timestamp", timeStamp)] in
  let df : DataFrame := [] in
  response ← requests_get (endpoints.bars tId) (Some params) (Some headers);
  result ← json response;
  time_zone ← lift (r ← getindex result 0; z ← getitem r "timeZone";
                    pytz_timezone z);
  data ← lift (r ← getindex result 0; getitem r "data");
  rows ← lift (py_iter data);
  df ← lift (get_bars_loop time_zone rows df);
  mret (rev df).

End WithLib.
(** *** The methods of the session and of market data *)

Definition dquote : string := String (ascii_of_nat 34) EmptyString.

(** [output[item['key']] = item['value']] for each item, in turn: the value
    is read before the key. *)
Fixpoint portfolio_of (items : list value) (output : pydict)
  : result pydict :=
  match items with
  | [] => Ok output
  | item :: rest =>
      v ← getitem item "value";
      k ← getitem item "key";
      output ← pydict_store k v output;
      portfolio_of rest output
  end.

(** The loop of [get_options]: the ['date'] of the first entry with
    ['days'] above 0, or [expireDate] as it was. *)
Fixpoint next_expire_date (dates : list value) (expireDate : value)
  : result value :=
  match dates with
  | [] => Ok expireDate
  | d :: rest =>
      days ← getitem d "days";
      later ← py_positive days;
      if later : bool then getitem d "date"
      else next_expire_date rest expireDate
  end.

(** [[c for c in opts if c['strikePrice'] == strike]] *)
Fixpoint with_strike (opts : list value) (strike : value)
  : result (list value) :=
  match opts with
  | [] => Ok []
  | c :: rest =>
      s ← getitem c "strikePrice";
      tl ← with_strike rest strike;
      mret (if py_eq s strike then c :: tl else tl)
  end.

(** The loops of [get_five_min_ranking]: [rank] is assigned at every entry
    whose ['id'] is [id]; there is no [break]. *)
Fixpoint ranking_loop (id : string) (items : list value) (rank : value)
  : result value :=
  match items with
  | [] => Ok rank
  | data :: rest =>
      i ← getitem data "id";
      if py_eq i (VStr id)
      then r ← getitem data "data"; ranking_loop id rest r
      else ranking_loop id rest rank
  end.

(** [list(map(lambda x: x.get('symbol'), list_ticker))] *)
Fixpoint symbols_of (list_ticker : list value) : result (list value) :=
  match list_ticker with
  | [] => Ok []
  | x :: rest =>
      s ← dict_get_method x "symbol";
      tl ← symbols_of rest;
      mret (s :: tl)
  end.

Section WithOS.
Context `{!PyLib} `{!PyOS}.

Definition sig_save_credential : signature :=
  [("path", Some (VStr "")); ("credential_data", Some VNone)].

Definition save_credential (path credential_data : value) : M value :=
  let credential_path := if truthy path then path else DEFAULT_CREDENTIAL_PATH in
  credential_data ←
    (if truthy credential_data then mret credential_data
     else c ← get_self;
          match _credential_data c with
          | Some d => mret d
          | None => raise AttributeError
          end);
  modify_self (set_credential_data credential_data);;
  json_dump credential_path credential_data;;
  mret credential_data.

Definition sig_credential_login : signature :=
  [("credential_path", Some (VStr "")); ("refresh", Some (VBool false))].

(** A file that cannot be opened is a file that is not there. *)
Definition credential_login (credential_path refresh : value) : M value :=
  let credential_path := if truthy credential_path then credential_path
                         else DEFAULT_CREDENTIAL_PATH in
  p ← lift (path_str credential_path);
  loaded ← json_load p;
  match loaded with
  | None =>
      print (VStr ("Failed to open " +:+ p
                   +:+ ": [Errno 2] No such file or directory: " +:+ str_repr p));;
      mret VNone
  | Some credential_data =>
      r ← lift (getitem credential_data "refreshToken");
      modify_self (set_refresh_token r);;
      a ← lift (getitem credential_data "accessToken");
      modify_self (set_access_token a);;
      e ← lift (getitem credential_data "tokenExpireTime");
      modify_self (set_token_expire e);;
      u ← lift (getitem credential_data "uuid");
      modify_self (set_uuid u);;
      modify_self (set_credential_data credential_data);;
      get_account_id (VInt 0);;
      (if truthy refresh then
         res ← refresh_login (VBool false) VNone;
         modify_self (set_credential_data res);;
         save_credential (VStr p) VNone;;
         mret tt
       else mret tt);;
      mret credential_data
  end.

Definition sig_login : signature :=
  [("username", Some (VStr "")); ("password", Some (VStr ""));
   ("device_name", Some (VStr "")); ("mfa", Some (VStr ""));
   ("question_id", Some (VStr "")); ("question_answer", Some (VStr ""));
   ("credential_path", Some (VStr "")); ("save_token", Some (VBool false));
   ("token_path", Some VNone)].

(** The payload of [login] before the request: [extInfo] when a code is
    given, [accessQuestions] when a question and its answer are. *)
Definition login_data (username account_type did device_name pwd region_code
    mfa question_id question_answer : value) : list (string * value) :=
  let device_name := if py_eq device_name (VStr "") then VStr "default_string"
                     else device_name in
  let data :=
    [("account", username); ("accountType", VStr (py_str account_type));
     ("deviceId", did); ("deviceName", device_name); ("grade", VInt 1);
     ("pwd", pwd); ("regionId", region_code)] in
  let data :=
    if negb (py_eq mfa (VStr ""))
    then dict_set "extInfo"
           (VDict [("codeAccountType", account_type);
                   ("verificationCode", mfa)]) data
    else data in
  if negb (py_eq question_id (VStr "")) && negb (py_eq question_answer (VStr ""))
  then dict_set "accessQuestions"
         (VStr ("[{" +:+ dquote +:+ "questionId" +:+ dquote +:+ ":" +:+ dquote
                +:+ py_str question_id +:+ dquote +:+ ", " +:+ dquote
                +:+ "answer" +:+ dquote +:+ ":" +:+ dquote
                +:+ py_str question_answer +:+ dquote +:+ "}]")) data
  else data.

Definition login
    (username password device_name mfa question_id question_answer
     credential_path save_token token_path : value) : M value :=
  (if truthy credential_path
   then credential_login credential_path (VBool false);; mret tt
   else mret tt);;
  if negb (truthy username) || negb (truthy password)
  then credential_login (VStr "") (VBool false)
  else
    salted ← lift (str_add "wl_app-a&b@!423^" password);
    let pwd := VStr (md5_hexdigest salted) in
    account_type ← get_account_type username;
    c ← get_self;
    let data := login_data username account_type (_did c) device_name pwd
                  (_region_code c) mfa question_id question_answer in
    headers ← (if negb (py_eq mfa (VStr ""))
               then build_req_headers false false true
               else c ← get_self; mret (_headers c));
    response ← requests_post endpoints.login (Some (VDict data)) (Some headers);
    result ← json response;
    has ← lift (contains "accessToken" result);
    (if has : bool then
       a ← lift (getitem result "accessToken");
       modify_self (set_access_token a);;
       r ← lift (getitem result "refreshToken");
       modify_self (set_refresh_token r);;
       e ← lift (getitem result "tokenExpireTime");
       modify_self (set_token_expire e);;
       u ← lift (getitem result "uuid");
       modify_self (set_uuid u);;
       acct ← get_account_id (VInt 0);
       modify_self (set_account_id acct);;
       modify_self (set_credential_data result);;
       (if truthy save_token then _save_token result token_path else mret tt)
     else mret tt);;
    mret result.

Definition get_mfa (username : value) : M value :=
  account_type ← get_account_type username;
  let data := VDict [("account", VStr (py_str username));
                     ("accountType", VStr (py_str account_type));
                     ("codeType", VInt 5)] in
  c ← get_self;
  response ← requests_post endpoints.get_mfa (Some data) (Some (_headers c));
  mret (VBool (status_code response =? 200)).

Definition check_mfa (username mfa : value) : M value :=
  account_type ← get_account_type username;
  let data := VDict [("account", VStr (py_str username));
                     ("accountType", VStr (py_str account_type));
                     ("code", VStr (py_str mfa));
                     ("codeType", VInt 5)] in
  c ← get_self;
  response ← requests_post endpoints.check_mfa (Some data) (Some (_headers c));
  json response.

Definition next_security (username : value) : M value :=
  account_type ← get_account_type username;
  username ← lift (url_quote username);
  now ← time_time;
  let time := VFloat (now * 1000)%float in
  c ← get_self;
  response ← requests_get
    (endpoints.next_security (VStr username) account_type (_region_code c)
       (VStr "PRODUCT_LOGIN") time (VInt 0))
    None (Some (_headers c));
  data ← json response;
  n ← lift (len data);
  if n =? 0 then
    c ← get_self;
    response ← requests_get
      (endpoints.next_security (VStr username) account_type (_region_code c)
         (VStr "PRODUCT_LOGIN") time (VInt 1))
      None (Some (_headers c));
    print (VStr ("<Response [" +:+ pretty (status_code response) +:+ "]>"));;
    json response
  else mret data.

Definition check_security (username question_id question_answer : value)
  : M value :=
  account_type ← get_account_type username;
  let data :=
    VDict [("account", VStr (py_str username));
           ("accountType", VStr (py_str account_type));
           ("answerList",
            VList [VDict [("questionId", VStr (py_str question_id));
                          ("answer", VStr (py_str question_answer))]]);
           ("event", VStr "PRODUCT_LOGIN")] in
  c ← get_self;
  response ← requests_post endpoints.check_security (Some data)
               (Some (_headers c));
  json response.

Definition sig_api_login : signature :=
  [("access_token", Some (VStr "")); ("refresh_token", Some (VStr ""));
   ("token_expire", Some (VStr "")); ("uuid", Some (VStr ""));
   ("mfa", Some (VStr ""))].

Definition api_login (access_token refresh_token token_expire uuid mfa : value)
  : M value :=
  modify_self (set_access_token access_token);;
  modify_self (set_refresh_token refresh_token);;
  modify_self (set_token_expire token_expire);;
  modify_self (set_uuid uuid);;
  acct ← get_account_id (VInt 0);
  modify_self (set_account_id acct);;
  mret VNone.

Definition get_portfolio : M pydict :=
  data ← get_account;
  members ← lift (getitem data "accountMembers");
  items ← lift (py_iter members);
  lift (portfolio_of items []).

Definition sig_get_activities : signature :=
  [("index", Some (VInt 1)); ("size", Some (VInt 500))].

Definition get_activities (index size : value) : M value :=
  headers ← build_req_headers true true true;
  let data := VDict [("pageIndex", index); ("pageSize", size)] in
  c ← get_self;
  response ← requests_post (endpoints.account_activities (_account_id c))
               (Some data) (Some headers);
  json response.

Definition sig_get_trade_token : signature := [("password", Some (VStr ""))].

Definition get_trade_token (password : value) : M value :=
  headers ← build_req_headers false false true;
  salted ← lift (str_add "wl_app-a&b@!423^" password);
  let data := VDict [("pwd", VStr (md5_hexdigest salted))] in
  response ← requests_post endpoints.trade_token (Some data) (Some headers);
  result ← json response;
  has ← lift (contains "tradeToken" result);
  if has : bool then
    t ← lift (getitem result "tradeToken");
    modify_self (set_trade_token t);;
    mret (VBool true)
  else mret (VBool false).

Definition get_option_quote (stock tId optionId : value) : M value :=
  (if negb (truthy stock) && negb (truthy tId)
   then raise (ValueError "Must provide a stock symbol or a stock id")
   else mret tt);;
  tId ← (if truthy stock
         then try_ValueError
                (t ← get_ticker stock; mret (VStr (py_str t)))
                (raise (ValueError ("Could not find ticker for stock "
                                    +:+ py_str stock)))
         else mret tId);
  headers ← build_req_headers false false true;
  let params := VDict [("tickerId", tId); ("derivativeIds", optionId)] in
  response ← requests_get endpoints.option_quotes (Some params) (Some headers);
  json response.

Definition sig_get_options_expiration_dates : signature :=
  [("stock", Some VNone); ("count", Some (VInt (-1)))].

Definition get_options_expiration_dates (stock count : value) : M value :=
  headers ← build_req_headers false false true;
  let data := VDict [("count", count)] in
  tId ← get_ticker stock;
  response ← requests_get (endpoints.options_exp_date tId) (Some data)
               (Some headers);
  result ← json response;
  lift (getitem result "expireDateList").

Definition sig_get_options : signature :=
  [("stock", Some VNone); ("count", Some (VInt (-1)));
   ("includeWeekly", Some (VInt 1)); ("direction", Some (VStr "all"));
   ("expireDate", Some VNone); ("queryAll", Some (VInt 0))].

Definition get_options
    (stock count includeWeekly direction expireDate queryAll : value)
  : M value :=
  headers ← build_req_headers false false true;
  expireDate ← (if negb (truthy expireDate) then
                  dates ← get_options_expiration_dates stock (VInt (-1));
                  ds ← lift (py_iter dates);
                  lift (next_expire_date ds expireDate)
                else mret expireDate);
  let params := VDict [("count", count); ("includeWeekly", includeWeekly);
                       ("direction", direction); ("expireDate", expireDate);
                       ("unSymbol", stock); ("queryAll", queryAll)] in
  tId ← get_ticker stock;
  response ← requests_get (endpoints.options tId) (Some params) (Some headers);
  data ← json response;
  lift (getitem data "data").

Definition get_options_by_strike_and_expire_date
    (stock expireDate strike direction : value) : M value :=
  opts ← get_options stock (VInt (-1)) (VInt 1) direction expireDate (VInt 0);
  cs ← lift (py_iter opts);
  found ← lift (with_strike cs strike);
  mret (VList found).

Definition get_tradable (stock : value) : M value :=
  headers ← build_req_headers false false true;
  tId ← get_ticker stock;
  response ← requests_get (endpoints.is_tradable tId) None (Some headers);
  json response.

Definition alerts_list : M value :=
  headers ← build_req_headers false false true;
  response ← requests_get endpoints.list_alerts None (Some headers);
  result ← json response;
  has ← lift (contains "data" result);
  if has : bool then lift (dict_get_method result "data") else mret VNone.

Definition sig_active_gainer_loser : signature :=
  [("direction", Some (VStr "gainer")); ("rank_type", Some (VStr "afterMarket"));
   ("count", Some (VInt 50))].

Definition active_gainer_loser (direction rank_type count : value) : M value :=
  headers ← build_req_headers false false true;
  c ← get_self;
  response ← requests_get
    (endpoints.active_gainers_losers direction (_region_code c) rank_type count)
    None (Some headers);
  json response.

Definition get_analysis (stock : value) : M value :=
  headers ← build_req_headers false false true;
  tId ← get_ticker stock;
  response ← requests_get (endpoints.analysis tId) None (Some headers);
  json response.

Definition get_capital_flow (stock tId show_hist : value) : M value :=
  headers ← build_req_headers false false true;
  tId ← resolve_tId stock tId;
  response ← requests_get (endpoints.analysis_capital_flow tId show_hist)
               None (Some headers);
  json response.

Definition get_etf_holding (stock tId has_num count : value) : M value :=
  headers ← build_req_headers false false true;
  tId ← resolve_tId stock tId;
  response ← requests_get (endpoints.analysis_etf_holding tId has_num count)
               None (Some headers);
  json response.

Definition get_institutional_holding (stock tId : value) : M value :=
  headers ← build_req_headers false false true;
  tId ← resolve_tId stock tId;
  response ← requests_get (endpoints.analysis_institutional_holding tId)
               None (Some headers);
  json response.

Definition get_short_interest (stock tId : value) : M value :=
  headers ← build_req_headers false false true;
  tId ← resolve_tId stock tId;
  response ← requests_get (endpoints.analysis_shortinterest tId)
               None (Some headers);
  json response.

Definition get_financials (stock : value) : M value :=
  headers ← build_req_headers false false true;
  tId ← get_ticker stock;
  response ← requests_get (endpoints.fundamentals tId) None (Some headers);
  json response.

Definition get_news (stock tId Id items : value) : M value :=
  headers ← build_req_headers false false true;
  tId ← resolve_tId stock tId;
  response ← requests_get (endpoints.news tId Id items) None (Some headers);
  json response.

(** What [get_bars], [get_bars_crypto] and [get_options_bars] each do with
    the parsed answer *)
Definition frame_of_bars (res : value) : result DataFrame :=
  time_zone ← (r ← getindex res 0; z ← getitem r "timeZone";
               pytz_timezone z);
  data ← (r ← getindex res 0; getitem r "data");
  rows ← py_iter data;
  df ← get_bars_loop time_zone rows [];
  mret (rev df).

Definition get_bars_crypto
    (stock tId interval count extendTrading timeStamp : value) : M DataFrame :=
  headers ← build_req_headers false false true;
  tId ← resolve_tId stock tId;
  let params := VDict [("type", interval); ("count", count);
                       ("extendTrading", extendTrading);
                       ("timestamp", timeStamp)] in
  response ← requests_get (endpoints.bars_crypto tId) (Some params)
               (Some headers);
  result ← json response;
  lift (frame_of_bars result).

Definition sig_get_options_bars : signature :=
  [("derivativeId", Some VNone); ("interval", Some (VStr "1m"));
   ("count", Some (VInt 1)); ("direction", Some (VInt 1));
   ("timeStamp", Some VNone)].

Definition get_options_bars
    (derivativeId interval count direction timeStamp : value) : M DataFrame :=
  headers ← build_req_headers false false true;
  (if is_None derivativeId
   then raise (ValueError "Must provide a derivative ID")
   else mret tt);;
  let params := VDict [("type", interval); ("count", count);
                       ("direction", direction); ("timestamp", timeStamp)] in
  response ← requests_get (endpoints.options_bars derivativeId) (Some params)
               (Some headers);
  result ← json response;
  lift (frame_of_bars result).

Definition get_dividends : M value :=
  headers ← build_req_headers false false true;
  c ← get_self;
  response ← requests_post (endpoints.dividends (_account_id c))
               (Some (VDict [])) (Some headers);
  json response.

Definition get_five_min_ranking (extendTrading : value) : M value :=
  headers ← build_req_headers false false true;
  c ← get_self;
  let params := VDict [("regionId", _region_code c);
                       ("userRegionId", _region_code c);
                       ("platform", VStr "pc");
                       ("limitCards", VStr "latestActivityPc")] in
  response ← requests_get endpoints.rankings (Some params) (Some headers);
  cards ← json response;
  result ← lift (first ← getindex cards 0; dict_get_method first "data");
  items ← lift (py_iter result);
  lift (ranking_loop (if truthy extendTrading then "latestActivityPc.faList"
                      else "latestActivityPc.5minutes") items (VList [])).

Definition get_watchlists (as_list_symbols : value) : M value :=
  headers ← build_req_headers false false true;
  let params := VDict [("version", VInt 0)] in
  response ← requests_get endpoints.portfolio_lists (Some params)
               (Some headers);
  if negb (truthy as_list_symbols) then
    lists ← json response;
    lift (getitem lists "portfolioList")
  else
    lists ← json response;
    list_ticker ← lift (l ← getitem lists "portfolioList"; first ← getindex l 0;
                        dict_get_method first "tickerList");
    xs ← lift (py_iter list_ticker);
    symbols ← lift (symbols_of xs);
    mret (VList symbols).

Definition is_logged_in : M value :=
  try_KeyError (get_account_id (VInt 0);; mret (VBool true))
               (mret (VBool false)).

End WithOS.
End Webull.

(** ** paper_webull.py: class PaperWebull(Webull) *)

Module PaperWebull.
Import Py Env.
Export Webull.

Section WithLib.
Context `{!PyLib}.

Definition sig_get_account : signature := [].

Definition get_account : M value :=
  headers ← build_req_headers false false true;
  c ← get_self;
  response ← requests_get (endpoints.paper_account (_account_id c))
               None (Some headers);
  json response.

Definition sig_get_account_id : signature := [].

Definition get_account_id : M value :=
  headers ← build_req_headers false false true;
  response ← requests_get endpoints.paper_account_id None (Some headers);
  result ← json response;
  found ← lift (
    if is_None result then mret false else
    n ← len result;
    if negb (0 <? n) then mret false else
    first ← getindex result 0;
    contains "id" first);
  if found : bool then
    id ← lift (first ← getindex result 0; getitem first "id");
    modify_self (set_account_id id);;
    mret id
  else mret VNone.

Definition sig_get_current_orders : signature := [].

Definition get_current_orders : M value :=
  data ← get_account;
  lift (getitem data "openOrders").

Definition sig_get_history_orders : signature :=
  [("status", Some (VStr "Cancelled")); ("count", Some (VInt 20))].

Definition get_history_orders (status count : value) : M value :=
  headers ← build_req_headers true true true;
  c ← get_self;
  response ← requests_get
    (endpoints.paper_orders (_account_id c) count +:+ py_str status)
    None (Some headers);
  json response.

Definition sig_get_positions : signature := [].

(** [positions[symbol] = item] for each item, in turn *)
Fixpoint positions_by_symbol (items : list value) (positions : pydict)
  : result pydict :=
  match items with
  | [] => Ok positions
  | item :: rest =>
      symbol ← (t ← getitem item "ticker"; getitem t "symbol");
      positions ← pydict_store symbol item positions;
      positions_by_symbol rest positions
  end.

Definition get_positions : M pydict :=
  data ← get_account;
  positions_data ← lift (getitem data "positions");
  items ← lift (py_iter positions_data);
  lift (positions_by_symbol items []).

Definition sig_place_order : signature :=
  [("stock", Some VNone); ("tId", Some VNone); ("price", Some (VInt 0));
   ("action", Some (VStr "BUY")); ("orderType", Some (VStr "LMT"));
   ("enforce", Some (VStr "GTC")); ("quant", Some (VInt 0));
   ("outsideRegularTradingHour", Some (VBool true))].

Definition place_order
    (stock tId price action orderType enforce quant outsideRegularTradingHour
     : value) : M value :=
  tId ← resolve_tId stock tId;
  headers ← build_req_headers true true true;
  p ← lift (py_float price);
  q ← lift (py_int quant);
  u ← uuid4;
  let data :=
    [("action", action);
     ("lmtPrice", VFloat p);
     ("orderType", orderType);
     ("outsideRegularTradingHour", outsideRegularTradingHour);
     ("quantity", VInt q);
     ("serialId", VStr (uuid_str u));
     ("tickerId", tId);
     ("timeInForce", enforce)] in
  let data := if py_eq orderType (VStr "MKT")
              then dict_set "outsideRegularTradingHour" (VBool false) data
              else data in
  c ← get_self;
  response ← requests_post (endpoints.paper_place_order (_account_id c) tId)
               (Some (VDict data)) (Some headers);
  json response.

Definition sig_modify_order : signature :=
  [("order", None); ("price", Some (VInt 0)); ("action", Some (VStr "BUY"));
   ("orderType", Some (VStr "LMT")); ("enforce", Some (VStr "GTC"));
   ("quant", Some (VInt 0)); ("outsideRegularTradingHour", Some (VBool true))].

Definition modify_order
    (order price action orderType enforce quant outsideRegularTradingHour
     : value) : M value :=
  headers ← build_req_headers false false true;
  p ← lift (py_float price);
  u ← uuid4;
  tickerId ← lift (t ← getitem order "ticker"; getitem t "tickerId");
  let data :=
    [("action", action);
     ("lmtPrice", VFloat p);
     ("orderType", orderType);
     ("comboType", VStr "NORMAL");
     ("outsideRegularTradingHour", outsideRegularTradingHour);
     ("serialId", VStr (uuid_str u));
     ("tickerId", tickerId);
     ("timeInForce", enforce)] in
  keep ← lift (if py_eq quant (VInt 0) then mret true
               else total ← getitem order "totalQuantity";
                    mret (py_eq quant total));
  data ← lift (if keep : bool
               then total ← getitem order "totalQuantity";
                    mret (dict_set "quantity" total data)
               else q ← py_int quant;
                    mret (dict_set "quantity" (VInt q) data));
  c ← get_self;
  orderId ← lift (getitem order "orderId");
  response ← requests_post
    (endpoints.paper_modify_order (_account_id c) orderId)
    (Some (VDict data)) (Some headers);
  if response_ok response then mret (VBool true)
  else
    body ← json response;
    print (VStr ("Modify didn't succeed. <Response ["
                 +:+ pretty (status_code response) +:+ "]> " +:+ py_str body));;
    mret (VBool false).

Definition sig_cancel_order : signature := [("order_id", None)].

(** The request carries no [json=] argument. *)
Definition cancel_order (order_id : value) : M value :=
  headers ← build_req_headers false false true;
  c ← get_self;
  response ← requests_post
    (endpoints.paper_cancel_order (_account_id c) order_id)
    None (Some headers);
  mret (VBool (response_ok response)).

End WithLib.
Section Social.
Context `{!PyLib}.

Definition sig_get_social_posts : signature :=
  [("topic", None); ("num", Some (VInt 100))].

Definition get_social_posts (topic num : value) : M value :=
  headers ← build_req_headers false false true;
  response ← requests_get (endpoints.social_posts topic num) None (Some headers);
  json response.

Definition get_social_home (topic num : value) : M value :=
  headers ← build_req_headers false false true;
  response ← requests_get (endpoints.social_home topic num) None (Some headers);
  json response.

End Social.
End PaperWebull.

(** ** A concrete library and world, for evaluating the model

    [lib] agrees with Python on the inputs the examples below use: decimal
    integer text, floats that are whole numbers, strings without quotes, user
    names without an at sign (which the e-mail validator always refuses; what
    it says of an address depends on the domain), epochs at least a day
    inside the range of [datetime]. *)

Module Sample.
Import Py Env.

Definition digit_of (c : ascii) : option Z :=
  let n := Z.of_nat (nat_of_ascii c) in
  if (48 <=? n) && (n <=? 57) then Some (n - 48) else None.

Fixpoint digits (s : string) (acc : Z) : option Z :=
  match s with
  | EmptyString => Some acc
  | String c s' =>
      match digit_of c with
      | Some d => digits s' (10 * acc + d)
      | None => None
      end
  end.

Definition decimal (s : string) : option Z :=
  match s with
  | EmptyString => None
  | String "-" (String c s') => Z.opp <$> digits (String c s') 0
  | _ => digits s 0
  end.

(** [round(x)]: to the nearest integer, ties to even. *)
Definition float_round (f : float) : option Z :=
  match Prim2SF f with
  | S754_zero _ => Some 0
  | S754_finite s m e =>
      let a :=
        if 0 <=? e then Z.pos m * 2 ^ e
        else
          let q := Z.pos m / 2 ^ (- e) in
          let r := Z.pos m mod 2 ^ (- e) in
          match 2 * r ?= 2 ^ (- e) with
          | Lt => q
          | Gt => q + 1
          | Eq => if Z.even q then q else q + 1
          end in
      Some (if s then - a else a)
  | _ => None
  end.

(** [urllib.parse.quote]: every byte but letters, digits and [_.-~/] as a
    percent sign and two upper-case hexadecimal digits. *)
Definition hex_digit (n : Z) : ascii :=
  ascii_of_nat (Z.to_nat (if n <? 10 then 48 + n else 55 + n)).

Definition is_unreserved (c : ascii) : bool :=
  let n := Z.of_nat (nat_of_ascii c) in
  ((48 <=? n) && (n <=? 57)) || ((65 <=? n) && (n <=? 90))
  || ((97 <=? n) && (n <=? 122))
  || (n =? 45) || (n =? 46) || (n =? 95) || (n =? 126) || (n =? 47).

Fixpoint quote (s : string) : string :=
  match s with
  | EmptyString => EmptyString
  | String c s' =>
      let n := Z.of_nat (nat_of_ascii c) in
      if is_unreserved c then String c (quote s')
      else String "%" (String (hex_digit (n / 16))
                         (String (hex_digit (n mod 16)) (quote s')))
  end.

Definition whole_float_repr (f : float) : string :=
  match float_trunc f with
  | Some n => if float_eq_Z f n then pretty n +:+ ".0" else "<float>"
  | None => "<float>"
  end.

Definition lib : PyLib := {|
  float_of_str s := float_of_Z <$> decimal s;
  int_of_str := decimal;
  float_repr := whole_float_repr;
  str_repr s := "'" +:+ s +:+ "'";
  url_quote v := match v with VStr s => Ok (quote s) | _ => Raise TypeError end;
  validate_email v :=
    match v with VStr s => Ok (is_substring "@" s) | _ => Raise AttributeError end;
  pytz_timezone v :=
    match v with
    | VStr s => if String.eqb s "America/New_York" then Ok s
                else Raise UnknownTimeZoneError
    | VNone => Raise UnknownTimeZoneError
    | _ => Raise AttributeError
    end;
  fromtimestamp_ok n := (-62135510400 <=? n) && (n <? 253402300800);
  round_millis t := default 0 (float_round (t * 1000)%float);
|}.

Definition blank_client : Client :=
  mkClient 1%positive VNone VNone VNone VNone VNone VNone VNone VNone VNone
           VNone None.

(** A world before [Webull()]: no object yet, no did.bin, the clock at
    1700000000 s, and [responses] waiting at the vendor. *)
Definition boot (responses : list Response) : World :=
  mkWorld blank_client ∅ responses []
          (λ n, float_of_Z (1700000000 + Z.of_nat n)) 0
          (λ n, mkUUID ("uuid-" +:+ pretty (Z.of_nat n))
                       ("hex" +:+ pretty (Z.of_nat n))) 0
          [] (λ _, NoFile None) [].

(** The world right after [wb = Webull()]. *)
Definition fresh (responses : list Response) : World :=
  (Webull.__init__ (boot responses)).2.

Definition ok_json (v : value) : Response := mkResponse 200 "OK" (Some v).

(** The world after [wb = Webull()] and a trade token obtained. *)
Definition trading (token : string) (responses : list Response) : World :=
  (modify_self (set_trade_token (VStr token)) (fresh responses)).2.

(** The vendor's answer to a ticker search: one item per (symbol, id). *)
Definition tickers (found : list (string * Z)) : Response :=
  ok_json (VDict [("data",
    VList (map (λ si, VDict [("symbol", VStr si.1); ("tickerId", VInt si.2)])
               found))]).

(** *** MD5 (RFC 1321), for the password digests *)

Definition md5_shifts : list Z :=
  [7; 12; 17; 22; 7; 12; 17; 22; 7; 12; 17; 22; 7; 12; 17; 22;
   5; 9; 14; 20; 5; 9; 14; 20; 5; 9; 14; 20; 5; 9; 14; 20;
   4; 11; 16; 23; 4; 11; 16; 23; 4; 11; 16; 23; 4; 11; 16; 23;
   6; 10; 15; 21; 6; 10; 15; 21; 6; 10; 15; 21; 6; 10; 15; 21].

Definition md5_sines : list Z :=
  [3614090360; 3905402710; 606105819; 3250441966; 4118548399; 1200080426;
   2821735955; 4249261313; 1770035416; 2336552879; 4294925233; 2304563134;
   1804603682; 4254626195; 2792965006; 1236535329; 4129170786; 3225465664;
   643717713; 3921069994; 3593408605; 38016083; 3634488961; 3889429448;
   568446438; 3275163606; 4107603335; 1163531501; 2850285829; 4243563512;
   1735328473; 2368359562; 4294588738; 2272392833; 1839030562; 4259657740;
   2763975236; 1272893353; 4139469664; 3200236656; 681279174; 3936430074;
   3572445317; 76029189; 3654602809; 3873151461; 530742520; 3299628645;
   4096336452; 1126891415; 2878612391; 4237533241; 1700485571; 2399980690;
   4293915773; 2240044497; 1873313359; 4264355552; 2734768916; 1309151649;
   4149444226; 3174756917; 718787259; 3951481745].

Definition w32 (n : Z) : Z := n mod 2 ^ 32.
Definition rotl32 (x s : Z) : Z :=
  w32 (Z.lor (Z.shiftl x s) (Z.shiftr x (32 - s))).
Definition not32 (x : Z) : Z := 2 ^ 32 - 1 - x.

(** The [n] low bytes of [x], the lowest first *)
Fixpoint le_bytes (n : nat) (x : Z) : list Z :=
  match n with
  | O => []
  | S n' => x mod 256 :: le_bytes n' (x / 256)
  end.

Fixpoint le_word (bs : list Z) : Z :=
  match bs with
  | [] => 0
  | b :: bs' => b + 256 * le_word bs'
  end.

Fixpoint words (n : nat) (bs : list Z) : list Z :=
  match n with
  | O => []
  | S n' => le_word (take 4 bs) :: words n' (drop 4 bs)
  end.

Definition md5_pad (msg : list Z) : list Z :=
  let len := Z.of_nat (length msg) in
  let zeros := Z.to_nat ((55 - len) mod 64) in
  msg ++ [128] ++ replicate zeros 0 ++ le_bytes 8 (8 * len).

Definition md5_round (m : list Z) (st : Z * Z * Z * Z) (i : Z) : Z * Z * Z * Z :=
  let '(a, b, c, d) := st in
  let '(f, g) :=
    if i <? 16 then (Z.lor (Z.land b c) (Z.land (not32 b) d), i)
    else if i <? 32 then (Z.lor (Z.land d b) (Z.land (not32 d) c), (5 * i + 1) mod 16)
    else if i <? 48 then (Z.lxor b (Z.lxor c d), (3 * i + 5) mod 16)
    else (Z.lxor c (Z.lor b (not32 d)), (7 * i) mod 16) in
  let f := w32 (f + a + default 0 (md5_sines !! Z.to_nat i)
                + default 0 (m !! Z.to_nat g)) in
  (d, w32 (b + rotl32 f (default 0 (md5_shifts !! Z.to_nat i))), b, c).

Definition md5_chunk (st : Z * Z * Z * Z) (chunk : list Z) : Z * Z * Z * Z :=
  let m := words 16 chunk in
  let '(a, b, c, d) := fold_left (md5_round m) (map Z.of_nat (seq 0 64)) st in
  let '(a0, b0, c0, d0) := st in
  (w32 (a0 + a), w32 (b0 + b), w32 (c0 + c), w32 (d0 + d)).

Fixpoint md5_chunks (n : nat) (st : Z * Z * Z * Z) (bs : list Z) : Z * Z * Z * Z :=
  match n with
  | O => st
  | S n' => md5_chunks n' (md5_chunk st (take 64 bs)) (drop 64 bs)
  end.

Definition hex_lower (n : Z) : ascii :=
  ascii_of_nat (Z.to_nat (if n <? 10 then 48 + n else 87 + n)).

Definition hex_byte (b : Z) : string :=
  String (hex_lower (b / 16)) (String (hex_lower (b mod 16)) EmptyString).

(** [hashlib.md5(s.encode()).hexdigest()], the text taken as its bytes *)
Definition md5 (s : string) : string :=
  let msg := md5_pad (map (λ c, Z.of_nat (nat_of_ascii c)) (list_ascii_of_string s)) in
  let '(a, b, c, d) :=
    md5_chunks (length msg / 64) (1732584193, 4023233417, 2562383102, 271733878) msg in
  String.concat EmptyString
    (map hex_byte (le_bytes 4 a ++ le_bytes 4 b ++ le_bytes 4 c ++ le_bytes 4 d)).

(** [str(Path(s))] on POSIX: repeated slashes and ['.'] components go, a
    leading ['//'] stays, and the empty path is ['.']. *)
Definition path_text (s : string) : string :=
  let parts := List.filter (λ c, negb (String.eqb c "") && negb (String.eqb c "."))
                 (split_on "/" s) in
  let root := if String.prefix "///" s then "/"
              else if String.prefix "//" s then "//"
              else if String.prefix "/" s then "/"
              else "" in
  let body := String.concat "/" parts in
  if String.eqb root "" && String.eqb body "" then "." else root +:+ body.

Lemma path_text_nonempty (s : string) : path_text s ≠ "".
Proof.
  unfold path_text.
  destruct (String.prefix "///" s); [discriminate|].
  destruct (String.prefix "//" s); [discriminate|].
  destruct (String.prefix "/" s); [discriminate|].
  cbn [String.eqb andb append].
  destruct (String.eqb _ "") eqn:E; [discriminate|].
  by apply String.eqb_neq.
Qed.

#[refine] Definition os : PyOS := {|
  md5_hexdigest := md5;
  path_str v := match v with VStr s => Ok (path_text s) | _ => Raise TypeError end;
|}.
Proof.
  intros p t E. destruct p; try discriminate.
  injection E as <-. apply path_text_nonempty.
Defined.

End Sample.

(** * The vocabulary of the properties *)

Module Spec.
Import Py Env.

(** [hoare P R Q m]: started in a world satisfying [P], the computation [m]
    ends, whether it returns or raises, in a world related to the first by
    [R]; a value it returns satisfies [Q]. *)
Definition hoare {A : Type} (P : World → Prop) (R : World → World → Prop)
    (Q : A → Prop) (m : M A) : Prop :=
  ∀ w, P w → R w (m w).2 ∧ ∀ a, (m w).1 = Ok a → Q a.

(** What a pair of a precondition and a frame relation must satisfy for the
    rules below: the relation is reflexive on [P], transitive, keeps [P], and
    looks only at the client, the dictionaries and the requests sent. *)
Class Frame (P : World → Prop) (R : World → World → Prop) : Prop := {
  frame_refl : ∀ w, P w → R w w;
  frame_trans : ∀ w1 w2 w3, R w1 w2 → R w2 w3 → R w1 w3;
  frame_stable : ∀ w w', P w → R w w' → P w';
  frame_quiet : ∀ w w', P w → self w' = self w → heap w' = heap w →
                        sent w' = sent w → R w w';
}.

(** [sends lo hi m]: [m] makes at most [hi] requests, and at least [lo] when
    it returns. *)
Definition sends {A : Type} (lo hi : nat) (m : M A) : Prop :=
  ∀ w, (length (sent w) ≤ length (sent (m w).2) ≤ length (sent w) + hi)%nat ∧
       ∀ a, (m w).1 = Ok a → (length (sent w) + lo ≤ length (sent (m w).2))%nat.

(** The requests made between two worlds *)
Definition new_requests (w w' : World) : list Request :=
  drop (length (sent w)) (sent w').

(** One request, plus the ticker lookup when only a symbol is given *)
Definition with_lookup (tId : value) : nat := if is_None tId then 2%nat else 1%nat.

(** The first waiting response parses to something of length 0: the case in
    which [get_security] asks again. *)
Definition first_reply_empty (w : World) : bool :=
  match inbox w with
  | resp :: _ =>
      match body resp with
      | Some data => match len data with Ok n => n =? 0 | Raise _ => false end
      | None => false
      end
  | [] => false
  end.

(** [no_retry m]: the requests of [m] take the waiting answers one by one.
    Either each request was answered, or one more request was made than
    there were answers, and making it raised [ConnectionError] and ended the
    call: a request that fails is not made again, and none follows it. *)
Definition no_retry {A : Type} (m : M A) : Prop :=
  ∀ w, ∃ new,
    sent (m w).2 = (sent w ++ new)%list ∧
    (((length new ≤ length (inbox w))%nat ∧
      inbox (m w).2 = drop (length new) (inbox w)) ∨
     (length new = S (length (inbox w)) ∧ inbox (m w).2 = [] ∧
      (m w).1 = Raise ConnectionError)).

(** [makes lo hi m]: [m] makes between [lo] and [hi] requests, in the sense
    of [sends], and repeats none. *)
Definition makes {A : Type} (lo hi : nat) (m : M A) : Prop :=
  sends lo hi m ∧ no_retry m.

(** The method and the URL of each request made between two worlds *)
Definition calls (w w' : World) : list (http_method * string) :=
  map (λ r, (req_method r, req_url r)) (new_requests w w').

(** The answer to the check of [place_order_otoco], the fourth request, is
    JSON with a truthy ['forward']. *)
Definition check_passes (w : World) : bool :=
  match inbox w !! 3%nat with
  | Some resp =>
      match body resp with
      | Some res =>
          match getitem res "forward" with
          | Ok f => truthy f
          | Raise _ => false
          end
      | None => false
      end
  | None => false
  end.

(** A request of [get_ticker] for [stock], made by the client of [w] *)
Definition lookup_of `{!PyLib} (stock : value) (w : World) (r : Request)
  : Prop :=
  req_method r = GET ∧
  req_url r = endpoints.stock_id stock (_region_code (self w)).

(** [m], when it returns, has made the lookup of [get_ticker] for [stock]
    and then one request of its own. *)
Definition lookup_first `{!PyLib} {A : Type} (stock : value) (m : M A)
  : Prop :=
  ∀ w a, (m w).1 = Ok a →
    ∃ own, calls w (m w).2
           = [(GET, endpoints.stock_id stock (_region_code (self w))); own].

(** The request's headers hold the trade token [tok]. *)
Definition carries (tok : value) (r : Request) : Prop :=
  ∃ h, req_headers r = Some h ∧ h !! "t_token" = Some tok.

(** The request's headers hold, under ['t_token'], what the client's
    dictionary held in [w], an entry or none. *)
Definition token_as_found (w : World) (r : Request) : Prop :=
  ∃ h, req_headers r = Some h ∧
       h !! "t_token" = deref (_headers (self w)) w !! "t_token".

(** The client's header dictionary after [build_req_headers] with the given
    options *)
Definition built_headers `{!PyLib}
    (include_trade_token include_time include_zone_var : bool) (w : World)
  : gmap string value :=
  let c := self w in
  let h := <["access_token" := _access_token c]>
             (<["did" := _did c]> (deref (_headers c) w)) in
  let h := if include_trade_token then <["t_token" := _trade_token c]> h else h in
  let h := if include_time
           then <["t_time" := VStr (pretty (round_millis (clock w (ticks w))))]> h
           else h in
  if include_zone_var then <["lzone" := zone_var c]> h else h.

(** The world after that call: the dictionary updated where it is, the clock
    read once if the time was asked for. *)
Definition built `{!PyLib}
    (include_trade_token include_time include_zone_var : bool) (w : World)
  : World :=
  with_heap
    (<[_headers (self w) :=
         built_headers include_trade_token include_time include_zone_var w]>
       (heap w))
    (if include_time then with_ticks (S (ticks w)) w else w).

(** What may happen to a client after a first header build: another build
    with any options, or a new trade token (as [get_trade_token] assigns). *)
Inductive later_call : Type :=
| Build (include_trade_token include_time include_zone_var : bool)
| NewTradeToken (token : value).

Definition run_later `{!PyLib} (c : later_call) (w : World) : World :=
  match c with
  | Build a b c => (Webull.build_req_headers a b c w).2
  | NewTradeToken token => (modify_self (set_trade_token token) w).2
  end.

Definition run_all `{!PyLib} (cs : list later_call) (w : World) : World :=
  fold_left (λ w c, run_later c w) cs w.

Definition without_trade_token (c : later_call) : bool :=
  match c with
  | Build include_trade_token _ _ => negb include_trade_token
  | NewTradeToken _ => true
  end.

(** The frame of a method body that keeps [I] and whose requests all
    satisfy [Φ]. *)
Definition sent_frame (I : World → Prop) (Φ : Request → Prop)
    (w w' : World) : Prop :=
  I w' ∧ ∃ new, sent w' = (sent w ++ new)%list ∧ Forall Φ new.

(** The client object is [c]. *)
Definition client_is (c : Client) (w : World) : Prop := self w = c.

(** The client's header dictionary is the object at [l], and it holds [o]
    under ['t_token']. *)
Definition found (l : loc) (o : option value) (w : World) : Prop :=
  _headers (self w) = l ∧ deref l w !! "t_token" = o.

Definition is_GET (r : Request) : Prop := req_method r = GET.

Definition token_is (o : option value) (r : Request) : Prop :=
  ∃ h, req_headers r = Some h ∧ h !! "t_token" = o.

(** Every POST that [m] makes carries the trade token the client had when
    [m] was called. *)
Definition posts_carry_trade_token {A : Type} (m : M A) : Prop :=
  ∀ w, Forall (λ r, req_method r = POST → carries (_trade_token (self w)) r)
              (new_requests w (m w).2).

(** Every request that [m] makes shows, under ['t_token'], what the client's
    dictionary held when [m] was called. *)
Definition requests_show_token_as_found {A : Type} (m : M A) : Prop :=
  ∀ w, Forall (token_as_found w) (new_requests w (m w).2).

(** [data] has every key of [yes] and none of [no]. *)
Definition has_keys (yes no : list string) (data : list (string * value)) : Prop :=
  Forall (λ k, dict_has k data = true) yes ∧
  Forall (λ k, dict_has k data = false) no.

(** With [order=None], [modify_order] has to read the order for every
    argument left false (or, for the trading-hour flag, not a bool). *)
Definition reads_order
    (price action orderType enforce quant outsideRegularTradingHour : value)
  : bool :=
  negb (truthy action) || negb (truthy price) || negb (truthy orderType)
  || negb (is_bool outsideRegularTradingHour) || negb (truthy enforce)
  || negb (truthy quant).

(** The condition of [refresh_login] in the words of its description: the
    response has an ['accessToken'] key, and its three token values are
    present and are not the empty string. *)
Definition nonempty_at (k : string) (d : list (string * value)) : bool :=
  match dict_get k d with
  | Some v => negb (py_eq v (VStr ""))
  | None => false
  end.

Definition refresh_accepts (result : value) : bool :=
  match result with
  | VDict d =>
      dict_has "accessToken" d && nonempty_at "accessToken" d
      && nonempty_at "refreshToken" d && nonempty_at "tokenExpireTime" d
  | _ => false
  end.

(** An item of a ticker search names [stock]: its ['symbol'] or its
    ['disSymbol'] equals it. *)
Definition names (stock : string) (item : list (string * value)) : bool :=
  match dict_get "symbol" item with
  | Some s => py_eq s (VStr stock)
  | None => false
  end
  || match dict_get "disSymbol" item with
     | Some s => py_eq s (VStr stock)
     | None => false
     end.

(** A parsed answer with no ['data']: the key is missing, or what it holds is
    [None], empty or zero. *)
Definition no_data (res : value) : bool :=
  match res with
  | VDict d => negb (truthy (default VNone (dict_get "data" d)))
  | _ => false
  end.

(** The OHLCV record of one CSV line in the words of the description of
    [get_bars]: split on commas, ['null'] read as ['0'], the time from column
    0, open 1, close 2, high 3, low 4, volume 6, vwap 7. *)
Definition ohlcv_of_line `{!PyLib} (time_zone line : string)
  : option (Webull.Timestamp * Webull.Bar) :=
  let cols := map (λ s, if String.eqb s "null" then "0" else s)
                  (split_on "," line) in
  t ← cols !! 0%nat ≫= int_of_str;
  o ← cols !! 1%nat ≫= float_of_str;
  c ← cols !! 2%nat ≫= float_of_str;
  h ← cols !! 3%nat ≫= float_of_str;
  l ← cols !! 4%nat ≫= float_of_str;
  v ← cols !! 6%nat ≫= float_of_str;
  x ← cols !! 7%nat ≫= float_of_str;
  Some (Webull.mkTimestamp t time_zone, Webull.mkBar o h l c v x).

(** Two worlds that differ at most in the URLs of the requests sent *)
Definition same_request_but_url (r1 r2 : Request) : Prop :=
  req_method r1 = req_method r2 ∧ req_json r1 = req_json r2 ∧
  req_params r1 = req_params r2 ∧ req_headers r1 = req_headers r2 ∧
  req_timeout r1 = req_timeout r2.

Definition same_but_urls (w1 w2 : World) : Prop :=
  self w1 = self w2 ∧ heap w1 = heap w2 ∧ inbox w1 = inbox w2 ∧
  Forall2 same_request_but_url (sent w1) (sent w2).

End Spec.

(** * Reasoning about method bodies *)

Module Logic.
Import Py Env Spec.

Lemma bind_run {A B : Type} (m : M A) (f : A → M B) (w : World) :
  (m ≫= f) w = match m w with
               | (Ok a, w') => f a w'
               | (Raise e, w') => (Raise e, w')
               end.
Proof. reflexivity. Qed.

Lemma new_requests_app (w w' : World) (new : list Request) :
  sent w' = (sent w ++ new)%list → new_requests w w' = new.
Proof. intros E. unfold new_requests. by rewrite E, drop_app_length. Qed.

Section Rules.
Context {P : World → Prop} {R : World → World → Prop} `{!Frame P R}.

Lemma hoare_ret {A : Type} (Q : A → Prop) (a : A) :
  Q a → hoare P R Q (mret a).
Proof.
  intros Ha w Hw. split; [by apply frame_refl|].
  intros a' [= <-]. exact Ha.
Qed.

Lemma hoare_raise {A : Type} (Q : A → Prop) (e : exn) :
  hoare P R Q (raise e).
Proof. intros w Hw. split; [by apply frame_refl|]. intros a [=]. Qed.

Lemma hoare_lift {A : Type} (r : result A) :
  hoare P R (λ _, True) (lift r).
Proof. intros w Hw. split; [by apply frame_refl|]. done. Qed.

Lemma hoare_weaken {A : Type} (Q Q' : A → Prop) (m : M A) :
  hoare P R Q m → (∀ a, Q a → Q' a) → hoare P R Q' m.
Proof.
  intros Hm HQ w Hw. destruct (Hm w Hw) as [HR Hv]. split; [done|].
  intros a Ha. eauto.
Qed.

Lemma hoare_bind {A B : Type} (Q : A → Prop) (Q' : B → Prop) (m : M A)
    (f : A → M B) :
  hoare P R Q m → (∀ a, Q a → hoare P R Q' (f a)) → hoare P R Q' (m ≫= f).
Proof.
  intros Hm Hf w Hw. rewrite bind_run.
  destruct (Hm w Hw) as [HR Hv].
  destruct (m w) as [[a|e] w'] eqn:E; simpl in *.
  - destruct (Hf a (Hv a eq_refl) w') as [HR' Hv'].
    { by eapply frame_stable. }
    split; [by eapply frame_trans|done].
  - split; [done|]. intros b [=].
Qed.

(** A step that changes neither the client, nor a dictionary, nor the
    requests sent *)
Lemma hoare_quiet {A : Type} (m : M A) :
  (∀ w, self (m w).2 = self w ∧ heap (m w).2 = heap w ∧ sent (m w).2 = sent w) →
  hoare P R (λ _, True) m.
Proof.
  intros Hm w Hw. destruct (Hm w) as (? & ? & ?).
  split; [by apply frame_quiet|done].
Qed.

Lemma hoare_get_self : hoare P R (λ _ : Client, True) get_self.
Proof. by apply hoare_quiet. Qed.

Lemma hoare_uuid4 : hoare P R (λ _ : UUID, True) uuid4.
Proof. by apply hoare_quiet. Qed.

Lemma hoare_time_time : hoare P R (λ _ : float, True) time_time.
Proof. by apply hoare_quiet. Qed.

Lemma hoare_print (v : value) : hoare P R (λ _ : unit, True) (print v).
Proof. by apply hoare_quiet. Qed.

Lemma hoare_json_dump (path content : value) :
  hoare P R (λ _ : unit, True) (json_dump path content).
Proof. by apply hoare_quiet. Qed.

Lemma hoare_json (r : Response) : hoare P R (λ _ : value, True) (json r).
Proof.
  unfold json. destruct (body r); [by apply hoare_ret|apply hoare_raise].
Qed.

Lemma hoare_try_ValueError {A : Type} (Q : A → Prop) (body handler : M A) :
  hoare P R Q body → hoare P R Q handler →
  hoare P R Q (try_ValueError body handler).
Proof.
  intros Hb Hh w Hw. unfold try_ValueError.
  destruct (Hb w Hw) as [HR Hv].
  destruct (body w) as [[a|e] w'] eqn:E; simpl in *; [done|].
  destruct (is_ValueError e); simpl; [|split; [done|intros ? [=]]].
  destruct (Hh w') as [HR' Hv']; [by eapply frame_stable|].
  split; [by eapply frame_trans|done].
Qed.

Lemma hoare_for_each {A : Type} (xs : list A) (body : A → M unit) :
  (∀ x, hoare P R (λ _, True) (body x)) →
  hoare P R (λ _, True) (for_each xs body).
Proof.
  intros Hb. induction xs as [|x xs IH]; simpl.
  - by apply hoare_ret.
  - eapply hoare_bind; [apply Hb|]. intros _ _. exact IH.
Qed.

End Rules.

(** *** Counting requests *)

Lemma sends_ret {A : Type} (a : A) : sends 0 0 (mret a : M A).
Proof. intros w. simpl. split; [lia|]. intros; lia. Qed.

Lemma sends_raise {A : Type} (lo : nat) (e : exn) : sends lo 0 (raise e : M A).
Proof. intros w. simpl. split; [lia|]. intros a [=]. Qed.

Lemma sends_quiet {A : Type} (m : M A) :
  (∀ w, sent (m w).2 = sent w) → sends 0 0 m.
Proof. intros Hm w. rewrite Hm. split; [lia|]. intros; lia. Qed.

Lemma sends_weaken {A : Type} (lo lo' hi hi' : nat) (m : M A) :
  sends lo hi m → (lo' ≤ lo)%nat → (hi ≤ hi')%nat → sends lo' hi' m.
Proof.
  intros Hm ? ? w. destruct (Hm w) as [? Hv]. split; [lia|].
  intros a Ha. specialize (Hv a Ha). lia.
Qed.

Lemma sends_bind {A B : Type} (lo1 hi1 lo2 hi2 : nat) (m : M A) (f : A → M B) :
  sends lo1 hi1 m → (∀ a, sends lo2 hi2 (f a)) →
  sends (lo1 + lo2) (hi1 + hi2) (m ≫= f).
Proof.
  intros Hm Hf w. rewrite bind_run.
  destruct (Hm w) as [Hb Hv].
  destruct (m w) as [[a|e] w'] eqn:E; simpl in *.
  - destruct (Hf a w') as [Hb' Hv']. specialize (Hv a eq_refl).
    split; [lia|]. intros b Hb2. specialize (Hv' b Hb2). lia.
  - split; [lia|]. intros b [=].
Qed.

Lemma sends_send (r : Request) : sends 1 1 (send r).
Proof.
  intros w. unfold send.
  destruct (inbox w); simpl; rewrite length_app; simpl; split; intros; lia.
Qed.

Lemma sends_requests_get (url : string) (params : option value)
    (headers : option loc) : sends 1 1 (requests_get url params headers).
Proof. intros w. apply sends_send. Qed.

Lemma sends_requests_post (url : string) (data : option value)
    (headers : option loc) : sends 1 1 (requests_post url data headers).
Proof. intros w. apply sends_send. Qed.

Lemma sends_json (r : Response) : sends 0 0 (json r).
Proof. unfold json. destruct (body r); [apply sends_ret|apply sends_raise]. Qed.

Lemma sends_lift {A : Type} (r : result A) : sends 0 0 (lift r).
Proof. by apply sends_quiet. Qed.

Lemma sends_if {A : Type} (lo1 hi1 lo2 hi2 : nat) (b : bool) (m1 m2 : M A) :
  sends lo1 hi1 m1 → sends lo2 hi2 m2 →
  sends (lo1 `min` lo2) (hi1 `max` hi2) (if b then m1 else m2).
Proof.
  intros H1 H2. destruct b; (eapply sends_weaken; [eassumption|lia|lia]).
Qed.

Lemma sends_if_raise_l {A : Type} (lo hi : nat) (b : bool) (e : exn) (m : M A) :
  sends lo hi m → sends lo hi (if b then raise e else m).
Proof.
  intros Hm. destruct b; [|done].
  eapply sends_weaken; [apply (sends_raise lo)|lia|lia].
Qed.

Lemma sends_if_raise_r {A : Type} (lo hi : nat) (b : bool) (e : exn) (m : M A) :
  sends lo hi m → sends lo hi (if b then m else raise e).
Proof.
  intros Hm. destruct b; [done|].
  eapply sends_weaken; [apply (sends_raise lo)|lia|lia].
Qed.

Lemma sends_try_ValueError {A : Type} (lo hi : nat) (body : M A) (e : exn) :
  sends lo hi body → sends lo hi (try_ValueError body (raise e)).
Proof.
  intros Hb w. unfold try_ValueError. destruct (Hb w) as [Hn Hv].
  destruct (body w) as [[a|e'] w'] eqn:E; simpl in *; [done|].
  destruct (is_ValueError e'); simpl; (split; [lia|intros ? [=]]).
Qed.

Lemma sends_for_each {A : Type} (n : nat) (xs : list A) (body : A → M unit) :
  (∀ x, sends n n (body x)) →
  sends (length xs * n) (length xs * n) (for_each xs body).
Proof.
  intros Hb. induction xs as [|x xs IH]; simpl.
  - apply sends_ret.
  - by apply sends_bind.
Qed.

Create HintDb sends.

#[export] Hint Resolve sends_requests_get sends_requests_post sends_json
  sends_lift : sends.
#[export] Hint Extern 1 (sends _ _ get_self) => apply sends_quiet; done : sends.
#[export] Hint Extern 1 (sends _ _ uuid4) => apply sends_quiet; done : sends.
#[export] Hint Extern 1 (sends _ _ time_time) => apply sends_quiet; done : sends.
#[export] Hint Extern 1 (sends _ _ (print _)) => apply sends_quiet; done : sends.
#[export] Hint Extern 1 (sends _ _ (json_dump _ _)) => apply sends_quiet; done : sends.
#[export] Hint Extern 1 (sends _ _ (dict_store _ _ _)) => apply sends_quiet; done : sends.
#[export] Hint Extern 1 (sends _ _ (modify_self _)) => apply sends_quiet; done : sends.

(** Walks a method body, summing the requests of its steps. *)
Ltac sends_go :=
  lazymatch goal with
  | |- sends _ _ (mret _) => apply sends_ret
  | |- sends _ _ (raise _) => apply sends_raise
  | |- sends _ _ (_ ≫= _) => eapply sends_bind; [sends_go|intros ?; sends_go]
  | |- sends _ _ (if _ then raise _ else _) => apply sends_if_raise_l; sends_go
  | |- sends _ _ (if _ then _ else raise _) => apply sends_if_raise_r; sends_go
  | |- sends _ _ (if _ then _ else _) => eapply sends_if; sends_go
  | |- sends _ _ (try_ValueError _ (raise _)) =>
      apply sends_try_ValueError; sends_go
  | |- _ => solve [eauto with sends]
  end.

(** [sends lo hi m] for given numbers: the body is walked, then the sums are
    compared. *)
Ltac sends_count :=
  eapply sends_weaken; [sends_go|simpl; lia|simpl; lia].

Lemma sent_frame_Frame (I : World → Prop) (Φ : Request → Prop) :
  (∀ w w', I w → self w' = self w → heap w' = heap w → I w') →
  Frame I (sent_frame I Φ).
Proof.
  intros HI. split.
  - intros w Hw. split; [done|]. exists []. by rewrite app_nil_r.
  - intros w1 w2 w3 [_ (n1 & E1 & F1)] [H3 (n2 & E2 & F2)].
    split; [done|]. exists (n1 ++ n2)%list.
    rewrite E2, E1, app_assoc. split; [done|]. by apply Forall_app.
  - by intros w w' _ [? _].
  - intros w w' Hw Hs Hh Hn. split; [by eapply HI|].
    exists []. by rewrite app_nil_r.
Qed.

#[export] Instance client_is_Frame (c : Client) (Φ : Request → Prop) :
  Frame (client_is c) (sent_frame (client_is c) Φ).
Proof. apply sent_frame_Frame. unfold client_is. congruence. Qed.

#[export] Instance found_Frame (l : loc) (o : option value)
    (Φ : Request → Prop) :
  Frame (found l o) (sent_frame (found l o) Φ).
Proof.
  apply sent_frame_Frame. unfold found, deref. intros w w' [? ?] Hs Hh.
  by rewrite Hs, Hh.
Qed.

(** A request is allowed by the frame when it satisfies [Φ]. *)
Lemma hoare_send (I : World → Prop) (Φ : Request → Prop)
    (mk : World → Request) :
  (∀ w w', I w → self w' = self w → heap w' = heap w → I w') →
  (∀ w, I w → Φ (mk w)) →
  hoare I (sent_frame I Φ) (λ _, True) (λ w, send (mk w) w).
Proof.
  intros HI HΦ w Hw. split; [|done]. unfold send.
  destruct (inbox w); cbn [snd]; (split; [by eapply HI|]);
    exists [mk w]; (split; [done|]); repeat constructor; by apply HΦ.
Qed.

(** One rule of the walk over a method body; [hook] goes first and handles
    the steps whose value the rest of the body needs. *)
Ltac hoare_step hook :=
  first
  [ hook
  | lazymatch goal with
    | |- hoare _ _ _ (mret _) => apply hoare_ret; exact I
    | |- hoare _ _ _ (raise _) => apply hoare_raise
    | |- hoare _ _ _ (_ ≫= _) => eapply (hoare_bind (λ _, True)); [|intros ? _]
    | |- hoare _ _ _ (if ?b then _ else _) => destruct b
    | |- hoare _ _ _ (try_ValueError _ _) => apply hoare_try_ValueError
    | |- hoare _ _ _ (for_each _ _) => apply hoare_for_each; intros ?
    | |- hoare _ _ _ (lift _) => apply hoare_lift
    | |- hoare _ _ _ (json _) => apply hoare_json
    | |- hoare _ _ _ get_self => apply hoare_get_self
    | |- hoare _ _ _ uuid4 => apply hoare_uuid4
    | |- hoare _ _ _ time_time => apply hoare_time_time
    | |- hoare _ _ _ (print _) => apply hoare_print
    | |- hoare _ _ _ (json_dump _ _) => apply hoare_json_dump
    end ].

Ltac hoare_run hook := repeat hoare_step hook.

End Logic.

(** * Running a method body step by step *)

Module Run.
Import Py Env Spec Logic.

Lemma lift_run {A : Type} (r : result A) (w : World) : lift r w = (r, w).
Proof. reflexivity. Qed.

Lemma ret_run {A : Type} (a : A) (w : World) : (mret a : M A) w = (Ok a, w).
Proof. reflexivity. Qed.

Lemma raise_run {A : Type} (e : exn) (w : World) :
  (raise e : M A) w = (Raise e, w).
Proof. reflexivity. Qed.

Lemma get_self_run (w : World) : get_self w = (Ok (self w), w).
Proof. reflexivity. Qed.

Lemma modify_self_run (f : Client → Client) (w : World) :
  modify_self f w = (Ok tt, with_self (f (self w)) w).
Proof. reflexivity. Qed.

Lemma uuid4_run (w : World) :
  uuid4 w = (Ok (uuid_src w (uuid_n w)), with_uuid_n (S (uuid_n w)) w).
Proof. reflexivity. Qed.

Lemma time_time_run (w : World) :
  time_time w = (Ok (clock w (ticks w)), with_ticks (S (ticks w)) w).
Proof. reflexivity. Qed.

Lemma print_run (v : value) (w : World) :
  print v w = (Ok tt, with_stdout (stdout w ++ [v]) w).
Proof. reflexivity. Qed.

Lemma json_dump_run (path content : value) (w : World) :
  json_dump path content w
  = (Ok tt, with_written (written w ++ [(path, content)]) w).
Proof. reflexivity. Qed.

Lemma json_run (r : Response) (w : World) :
  json r w = match body r with
             | Some v => (Ok v, w)
             | None => (Raise JSONDecodeError, w)
             end.
Proof. unfold json. by destruct (body r). Qed.

Lemma requests_get_run (url : string) (params : option value)
    (headers : option loc) (w : World) :
  requests_get url params headers w =
  let r := mkRequest GET url None params (snapshot headers w) (timeout (self w)) in
  match inbox w with
  | [] => (Raise ConnectionError, with_net [] (sent w ++ [r]) w)
  | resp :: rest => (Ok resp, with_net rest (sent w ++ [r]) w)
  end.
Proof. reflexivity. Qed.

Lemma requests_post_run (url : string) (data : option value)
    (headers : option loc) (w : World) :
  requests_post url data headers w =
  let r := mkRequest POST url data None (snapshot headers w) (timeout (self w)) in
  match inbox w with
  | [] => (Raise ConnectionError, with_net [] (sent w ++ [r]) w)
  | resp :: rest => (Ok resp, with_net rest (sent w ++ [r]) w)
  end.
Proof. reflexivity. Qed.

Section WithLib.
Context `{!PyLib}.

Lemma dict_store_run (l : loc) (k : string) (v : value) (w : World) :
  dict_store l k v w = (Ok tt, set_dict l (<[k := v]> (deref l w)) w).
Proof. reflexivity. Qed.

Lemma deref_set_dict (l : loc) (d : gmap string value) (w : World) :
  deref l (set_dict l d w) = d.
Proof.
  unfold deref, set_dict. cbn [heap with_heap].
  by rewrite lookup_insert_eq.
Qed.

Lemma set_dict_twice (l : loc) (d d' : gmap string value) (w : World) :
  set_dict l d (set_dict l d' w) = set_dict l d w.
Proof.
  unfold set_dict. cbn [heap with_heap]. by rewrite insert_insert_eq.
Qed.

Lemma with_ticks_set_dict (n : nat) (l : loc) (d : gmap string value)
    (w : World) :
  with_ticks n (set_dict l d w) = set_dict l d (with_ticks n w).
Proof. reflexivity. Qed.

(** [build_req_headers] never fails, returns the client's own dictionary and
    leaves the world [built]. *)
Lemma build_req_headers_run (a b c : bool) (w : World) :
  Webull.build_req_headers a b c w = (Ok (_headers (self w)), built a b c w).
Proof.
  unfold Webull.build_req_headers, built, built_headers.
  fold (set_dict (_headers (self w))).
  unfold mbind, M_bind, mret, M_ret, get_self, time_time.
  rewrite !dict_store_run.
  destruct a, b, c; rewrite ?dict_store_run;
    repeat (rewrite ?deref_set_dict, ?set_dict_twice, ?with_ticks_set_dict;
            cbv beta iota; rewrite ?dict_store_run);
    reflexivity.
Qed.

Lemma self_built (a b c : bool) (w : World) : self (built a b c w) = self w.
Proof. by destruct b. Qed.

Lemma inbox_built (a b c : bool) (w : World) : inbox (built a b c w) = inbox w.
Proof. by destruct b. Qed.

Lemma sent_built (a b c : bool) (w : World) : sent (built a b c w) = sent w.
Proof. by destruct b. Qed.

Lemma uuid_n_built (a b c : bool) (w : World) :
  uuid_n (built a b c w) = uuid_n w.
Proof. by destruct b. Qed.

Lemma uuid_src_built (a b c : bool) (w : World) :
  uuid_src (built a b c w) = uuid_src w.
Proof. by destruct b. Qed.

Lemma deref_built (a b c : bool) (w : World) :
  deref (_headers (self w)) (built a b c w) = built_headers a b c w.
Proof.
  unfold deref, built. cbn [heap with_heap]. by rewrite lookup_insert_eq.
Qed.

End WithLib.

Create Rewrite HintDb run.
#[export] Hint Rewrite @lift_run @ret_run @raise_run get_self_run modify_self_run
  uuid4_run time_time_run print_run json_dump_run json_run requests_get_run
  requests_post_run @build_req_headers_run @self_built @inbox_built @sent_built
  @uuid_n_built @uuid_src_built : run.

(** The scrutinee a stuck computation waits for *)
Ltac head_scrutinee t :=
  lazymatch t with
  | match ?x with _ => _ end => head_scrutinee x
  | ?f _ =>
      lazymatch f with
      | match ?x with _ => _ end => head_scrutinee x
      | _ => t
      end
  | _ => t
  end.

(** One step of [E : m w = (r, w')]: the binds at the head are opened, the
    steps that cannot fail are run, and the first one that can is split into
    its outcomes. *)
Ltac exec_step E :=
  first
  [ progress (
      rewrite ?bind_run in E;
      autorewrite with run in E;
      cbv beta iota zeta in E;
      cbn [self heap inbox sent ticks clock uuid_n uuid_src stdout did_bin
           written with_self with_heap with_net with_ticks with_uuid_n
           with_stdout with_did_bin with_written fst snd] in E)
  | lazymatch type of E with
    | ?lhs = _ =>
        let x := head_scrutinee lhs in
        tryif constr_eq x lhs then fail
        else (let Hx := fresh "Hx" in
              destruct x eqn:Hx; try (cbn in Hx; discriminate Hx))
    end ].

Ltac exec E := repeat exec_step E.

Section WithLib.
Context `{!PyLib}.

(** [get_security] asks a second time exactly when the first answer is
    empty. *)
Lemma get_security_fallback (username : value) (w : World) (a : value) :
  (Webull.get_security username w).1 = Ok a →
  length (new_requests w (Webull.get_security username w).2)
  = if first_reply_empty w then 2%nat else 1%nat.
Proof.
  destruct (Webull.get_security username w) as [r w'] eqn:E. simpl.
  intros ->. revert E.
  unfold Webull.get_security, Webull.get_account_type, first_reply_empty,
    new_requests.
  intros E. exec E.
  all: injection E as E1 E2; try discriminate; subst w'.
  - cbn. rewrite <- app_assoc, drop_app_length. reflexivity.
  - cbn. rewrite drop_app_length. reflexivity.
Qed.

End WithLib.
End Run.

(** * Dictionaries: reading after writing *)

Module Dicts.
Import Py.

Lemma dict_get_set_eq (k : string) (v : value) (d : list (string * value)) :
  dict_get k (dict_set k v d) = Some v.
Proof.
  induction d as [|[k' v'] d IH]; cbn; [by rewrite String.eqb_refl|].
  destruct (String.eqb k k') eqn:E; cbn; [by rewrite String.eqb_refl|].
  by rewrite E.
Qed.

Lemma dict_get_set_ne (k k' : string) (v : value) (d : list (string * value)) :
  k ≠ k' → dict_get k' (dict_set k v d) = dict_get k' d.
Proof.
  intros Hne. induction d as [|[k0 v0] d IH]; cbn.
  - apply String.eqb_neq in Hne. rewrite String.eqb_sym in Hne. by rewrite Hne.
  - destruct (String.eqb k k0) eqn:E; cbn.
    + apply String.eqb_eq in E. subst k0.
      apply String.eqb_neq in Hne. rewrite String.eqb_sym in Hne.
      by rewrite Hne.
    + by rewrite IH.
Qed.

Lemma dict_get_app (k : string) (d1 d2 : list (string * value)) :
  dict_get k (d1 ++ d2)
  = match dict_get k d1 with Some v => Some v | None => dict_get k d2 end.
Proof.
  induction d1 as [|[k' v'] d1 IH]; [done|]. cbn.
  by destruct (String.eqb k k').
Qed.

(** Entries stored one after the other: the last one stored under a key is
    the one read. *)
Lemma dict_get_fold (k : string) (kvs acc : list (string * value)) :
  dict_get k (fold_left (λ d kv, dict_set kv.1 kv.2 d) kvs acc)
  = match dict_get k (rev kvs) with
    | Some v => Some v
    | None => dict_get k acc
    end.
Proof.
  revert acc. induction kvs as [|[s v] kvs IH]; intros acc; [done|].
  cbn [fold_left rev fst snd]. rewrite IH, dict_get_app.
  destruct (dict_get k (rev kvs)); [done|]. cbn.
  destruct (String.eqb k s) eqn:Eq.
  - apply String.eqb_eq in Eq as ->. apply dict_get_set_eq.
  - apply dict_get_set_ne. apply String.eqb_neq in Eq. congruence.
Qed.

(** Storing under a string key in a dictionary whose keys are strings. *)
Lemma pydict_set_str (s : string) (v : value) (d : list (string * value)) :
  pydict_set (VStr s) v (str_keyed d) = str_keyed (dict_set s v d).
Proof.
  induction d as [|[k' v'] d IH]; [done|].
  cbn [str_keyed map pydict_set dict_set fst snd py_eq].
  destruct (String.eqb s k') eqn:E.
  - by apply String.eqb_eq in E as ->.
  - cbn [map fst snd]. f_equal. exact IH.
Qed.

Lemma pydict_store_str (s : string) (v : value) (d : list (string * value)) :
  pydict_store (VStr s) v (str_keyed d) = Ok (str_keyed (dict_set s v d)).
Proof. unfold pydict_store. cbn. by rewrite pydict_set_str. Qed.

Lemma pydict_get_str (k : string) (d : list (string * value)) :
  pydict_get (VStr k) (str_keyed d) = dict_get k d.
Proof.
  induction d as [|[k' v'] d IH]; [done|]. cbn.
  by destruct (String.eqb k k').
Qed.

End Dicts.

(** * How many requests a method makes *)

Module Requests.
Import Py Env Spec Logic.

Section WithLib.
Context `{!PyLib}.

Lemma build_req_headers_sends (a b c : bool) :
  sends 0 0 (Webull.build_req_headers a b c).
Proof. apply sends_quiet. intros w. by destruct a, b, c. Qed.
#[local] Hint Resolve build_req_headers_sends : sends.

Lemma get_ticker_sends (stock : value) : sends 1 1 (Webull.get_ticker stock).
Proof. unfold Webull.get_ticker. sends_count. Qed.
#[local] Hint Resolve get_ticker_sends : sends.

Lemma resolve_tId_given (stock tId : value) :
  is_None tId = false → sends 0 0 (Webull.resolve_tId stock tId).
Proof. intros E. unfold Webull.resolve_tId. rewrite E. apply sends_ret. Qed.

Lemma resolve_tId_by_symbol (stock tId : value) :
  is_None tId = true → sends 1 1 (Webull.resolve_tId stock tId).
Proof.
  intros E. unfold Webull.resolve_tId. rewrite E. simpl. sends_count.
Qed.
#[local] Hint Resolve resolve_tId_given resolve_tId_by_symbol : sends.

Lemma get_detail_sends : sends 1 1 Webull.get_detail.
Proof. unfold Webull.get_detail. sends_count. Qed.

Lemma logout_sends : sends 1 1 Webull.logout.
Proof. unfold Webull.logout. sends_count. Qed.

Lemma get_account_id_sends (id : value) : sends 1 1 (Webull.get_account_id id).
Proof. unfold Webull.get_account_id. sends_count. Qed.

Lemma get_account_sends : sends 1 1 Webull.get_account.
Proof. unfold Webull.get_account. sends_count. Qed.
#[local] Hint Resolve get_account_sends : sends.

Lemma get_positions_sends : sends 1 1 Webull.get_positions.
Proof. unfold Webull.get_positions. sends_count. Qed.

Lemma get_current_orders_sends : sends 1 1 Webull.get_current_orders.
Proof. unfold Webull.get_current_orders. sends_count. Qed.

Lemma get_history_orders_sends (status count : value) :
  sends 1 1 (Webull.get_history_orders status count).
Proof. unfold Webull.get_history_orders. sends_count. Qed.

Lemma refresh_login_sends (save_token token_path : value) :
  sends 1 1 (Webull.refresh_login save_token token_path).
Proof. unfold Webull.refresh_login, Webull._save_token. sends_count. Qed.

Lemma run_screener_sends (region price_lte price_gte pct_chg_gte pct_chg_lte
    sort sort_dir vol_lte vol_gte : value) :
  sends 1 1 (Webull.run_screener region price_lte price_gte pct_chg_gte
               pct_chg_lte sort sort_dir vol_lte vol_gte).
Proof. unfold Webull.run_screener. sends_count. Qed.

Lemma cancel_order_sends (order_id : value) :
  sends 1 1 (Webull.cancel_order order_id).
Proof. unfold Webull.cancel_order. sends_count. Qed.

Lemma cancel_order_otoco_sends (combo_id : value) :
  sends 1 1 (Webull.cancel_order_otoco combo_id).
Proof. unfold Webull.cancel_order_otoco. sends_count. Qed.

Lemma place_order_option_sends
    (optionId lmtPrice stpPrice action orderType enforce quant : value) :
  sends 1 1 (Webull.place_order_option optionId lmtPrice stpPrice action
               orderType enforce quant).
Proof. unfold Webull.place_order_option. sends_count. Qed.

Lemma modify_order_option_sends (order lmtPrice stpPrice enforce quant : value) :
  sends 1 1 (Webull.modify_order_option order lmtPrice stpPrice enforce quant).
Proof. unfold Webull.modify_order_option. sends_count. Qed.

Lemma place_order_sends
    (stock tId price action orderType enforce quant outsideRegularTradingHour
     stpPrice trial_value trial_type : value) :
  sends (with_lookup tId) (with_lookup tId)
    (Webull.place_order stock tId price action orderType enforce quant
       outsideRegularTradingHour stpPrice trial_value trial_type).
Proof.
  unfold Webull.place_order, with_lookup.
  destruct (is_None tId) eqn:E; sends_count.
Qed.

Lemma place_order_crypto_sends
    (stock tId price action orderType enforce entrust_type quant
     outsideRegularTradingHour : value) :
  sends (with_lookup tId) (with_lookup tId)
    (Webull.place_order_crypto stock tId price action orderType enforce
       entrust_type quant outsideRegularTradingHour).
Proof.
  unfold Webull.place_order_crypto, with_lookup.
  destruct (is_None tId) eqn:E; sends_count.
Qed.

Lemma get_bars_sends
    (stock tId interval count extendTrading timeStamp : value) :
  sends (with_lookup tId) (with_lookup tId)
    (Webull.get_bars stock tId interval count extendTrading timeStamp).
Proof.
  unfold Webull.get_bars, with_lookup.
  destruct (is_None tId) eqn:E; sends_count.
Qed.

(** [modify_order] looks the ticker up only when it has no [tId] but a
    [stock]; with neither it reads the id from the order. *)
Lemma modify_order_sends
    (order order_id stock tId price action orderType enforce quant
     outsideRegularTradingHour : value) :
  let n := if is_None tId && negb (is_None stock) then 2%nat else 1%nat in
  sends n n
    (Webull.modify_order order order_id stock tId price action orderType
       enforce quant outsideRegularTradingHour).
Proof.
  unfold Webull.modify_order, Webull.py_or.
  destruct (is_None tId), (is_None stock); cbn [negb andb]; sends_count.
Qed.

Lemma get_quote_sends (stock tId : value) :
  let n := if truthy stock then 2%nat else 1%nat in
  sends n n (Webull.get_quote stock tId).
Proof.
  unfold Webull.get_quote.
  destruct (truthy stock); cbn [negb andb]; sends_count.
Qed.

Lemma get_security_sends (username : value) :
  sends 1 2 (Webull.get_security username).
Proof. unfold Webull.get_security, Webull.get_account_type. sends_count. Qed.

Lemma otoco_legs_sends (stock price stop_loss_price limit_profit_price
    time_in_force quant : value) (ids : option (value * value * value))
    (with_serial : bool) :
  sends 3 3 (Webull.otoco_legs stock price stop_loss_price limit_profit_price
               time_in_force quant ids with_serial).
Proof. unfold Webull.otoco_legs, Webull.otoco_leg. sends_count. Qed.
#[local] Hint Resolve otoco_legs_sends : sends.

Lemma place_order_otoco_sends
    (stock price stop_loss_price limit_profit_price time_in_force quant : value) :
  sends 4 8 (Webull.place_order_otoco stock price stop_loss_price
               limit_profit_price time_in_force quant).
Proof. unfold Webull.place_order_otoco. sends_count. Qed.

Lemma modify_order_otoco_sends
    (order_id1 order_id2 order_id3 stock price stop_loss_price
     limit_profit_price time_in_force quant : value) :
  sends 4 4 (Webull.modify_order_otoco order_id1 order_id2 order_id3 stock
               price stop_loss_price limit_profit_price time_in_force quant).
Proof. unfold Webull.modify_order_otoco. sends_count. Qed.

End WithLib.
End Requests.

(** * The shared header dictionary *)

Module Headers.
Import Py Env Spec Logic Run.

Section WithLib.
Context `{!PyLib}.

(** What a build leaves under ['t_token']: the client's trade token when it
    was asked for, and otherwise what was there before. *)
Lemma built_headers_t_token (a b c : bool) (w : World) :
  built_headers a b c w !! "t_token"
  = if a then Some (_trade_token (self w))
    else deref (_headers (self w)) w !! "t_token".
Proof.
  unfold built_headers.
  destruct a, b, c;
    repeat (first [rewrite lookup_insert_eq | rewrite lookup_insert_ne by done]);
    reflexivity.
Qed.

Lemma run_later_headers (c : later_call) (w : World) :
  _headers (self (run_later c w)) = _headers (self w).
Proof.
  destruct c as [a b c|v]; unfold run_later; [|reflexivity].
  rewrite build_req_headers_run. cbn [snd]. by rewrite self_built.
Qed.

Lemma run_later_t_token (c : later_call) (w : World) :
  deref (_headers (self w)) (run_later c w) !! "t_token"
  = match c with
    | Build true _ _ => Some (_trade_token (self w))
    | _ => deref (_headers (self w)) w !! "t_token"
    end.
Proof.
  destruct c as [a b c|v]; unfold run_later; [|reflexivity].
  rewrite build_req_headers_run. cbn [snd].
  rewrite deref_built, built_headers_t_token. by destruct a.
Qed.

Lemma run_all_headers (cs : list later_call) (w : World) :
  _headers (self (run_all cs w)) = _headers (self w).
Proof.
  revert w. induction cs as [|c cs IH]; intros w; [reflexivity|].
  unfold run_all in *. simpl. rewrite IH. apply run_later_headers.
Qed.

(** Once ['t_token'] is in the dictionary no later call takes it out. *)
Lemma run_all_keeps_key (cs : list later_call) (w : World) :
  is_Some (deref (_headers (self w)) w !! "t_token") →
  is_Some (deref (_headers (self w)) (run_all cs w) !! "t_token").
Proof.
  revert w. induction cs as [|c cs IH]; intros w Hw; [exact Hw|].
  unfold run_all in *. simpl.
  rewrite <- (run_later_headers c w). apply IH.
  rewrite run_later_headers, run_later_t_token.
  destruct c as [[] ? ?|]; eauto.
Qed.

(** Calls that do not ask for the trade token leave the entry as it is, even
    when the client's trade token has changed in between. *)
Lemma run_all_keeps_entry (cs : list later_call) (w : World) :
  forallb without_trade_token cs = true →
  deref (_headers (self w)) (run_all cs w) !! "t_token"
  = deref (_headers (self w)) w !! "t_token".
Proof.
  revert w. induction cs as [|c cs IH]; intros w Hcs; [reflexivity|].
  simpl in Hcs. apply andb_prop in Hcs as [Hc Hcs].
  unfold run_all in *. simpl.
  rewrite <- (run_later_headers c w), (IH _ Hcs).
  rewrite run_later_headers, run_later_t_token.
  destruct c as [[] ? ?|]; done.
Qed.

(** C9.  [build_req_headers] hands out the client's one header dictionary,
    changed in place.  After a call with [include_trade_token=True], every
    later call, whatever its options and whatever happened to the client in
    between, returns that same dictionary and it still has a ['t_token']
    entry; if no call in between asked for the trade token again, the entry
    is still the token of the first call, also after the client's trade token
    has been replaced. *)
Theorem build_req_headers_keeps_t_token
    (w : World) (include_time include_zone_var : bool)
    (between : list later_call) (a b c : bool) :
  let headers := _headers (self w) in
  let first := Webull.build_req_headers true include_time include_zone_var w in
  let later := Webull.build_req_headers a b c (run_all between first.2) in
  first.1 = Ok headers ∧
  deref headers first.2 !! "t_token" = Some (_trade_token (self w)) ∧
  later.1 = Ok headers ∧
  is_Some (deref headers later.2 !! "t_token") ∧
  (forallb without_trade_token between = true → a = false →
   deref headers later.2 !! "t_token" = Some (_trade_token (self w))).
Proof.
  intros headers first later. subst first later headers.
  rewrite !build_req_headers_run. cbn [fst snd].
  set (w1 := built true include_time include_zone_var w).
  assert (H1 : _headers (self w1) = _headers (self w))
    by (unfold w1; by rewrite self_built).
  assert (Ht : deref (_headers (self w)) w1 !! "t_token"
               = Some (_trade_token (self w))).
  { unfold w1. by rewrite deref_built, built_headers_t_token. }
  assert (Hn : _headers (self (run_all between w1)) = _headers (self w))
    by (by rewrite run_all_headers).
  split_and!.
  - reflexivity.
  - exact Ht.
  - by rewrite Hn.
  - rewrite <- Hn, deref_built, built_headers_t_token.
    destruct a; [eauto|]. rewrite Hn, <- H1.
    apply run_all_keeps_key. rewrite H1, Ht. eauto.
  - intros Hb ->.
    rewrite <- Hn, deref_built, built_headers_t_token, Hn, <- H1.
    rewrite (run_all_keeps_entry _ _ Hb), H1. exact Ht.
Qed.

End WithLib.
End Headers.

(** * Which requests carry the trade token *)

Module Tokens.
Import Py Env Spec Logic Run Headers.

Section WithLib.
Context `{!PyLib}.

(** *** With the client unchanged: the lookups before the headers are built *)

Lemma build_client_is (c : Client) (Φ : Request → Prop) (a b d : bool) :
  hoare (client_is c) (sent_frame (client_is c) Φ) (λ h, h = _headers c)
    (Webull.build_req_headers a b d).
Proof.
  intros w Hw. rewrite build_req_headers_run. cbn [fst snd]. split.
  - split; [unfold client_is; by rewrite self_built|].
    exists []. by rewrite sent_built, app_nil_r.
  - intros h [= <-]. by rewrite Hw.
Qed.

Lemma requests_get_client_is (c : Client) (url : string)
    (params : option value) (headers : option loc) :
  hoare (client_is c) (sent_frame (client_is c) is_GET) (λ _, True)
    (requests_get url params headers).
Proof.
  apply (hoare_send _ _ (λ w, mkRequest GET url None params
                                (snapshot headers w) (timeout (self w)))).
  - unfold client_is. congruence.
  - done.
Qed.

Ltac client_hook :=
  idtac;
  lazymatch goal with
  | |- hoare _ _ _ (Webull.build_req_headers _ _ _ ≫= _) =>
      eapply hoare_bind; [apply build_client_is|intros ? ->]
  | |- hoare _ _ _ (requests_get _ _ _) => apply requests_get_client_is
  end.

Lemma get_ticker_client_is (c : Client) (stock : value) :
  hoare (client_is c) (sent_frame (client_is c) is_GET) (λ _, True)
    (Webull.get_ticker stock).
Proof. unfold Webull.get_ticker. hoare_run client_hook. Qed.

Lemma resolve_tId_client_is (c : Client) (stock tId : value) :
  hoare (client_is c) (sent_frame (client_is c) is_GET) (λ _, True)
    (Webull.resolve_tId stock tId).
Proof.
  unfold Webull.resolve_tId.
  hoare_run ltac:(idtac; first [client_hook|apply get_ticker_client_is]).
Qed.

(** *** With the dictionary's ['t_token'] entry fixed: every request made
    with the client's dictionary shows that entry *)

Lemma build_found (l : loc) (o : option value) (Φ : Request → Prop) (b d : bool) :
  hoare (found l o) (sent_frame (found l o) Φ) (λ h, h = l)
    (Webull.build_req_headers false b d).
Proof.
  intros w [Hl Ho]. rewrite build_req_headers_run. cbn [fst snd]. split.
  - split.
    + unfold found. rewrite self_built. split; [done|].
      by rewrite <- Hl, deref_built, built_headers_t_token, Hl.
    + exists []. by rewrite sent_built, app_nil_r.
  - by intros h [= <-].
Qed.

Lemma requests_get_found (l : loc) (o : option value) (url : string)
    (params : option value) :
  hoare (found l o) (sent_frame (found l o) (token_is o)) (λ _, True)
    (requests_get url params (Some l)).
Proof.
  apply (hoare_send _ _ (λ w, mkRequest GET url None params
                                (snapshot (Some l) w) (timeout (self w)))).
  - unfold found, deref. intros w w' [? ?] Hs Hh. by rewrite Hs, Hh.
  - intros w [_ Ho]. by eexists.
Qed.

Lemma requests_post_found (l : loc) (o : option value) (url : string)
    (data : option value) :
  hoare (found l o) (sent_frame (found l o) (token_is o)) (λ _, True)
    (requests_post url data (Some l)).
Proof.
  apply (hoare_send _ _ (λ w, mkRequest POST url data None
                                (snapshot (Some l) w) (timeout (self w)))).
  - unfold found, deref. intros w w' [? ?] Hs Hh. by rewrite Hs, Hh.
  - intros w [_ Ho]. by eexists.
Qed.

Ltac found_hook :=
  idtac;
  lazymatch goal with
  | |- hoare _ _ _ (Webull.build_req_headers false _ _ ≫= _) =>
      eapply hoare_bind; [apply build_found|intros ? ->]
  | |- hoare _ _ _ (requests_get _ _ (Some _)) => apply requests_get_found
  | |- hoare _ _ _ (requests_post _ _ (Some _)) => apply requests_post_found
  end.

Lemma get_ticker_found (l : loc) (o : option value) (stock : value) :
  hoare (found l o) (sent_frame (found l o) (token_is o)) (λ _, True)
    (Webull.get_ticker stock).
Proof. unfold Webull.get_ticker. hoare_run found_hook. Qed.

Ltac body_hook := idtac; first [found_hook|apply get_ticker_found].

(** From the build that asks for the trade token on, every request made with
    the client's dictionary carries it. *)
Lemma after_build_carry {B : Type} (body : loc → M B) (b d : bool) (w : World) :
  (∀ l o, hoare (found l o) (sent_frame (found l o) (token_is o)) (λ _, True)
            (body l)) →
  ∃ new, sent ((Webull.build_req_headers true b d ≫= body) w).2
         = (sent w ++ new)%list ∧
         Forall (carries (_trade_token (self w))) new.
Proof.
  intros Hb. rewrite bind_run, build_req_headers_run.
  destruct (Hb (_headers (self w)) (Some (_trade_token (self w)))
              (built true b d w)) as [[_ (new & E & F)] _].
  { split; [by rewrite self_built|].
    by rewrite deref_built, built_headers_t_token. }
  exists new. by rewrite E, sent_built.
Qed.

Lemma posts_carry_after_build {B : Type} (body : loc → M B) (b d : bool) :
  (∀ l o, hoare (found l o) (sent_frame (found l o) (token_is o)) (λ _, True)
            (body l)) →
  posts_carry_trade_token (Webull.build_req_headers true b d ≫= body).
Proof.
  intros Hb w. destruct (after_build_carry body b d w Hb) as (new & E & F).
  rewrite (new_requests_app _ _ _ E).
  eapply Forall_impl; [exact F|]. auto.
Qed.

Lemma posts_carry_after_lookup {A B : Type} (pre : M A) (body : A → loc → M B)
    (b d : bool) :
  (∀ c, hoare (client_is c) (sent_frame (client_is c) is_GET) (λ _, True) pre) →
  (∀ a l o, hoare (found l o) (sent_frame (found l o) (token_is o)) (λ _, True)
              (body a l)) →
  posts_carry_trade_token
    (pre ≫= λ a, Webull.build_req_headers true b d ≫= body a).
Proof.
  intros Hp Hb w. rewrite bind_run.
  destruct (Hp (self w) w eq_refl) as [[Hs (new1 & E1 & F1)] _].
  assert (G1 : Forall (λ r, req_method r = POST →
                            carries (_trade_token (self w)) r) new1).
  { eapply Forall_impl; [exact F1|]. unfold is_GET. congruence. }
  destruct (pre w) as [[a|e] w1]; cbn [snd] in *.
  - destruct (after_build_carry (body a) b d w1 (Hb a)) as (new2 & E2 & F2).
    rewrite (new_requests_app w _ (new1 ++ new2)).
    + apply Forall_app. split; [done|].
      rewrite Hs in F2. eapply Forall_impl; [exact F2|]. auto.
    + by rewrite E2, E1, app_assoc.
  - by rewrite (new_requests_app _ _ _ E1).
Qed.

Lemma show_token_as_found {A : Type} (m : M A) :
  (∀ l o, hoare (found l o) (sent_frame (found l o) (token_is o)) (λ _, True) m) →
  requests_show_token_as_found m.
Proof.
  intros Hm w.
  destruct (Hm (_headers (self w)) (deref (_headers (self w)) w !! "t_token") w)
    as [[_ (new & E & F)] _]; [done|].
  by rewrite (new_requests_app _ _ _ E).
Qed.

(** C1, as the code has it.  Seven of the nine order-affecting methods build
    their headers with [include_trade_token=True]: every POST they make
    carries the client's trade token.  [place_order_otoco] and
    [modify_order_otoco] build them with [include_trade_token=False]: their
    requests show under ['t_token'] only what an earlier call left in the
    client's dictionary, an entry or none. *)
Theorem order_requests_and_the_trade_token :
  (∀ stock tId price action orderType enforce quant outsideRegularTradingHour
     stpPrice trial_value trial_type,
     posts_carry_trade_token
       (Webull.place_order stock tId price action orderType enforce quant
          outsideRegularTradingHour stpPrice trial_value trial_type)) ∧
  (∀ order order_id stock tId price action orderType enforce quant
     outsideRegularTradingHour,
     posts_carry_trade_token
       (Webull.modify_order order order_id stock tId price action orderType
          enforce quant outsideRegularTradingHour)) ∧
  (∀ order_id, posts_carry_trade_token (Webull.cancel_order order_id)) ∧
  (∀ combo_id, posts_carry_trade_token (Webull.cancel_order_otoco combo_id)) ∧
  (∀ stock tId price action orderType enforce entrust_type quant
     outsideRegularTradingHour,
     posts_carry_trade_token
       (Webull.place_order_crypto stock tId price action orderType enforce
          entrust_type quant outsideRegularTradingHour)) ∧
  (∀ optionId lmtPrice stpPrice action orderType enforce quant,
     posts_carry_trade_token
       (Webull.place_order_option optionId lmtPrice stpPrice action orderType
          enforce quant)) ∧
  (∀ order lmtPrice stpPrice enforce quant,
     posts_carry_trade_token
       (Webull.modify_order_option order lmtPrice stpPrice enforce quant)) ∧
  (∀ stock price stop_loss_price limit_profit_price time_in_force quant,
     requests_show_token_as_found
       (Webull.place_order_otoco stock price stop_loss_price
          limit_profit_price time_in_force quant)) ∧
  (∀ order_id1 order_id2 order_id3 stock price stop_loss_price
     limit_profit_price time_in_force quant,
     requests_show_token_as_found
       (Webull.modify_order_otoco order_id1 order_id2 order_id3 stock price
          stop_loss_price limit_profit_price time_in_force quant)).
Proof.
  split_and!; intros.
  - unfold Webull.place_order. apply posts_carry_after_lookup.
    + intros c. apply resolve_tId_client_is.
    + intros. hoare_run body_hook.
  - unfold Webull.modify_order, Webull.py_or. apply posts_carry_after_lookup.
    + intros c. hoare_run client_hook.
    + intros. hoare_run body_hook.
  - unfold Webull.cancel_order. apply posts_carry_after_build.
    intros. hoare_run body_hook.
  - unfold Webull.cancel_order_otoco. apply posts_carry_after_build.
    intros. hoare_run body_hook.
  - unfold Webull.place_order_crypto. apply posts_carry_after_lookup.
    + intros c. apply resolve_tId_client_is.
    + intros. hoare_run body_hook.
  - unfold Webull.place_order_option. apply posts_carry_after_build.
    intros. hoare_run body_hook.
  - unfold Webull.modify_order_option. apply posts_carry_after_build.
    intros. hoare_run body_hook.
  - apply show_token_as_found. intros.
    unfold Webull.place_order_otoco, Webull.otoco_legs, Webull.otoco_leg.
    hoare_run body_hook.
  - apply show_token_as_found. intros.
    unfold Webull.modify_order_otoco, Webull.otoco_legs, Webull.otoco_leg.
    hoare_run body_hook.
Qed.

End WithLib.
End Tokens.

(** * A request is made once *)

Module Retry.
Import Py Env Spec Logic Run.

Lemma no_retry_quiet {A : Type} (m : M A) :
  (∀ w, sent (m w).2 = sent w ∧ inbox (m w).2 = inbox w) → no_retry m.
Proof.
  intros Hm w. destruct (Hm w) as [Hs Hi]. exists [].
  rewrite Hs, Hi, app_nil_r. split; [done|]. left. cbn. split; [lia|done].
Qed.

Lemma no_retry_ret {A : Type} (a : A) : no_retry (mret a : M A).
Proof. by apply no_retry_quiet. Qed.

Lemma no_retry_raise {A : Type} (e : exn) : no_retry (raise e : M A).
Proof. by apply no_retry_quiet. Qed.

Lemma no_retry_lift {A : Type} (r : result A) : no_retry (lift r).
Proof. by apply no_retry_quiet. Qed.

Lemma no_retry_json (r : Response) : no_retry (json r).
Proof. apply no_retry_quiet. intros w. unfold json. by destruct (body r). Qed.

Lemma no_retry_send (r : Request) : no_retry (send r).
Proof.
  intros w. exists [r]. unfold send.
  destruct (inbox w) as [|resp rest]; cbn.
  - split; [done|]. by right.
  - split; [done|]. left. split; [lia|done].
Qed.

Lemma no_retry_requests_get (url : string) (params : option value)
    (headers : option loc) : no_retry (requests_get url params headers).
Proof. intros w. apply no_retry_send. Qed.

Lemma no_retry_requests_post (url : string) (data : option value)
    (headers : option loc) : no_retry (requests_post url data headers).
Proof. intros w. apply no_retry_send. Qed.

Lemma no_retry_bind {A B : Type} (m : M A) (f : A → M B) :
  no_retry m → (∀ a, no_retry (f a)) → no_retry (m ≫= f).
Proof.
  intros Hm Hf w. rewrite bind_run.
  destruct (Hm w) as (new1 & Hs1 & H1).
  destruct (m w) as [[a|e] w1] eqn:E; cbn [fst snd] in *.
  2:{ exists new1. split; [done|].
      destruct H1 as [H1|(? & ? & [= ->])]; [by left|by right]. }
  destruct H1 as [[Hl1 Hi1]|(_ & _ & [=])].
  destruct (Hf a w1) as (new2 & Hs2 & H2).
  exists (new1 ++ new2)%list. rewrite Hs2, Hs1, <- app_assoc.
  split; [done|]. rewrite length_app.
  assert (length (inbox w1) = (length (inbox w) - length new1)%nat) as Hlen.
  { by rewrite Hi1, length_drop. }
  destruct H2 as [[Hl2 Hi2]|(Hl2 & Hi2 & Hr2)].
  - left. split; [lia|]. by rewrite Hi2, Hi1, drop_drop.
  - right. split_and!; [lia|done..].
Qed.

Lemma no_retry_if {A : Type} (b : bool) (m1 m2 : M A) :
  no_retry m1 → no_retry m2 → no_retry (if b then m1 else m2).
Proof. by destruct b. Qed.

Lemma no_retry_try_ValueError {A : Type} (body : M A) (e : exn) :
  no_retry body → no_retry (try_ValueError body (raise e)).
Proof.
  intros Hb w. unfold try_ValueError.
  destruct (Hb w) as (new & Hs & H).
  destruct (body w) as [[a|e'] w'] eqn:E; cbn [fst snd] in *.
  { exists new. by split. }
  destruct (is_ValueError e') eqn:Ev; cbn [raise fst snd].
  - exists new. split; [done|].
    destruct H as [H|(_ & _ & [= ->])]; [by left|discriminate Ev].
  - exists new. by split.
Qed.

Create HintDb no_retry.
#[export] Hint Resolve no_retry_requests_get no_retry_requests_post
  no_retry_json no_retry_lift : no_retry.
#[export] Hint Extern 1 (no_retry get_self) =>
  apply no_retry_quiet; done : no_retry.
#[export] Hint Extern 1 (no_retry uuid4) =>
  apply no_retry_quiet; done : no_retry.
#[export] Hint Extern 1 (no_retry time_time) =>
  apply no_retry_quiet; done : no_retry.
#[export] Hint Extern 1 (no_retry (print _)) =>
  apply no_retry_quiet; done : no_retry.
#[export] Hint Extern 1 (no_retry (modify_self _)) =>
  apply no_retry_quiet; done : no_retry.
#[export] Hint Extern 1 (no_retry (json_dump _ _)) =>
  apply no_retry_quiet; done : no_retry.

(** Walks a method body. *)
Ltac no_retry_go :=
  lazymatch goal with
  | |- no_retry (mret _) => apply no_retry_ret
  | |- no_retry (raise _) => apply no_retry_raise
  | |- no_retry (_ ≫= _) =>
      apply no_retry_bind; [no_retry_go|intros ?; no_retry_go]
  | |- no_retry (if _ then _ else _) => apply no_retry_if; no_retry_go
  | |- no_retry (try_ValueError _ (raise _)) =>
      apply no_retry_try_ValueError; no_retry_go
  | |- _ => solve [eauto with no_retry]
  end.

Section WithLib.
Context `{!PyLib}.

Lemma build_req_headers_no_retry (a b c : bool) :
  no_retry (Webull.build_req_headers a b c).
Proof.
  apply no_retry_quiet. intros w.
  rewrite build_req_headers_run. cbn [fst snd].
  by rewrite sent_built, inbox_built.
Qed.
#[local] Hint Resolve build_req_headers_no_retry : no_retry.

Lemma get_ticker_no_retry (stock : value) : no_retry (Webull.get_ticker stock).
Proof. unfold Webull.get_ticker. no_retry_go. Qed.
#[local] Hint Resolve get_ticker_no_retry : no_retry.

Lemma resolve_tId_no_retry (stock tId : value) :
  no_retry (Webull.resolve_tId stock tId).
Proof. unfold Webull.resolve_tId. no_retry_go. Qed.
#[local] Hint Resolve resolve_tId_no_retry : no_retry.

Lemma get_account_no_retry : no_retry Webull.get_account.
Proof. unfold Webull.get_account. no_retry_go. Qed.
#[local] Hint Resolve get_account_no_retry : no_retry.

Lemma otoco_legs_no_retry (stock price stop_loss_price limit_profit_price
    time_in_force quant : value) (ids : option (value * value * value))
    (with_serial : bool) :
  no_retry (Webull.otoco_legs stock price stop_loss_price limit_profit_price
              time_in_force quant ids with_serial).
Proof. unfold Webull.otoco_legs, Webull.otoco_leg. no_retry_go. Qed.
#[local] Hint Resolve otoco_legs_no_retry : no_retry.

Lemma get_detail_no_retry :
  no_retry Webull.get_detail.
Proof. unfold Webull.get_detail. no_retry_go. Qed.

Lemma logout_no_retry :
  no_retry Webull.logout.
Proof. unfold Webull.logout. no_retry_go. Qed.

Lemma get_account_id_no_retry (id : value) :
  no_retry (Webull.get_account_id id).
Proof. unfold Webull.get_account_id. no_retry_go. Qed.

Lemma get_positions_no_retry :
  no_retry Webull.get_positions.
Proof. unfold Webull.get_positions. no_retry_go. Qed.

Lemma get_current_orders_no_retry :
  no_retry Webull.get_current_orders.
Proof. unfold Webull.get_current_orders. no_retry_go. Qed.

Lemma get_history_orders_no_retry (status count : value) :
  no_retry (Webull.get_history_orders status count).
Proof. unfold Webull.get_history_orders. no_retry_go. Qed.

Lemma refresh_login_no_retry (save_token token_path : value) :
  no_retry (Webull.refresh_login save_token token_path).
Proof. unfold Webull.refresh_login, Webull._save_token. no_retry_go. Qed.

Lemma run_screener_no_retry (region price_lte price_gte pct_chg_gte
    pct_chg_lte sort sort_dir vol_lte vol_gte : value) :
  no_retry (Webull.run_screener region price_lte price_gte pct_chg_gte
    pct_chg_lte sort sort_dir vol_lte vol_gte).
Proof. unfold Webull.run_screener. no_retry_go. Qed.

Lemma cancel_order_no_retry (order_id : value) :
  no_retry (Webull.cancel_order order_id).
Proof. unfold Webull.cancel_order. no_retry_go. Qed.

Lemma cancel_order_otoco_no_retry (combo_id : value) :
  no_retry (Webull.cancel_order_otoco combo_id).
Proof. unfold Webull.cancel_order_otoco. no_retry_go. Qed.

Lemma place_order_option_no_retry (optionId lmtPrice stpPrice action
    orderType enforce quant : value) :
  no_retry (Webull.place_order_option optionId lmtPrice stpPrice action
    orderType enforce quant).
Proof. unfold Webull.place_order_option. no_retry_go. Qed.

Lemma modify_order_option_no_retry (order lmtPrice stpPrice enforce quant : value) :
  no_retry (Webull.modify_order_option order lmtPrice stpPrice enforce
    quant).
Proof. unfold Webull.modify_order_option. no_retry_go. Qed.

Lemma place_order_no_retry (stock tId price action orderType enforce quant
    outsideRegularTradingHour stpPrice trial_value trial_type : value) :
  no_retry (Webull.place_order stock tId price action orderType enforce quant
    outsideRegularTradingHour stpPrice trial_value trial_type).
Proof. unfold Webull.place_order. no_retry_go. Qed.

Lemma place_order_crypto_no_retry (stock tId price action orderType enforce
    entrust_type quant outsideRegularTradingHour : value) :
  no_retry (Webull.place_order_crypto stock tId price action orderType
    enforce entrust_type quant outsideRegularTradingHour).
Proof. unfold Webull.place_order_crypto. no_retry_go. Qed.

Lemma get_bars_no_retry (stock tId interval count extendTrading timeStamp : value) :
  no_retry (Webull.get_bars stock tId interval count extendTrading
    timeStamp).
Proof. unfold Webull.get_bars. no_retry_go. Qed.

Lemma modify_order_no_retry (order order_id stock tId price action orderType
    enforce quant outsideRegularTradingHour : value) :
  no_retry (Webull.modify_order order order_id stock tId price action
    orderType enforce quant outsideRegularTradingHour).
Proof. unfold Webull.modify_order, Webull.py_or. no_retry_go. Qed.

Lemma get_quote_no_retry (stock tId : value) :
  no_retry (Webull.get_quote stock tId).
Proof. unfold Webull.get_quote. no_retry_go. Qed.

Lemma get_security_no_retry (username : value) :
  no_retry (Webull.get_security username).
Proof. unfold Webull.get_security, Webull.get_account_type. no_retry_go. Qed.

Lemma place_order_otoco_no_retry (stock price stop_loss_price
    limit_profit_price time_in_force quant : value) :
  no_retry (Webull.place_order_otoco stock price stop_loss_price
    limit_profit_price time_in_force quant).
Proof. unfold Webull.place_order_otoco. no_retry_go. Qed.

Lemma modify_order_otoco_no_retry (order_id1 order_id2 order_id3 stock price
    stop_loss_price limit_profit_price time_in_force quant : value) :
  no_retry (Webull.modify_order_otoco order_id1 order_id2 order_id3 stock
    price stop_loss_price limit_profit_price time_in_force quant).
Proof. unfold Webull.modify_order_otoco. no_retry_go. Qed.

End WithLib.
End Retry.

(** * Which requests a method makes *)

Module Shape.
Import Py Env Spec Logic Run Requests.

Section WithLib.
Context `{!PyLib}.

(** The two addresses of [get_security] differ. *)
Lemma get_security_urls_differ
    (username account_type region_code event time : value) :
  endpoints.get_security username account_type region_code event time (VInt 0)
  ≠ endpoints.get_security username account_type region_code event time
      (VInt 1).
Proof.
  unfold endpoints.get_security, endpoints.base_userfintech_url.
  cbn. intros [=].
Qed.

(** [get_security] asks at the address of the security question and, exactly
    when the first answer is empty, once more at that of the privacy
    question. *)
Lemma get_security_calls (username : value) (w : World) :
  let run := Webull.get_security username w in
  match validate_email username, url_quote username with
  | Ok is_email, Ok quoted =>
      let url := endpoints.get_security (VStr quoted)
                   (VInt (if is_email : bool then 2 else 1))
                   (_region_code (self w)) (VStr "PRODUCT_LOGIN")
                   (VFloat (clock w (ticks w) * 1000)%float) in
      calls w run.2
      = (GET, url (VInt 0))
        :: (if first_reply_empty w then [(GET, url (VInt 1))] else [])
  | _, _ => calls w run.2 = []
  end.
Proof.
  cbv zeta.
  destruct (Webull.get_security username w) as [r w'] eqn:E. cbn [snd].
  revert E. unfold Webull.get_security, Webull.get_account_type, calls,
    first_reply_empty. intros E.
  destruct (validate_email username) as [is_email|e1] eqn:Hv.
  2:{ exec E. injection E as _ <-. unfold new_requests.
      by rewrite drop_all. }
  destruct (url_quote username) as [quoted|e2] eqn:Hq.
  2:{ exec E. injection E as _ <-. unfold new_requests.
      by rewrite drop_all. }
  exec E.
  all: injection E as _ <-.
  all: unfold new_requests; cbn [sent with_net with_ticks];
    rewrite <- ?app_assoc, drop_app_length; cbn [map app req_method req_url].
  all: reflexivity.
Qed.

(** A lookup that returns has made its one request and taken its answer. *)
Lemma get_ticker_ok (stock t : value) (w w' : World) :
  Webull.get_ticker stock w = (Ok t, w') →
  ∃ r resp rest,
    inbox w = resp :: rest ∧ inbox w' = rest ∧
    sent w' = (sent w ++ [r])%list ∧ lookup_of stock w r ∧ self w' = self w.
Proof.
  unfold Webull.get_ticker, lookup_of. intros E.
  exec E. all: try discriminate E.
  all: injection E as _ <-.
  all: do 3 eexists; split_and!; try reflexivity.
Qed.

Lemma otoco_leg_ok (orderType time_in_force quant : value)
    (order_id : option value) (action : string) (stock : value)
    (price_key : string) (price : value) (comboType : string)
    (with_serial : bool) (leg : value) (w w' : World) :
  Webull.otoco_leg orderType time_in_force quant order_id action stock
    price_key price comboType with_serial w = (Ok leg, w') →
  ∃ r resp rest,
    inbox w = resp :: rest ∧ inbox w' = rest ∧
    sent w' = (sent w ++ [r])%list ∧ lookup_of stock w r ∧ self w' = self w.
Proof.
  unfold Webull.otoco_leg. intros E.
  rewrite bind_run, lift_run in E.
  destruct (py_int quant) as [q|e]; [|discriminate E]. cbv beta iota in E.
  rewrite bind_run in E.
  destruct (Webull.get_ticker stock w) as [[t|e] w1] eqn:Et;
    [|discriminate E].
  destruct (get_ticker_ok _ _ _ _ Et) as (r & resp & rest & Hi & Hi' & Hs & Hl & Hc).
  exists r, resp, rest.
  destruct with_serial; exec E; try discriminate E.
  all: injection E as _ <-.
  all: cbn [inbox sent self with_uuid_n]; by split_and!.
Qed.

Lemma otoco_legs_ok (stock price stop_loss_price limit_profit_price
    time_in_force quant : value) (ids : option (value * value * value))
    (with_serial : bool) (legs : value) (w w' : World) :
  Webull.otoco_legs stock price stop_loss_price limit_profit_price
    time_in_force quant ids with_serial w = (Ok legs, w') →
  ∃ r1 r2 r3 resp1 resp2 resp3 rest,
    inbox w = resp1 :: resp2 :: resp3 :: rest ∧ inbox w' = rest ∧
    sent w' = (sent w ++ [r1; r2; r3])%list ∧
    lookup_of stock w r1 ∧ lookup_of stock w r2 ∧ lookup_of stock w r3 ∧
    self w' = self w.
Proof.
  unfold Webull.otoco_legs. intros E.
  rewrite bind_run in E.
  destruct (Webull.otoco_leg _ _ _ _ _ _ _ _ _ _ w) as [[o1|e] w1] eqn:E1;
    [|discriminate E].
  rewrite bind_run in E.
  destruct (Webull.otoco_leg _ _ _ _ _ _ _ _ _ _ w1) as [[o2|e] w2] eqn:E2;
    [|discriminate E].
  rewrite bind_run in E.
  destruct (Webull.otoco_leg _ _ _ _ _ _ _ _ _ _ w2) as [[o3|e] w3] eqn:E3;
    [|discriminate E].
  rewrite ret_run in E. injection E as _ <-.
  destruct (otoco_leg_ok _ _ _ _ _ _ _ _ _ _ _ _ _ E1)
    as (r1 & p1 & t1 & Hi1 & Hi1' & Hs1 & Hl1 & Hc1).
  destruct (otoco_leg_ok _ _ _ _ _ _ _ _ _ _ _ _ _ E2)
    as (r2 & p2 & t2 & Hi2 & Hi2' & Hs2 & Hl2 & Hc2).
  destruct (otoco_leg_ok _ _ _ _ _ _ _ _ _ _ _ _ _ E3)
    as (r3 & p3 & t3 & Hi3 & Hi3' & Hs3 & Hl3 & Hc3).
  exists r1, r2, r3, p1, p2, p3, t3.
  unfold lookup_of in *. rewrite Hc1 in Hl2. rewrite Hc2, Hc1 in Hl3.
  destruct Hl1, Hl2, Hl3.
  split_and!; try done; try congruence.
  by rewrite Hs3, Hs2, Hs1, <- !app_assoc.
Qed.

(** [modify_order_otoco], when it returns, has looked the ticker up once
    for each of the three legs and then posted the modification. *)
Lemma modify_order_otoco_calls
    (order_id1 order_id2 order_id3 stock price stop_loss_price
     limit_profit_price time_in_force quant : value) (w : World) (a : value) :
  let run := Webull.modify_order_otoco order_id1 order_id2 order_id3 stock
               price stop_loss_price limit_profit_price time_in_force quant w in
  run.1 = Ok a →
  let ask := (GET, endpoints.stock_id stock (_region_code (self w))) in
  calls w run.2
  = [ask; ask; ask;
     (POST, endpoints.modify_otoco_orders (_account_id (self w)))].
Proof.
  cbv zeta.
  destruct (Webull.modify_order_otoco _ _ _ _ _ _ _ _ _ w) as [r w'] eqn:E.
  cbn [fst snd]. intros ->. revert E.
  unfold Webull.modify_order_otoco, calls. intros E.
  rewrite bind_run, build_req_headers_run in E. cbv beta iota in E.
  rewrite bind_run in E.
  destruct (Webull.otoco_legs _ _ _ _ _ _ _ _ _) as [[legs|e] w1] eqn:El;
    [|discriminate E].
  destruct (otoco_legs_ok _ _ _ _ _ _ _ _ _ _ _ El)
    as (r1 & r2 & r3 & p1 & p2 & p3 & rest & Hi & Hi' & Hs & (M1 & U1)
        & (M2 & U2) & (M3 & U3) & Hc).
  rewrite sent_built in Hs. rewrite self_built in U1, U2, U3, Hc.
  repeat first [rewrite Hi' in E | rewrite Hs in E | rewrite Hc in E
               | exec_step E].
  all: try discriminate E.
  all: injection E as _ <-.
  all: unfold new_requests; cbn [sent with_net with_uuid_n];
    rewrite ?Hs, <- ?app_assoc, drop_app_length;
    cbn [map app req_method req_url].
  all: by rewrite M1, M2, M3, U1, U2, U3, ?Hc.
Qed.

(** [place_order_otoco], when it returns, has made the three lookups and
    the check; and, exactly when the check passed, three more lookups and the
    order. *)
Lemma place_order_otoco_calls
    (stock price stop_loss_price limit_profit_price time_in_force quant : value)
    (w : World) (a : value) :
  let run := Webull.place_order_otoco stock price stop_loss_price
               limit_profit_price time_in_force quant w in
  run.1 = Ok a →
  let ask := (GET, endpoints.stock_id stock (_region_code (self w))) in
  calls w run.2
  = ([ask; ask; ask;
      (POST, endpoints.check_otoco_orders (_account_id (self w)))]
     ++ (if check_passes w
         then [ask; ask; ask;
               (POST, endpoints.place_otoco_orders (_account_id (self w)))]
         else []))%list.
Proof.
  cbv zeta.
  destruct (Webull.place_order_otoco _ _ _ _ _ _ w) as [r w'] eqn:E.
  cbn [fst snd]. intros ->. revert E.
  unfold Webull.place_order_otoco, calls, check_passes. intros E.
  rewrite bind_run, build_req_headers_run in E. cbv beta iota in E.
  rewrite bind_run in E.
  destruct (Webull.otoco_legs _ _ _ _ _ _ _ _ _) as [[legs|e] w1] eqn:El;
    [|discriminate E].
  destruct (otoco_legs_ok _ _ _ _ _ _ _ _ _ _ _ El)
    as (r1 & r2 & r3 & p1 & p2 & p3 & rest & Hi & Hi' & Hs & (M1 & U1)
        & (M2 & U2) & (M3 & U3) & Hc).
  rewrite inbox_built in Hi. rewrite sent_built in Hs.
  rewrite self_built in U1, U2, U3, Hc.
  rewrite Hi. cbn [lookup list_lookup].
  rewrite bind_run, get_self_run in E. cbv beta iota in E.
  rewrite bind_run, requests_post_run in E. cbv zeta in E.
  rewrite Hi' in E.
  destruct rest as [|p4 rest]; [discriminate E|]. cbn [lookup list_lookup].
  cbv beta iota in E.
  rewrite bind_run, json_run in E.
  destruct (body p4) as [res|]; [|discriminate E]. cbv beta iota in E.
  rewrite bind_run, lift_run in E.
  destruct (getitem res "forward") as [f|e]; [|discriminate E].
  cbv beta iota in E.
  destruct (truthy f) eqn:Hf.
  - rewrite bind_run in E.
    destruct (Webull.otoco_legs _ _ _ _ _ _ None true _)
      as [[legs2|e] w2] eqn:El2; [|discriminate E].
    destruct (otoco_legs_ok _ _ _ _ _ _ _ _ _ _ _ El2)
      as (q1 & q2 & q3 & p5 & p6 & p7 & rest2 & Hj & Hj' & Ht & (N1 & V1)
          & (N2 & V2) & (N3 & V3) & Hd).
    cbn [inbox sent self with_net] in Hj, Ht, V1, V2, V3, Hd.
    rewrite Hc in V1, V2, V3, Hd.
    repeat first [rewrite Hj' in E | rewrite Ht in E | rewrite Hd in E
                 | exec_step E].
    all: try discriminate E.
    all: injection E as _ <-.
    all: unfold new_requests; cbn [sent with_net with_uuid_n];
      rewrite ?Ht, ?Hs, <- ?app_assoc, drop_app_length;
      cbn [map app req_method req_url].
    all: by rewrite M1, M2, M3, U1, U2, U3, N1, N2, N3, V1, V2, V3, ?Hc, ?Hd.
  - exec E. all: try discriminate E.
    all: injection E as _ <-.
    all: unfold new_requests;
      cbn [sent with_net with_uuid_n with_stdout];
      rewrite ?Hs, <- ?app_assoc, drop_app_length;
      cbn [map app req_method req_url].
    all: by rewrite M1, M2, M3, U1, U2, U3, ?Hc.
Qed.

End WithLib.

Ltac lookup_facts :=
  match goal with
  | Hx : Webull.get_ticker ?s ?w0 = (Ok ?t, ?w1) |- _ =>
      let r := fresh "r" in let resp := fresh "resp" in
      let rest := fresh "rest" in
      let Hi := fresh "Hi" in let Hi' := fresh "Hi'" in
      let Hs := fresh "Hs" in let Hm := fresh "Hm" in
      let Hu := fresh "Hu" in let Hc := fresh "Hc" in
      destruct (get_ticker_ok _ _ _ _ Hx)
        as (r & resp & rest & Hi & Hi' & Hs & (Hm & Hu) & Hc);
      clear Hx;
      rewrite ?sent_built in Hs; rewrite ?self_built in Hu, Hc;
      cbn [sent self inbox with_net with_uuid_n with_ticks] in Hs, Hu, Hc;
      unfold calls, new_requests;
      cbn [sent with_net with_uuid_n with_ticks with_stdout with_self];
      rewrite ?Hs, ?sent_built, <- ?app_assoc, drop_app_length;
      cbn [map app req_method req_url];
      rewrite Hm, Hu; eexists; reflexivity
  end.

(** One step of [E] whose action leaves the world as it is: only the
    outcome in which it returns remains. *)
Ltac pure_step E :=
  rewrite bind_run in E;
  lazymatch type of E with
  | (let (_, _) := ?m ?w in _) = _ =>
      let Hp := fresh "Hp" in
      assert (Hp : (m w).2 = w)
        by (unfold Webull.py_or;
            repeat match goal with
                   | |- context [if ?b then _ else _] => destruct b
                   end;
            reflexivity);
      let w0 := fresh "w" in
      destruct (m w) as [[?|?] w0]; cbn [snd] in Hp; subst w0;
      [|discriminate E]
  end;
  cbv beta iota in E.

Ltac lookup_go :=
  let E := fresh "E" in
  intros w a;
  match goal with
  | |- (?m w).1 = _ → _ =>
      destruct (m w) as [r w'] eqn:E; cbn [fst snd]; intros ->
  end;
  exec E; try discriminate E;
  injection E as _ <-; lookup_facts.

Section WithLib.
Context `{!PyLib}.

Lemma place_order_lookup_first
    (stock tId price action orderType enforce quant outsideRegularTradingHour
     stpPrice trial_value trial_type : value) :
  is_None tId = true →
  lookup_first stock
    (Webull.place_order stock tId price action orderType enforce quant
       outsideRegularTradingHour stpPrice trial_value trial_type).
Proof.
  intros Ht. unfold lookup_first, Webull.place_order, Webull.resolve_tId.
  rewrite Ht. cbn [negb].
  destruct (is_None stock); cbn [negb].
  - intros w a. rewrite bind_run. by autorewrite with run.
  - lookup_go.
Qed.

Lemma place_order_crypto_lookup_first
    (stock tId price action orderType enforce entrust_type quant
     outsideRegularTradingHour : value) :
  is_None tId = true →
  lookup_first stock
    (Webull.place_order_crypto stock tId price action orderType enforce
       entrust_type quant outsideRegularTradingHour).
Proof.
  intros Ht. unfold lookup_first, Webull.place_order_crypto, Webull.resolve_tId.
  rewrite Ht. cbn [negb].
  destruct (is_None stock); cbn [negb].
  - intros w a. rewrite bind_run. by autorewrite with run.
  - lookup_go.
Qed.

Lemma get_bars_lookup_first
    (stock tId interval count extendTrading timeStamp : value) :
  is_None tId = true →
  lookup_first stock
    (Webull.get_bars stock tId interval count extendTrading timeStamp).
Proof.
  intros Ht. unfold lookup_first, Webull.get_bars, Webull.resolve_tId.
  rewrite Ht. cbn [negb].
  destruct (is_None stock); cbn [negb].
  - intros w a. rewrite !bind_run. by autorewrite with run.
  - lookup_go.
Qed.

Lemma modify_order_lookup_first
    (order order_id stock tId price action orderType enforce quant
     outsideRegularTradingHour : value) :
  is_None tId && negb (is_None stock) = true →
  lookup_first stock
    (Webull.modify_order order order_id stock tId price action orderType
       enforce quant outsideRegularTradingHour).
Proof.
  intros [Ht Hs]%andb_true_iff. apply negb_true_iff in Hs.
  unfold lookup_first, Webull.modify_order.
  rewrite Ht, Hs. cbn [negb andb].
  intros w a.
  match goal with
  | |- (?m w).1 = _ → _ =>
      destruct (m w) as [r w'] eqn:E; cbn [fst snd]; intros ->
  end.
  pure_step E.
  rewrite bind_run, build_req_headers_run in E. cbv beta iota in E.
  do 8 pure_step E.
  rewrite bind_run in E.
  destruct (Webull.get_ticker stock _) as [[t|e] w1] eqn:Et;
    [|discriminate E].
  cbv beta iota in E.
  pure_step E.
  exec E; try discriminate E.
  all: injection E as _ <-; lookup_facts.
Qed.

Lemma get_quote_lookup_first (stock tId : value) :
  truthy stock = true →
  lookup_first stock (Webull.get_quote stock tId).
Proof.
  intros Hs. unfold lookup_first, Webull.get_quote.
  rewrite Hs. cbn [negb andb].
  intros w a.
  match goal with
  | |- (?m w).1 = _ → _ =>
      destruct (m w) as [r w'] eqn:E; cbn [fst snd]; intros ->
  end.
  rewrite bind_run, build_req_headers_run in E. cbv beta iota in E.
  pure_step E.
  rewrite bind_run in E. unfold try_ValueError in E.
  rewrite bind_run in E.
  destruct (Webull.get_ticker stock _) as [[t|e] w1] eqn:Et.
  - exec E; try discriminate E.
    all: injection E as _ <-; lookup_facts.
  - cbv beta iota in E. destruct (is_ValueError e); exec E; discriminate E.
Qed.

End WithLib.
End Shape.

(** * One call, how many requests *)

Module Calls.
Import Py Env Spec Logic Run Requests Retry Shape.




End Calls.

(** * modify_order without an order *)

Module ModifyOrder.
Import Py Env Spec Logic Run.

Section WithLib.
Context `{!PyLib}.

(** C10.  A call of [modify_order] with an [order_id] but [order=None]
    passes the check of its arguments and then fails before any request is
    made, as soon as it has to read the order: with [action] left at [None]
    (or otherwise false) the exception is the [TypeError] of [None['action']];
    the same happens for any other argument left at a false default. *)
Theorem modify_order_needs_the_order
    (order_id stock tId price action orderType enforce quant
     outsideRegularTradingHour : value) (w : World) :
  truthy order_id = true →
  reads_order price action orderType enforce quant outsideRegularTradingHour
  = true →
  let run := Webull.modify_order VNone order_id stock tId price action
               orderType enforce quant outsideRegularTradingHour w in
  (∃ e, run.1 = Raise e) ∧
  sent run.2 = sent w ∧
  inbox run.2 = inbox w ∧
  (truthy action = false → run.1 = Raise TypeError).
Proof.
  intros Hid Hread run. subst run.
  destruct (Webull.modify_order _ _ _ _ _ _ _ _ _ _ w) as [r w'] eqn:E.
  cbn [fst snd]. revert E.
  unfold Webull.modify_order, Webull.py_or, reads_order in *.
  rewrite Hid. cbn [truthy negb andb]. intros E.
  exec E.
  all: try (cbn in Hread; discriminate Hread).
  all: injection E as <- <-.
  all: cbn [sent inbox with_net with_uuid_n]; rewrite ?sent_built, ?inbox_built.
  all: try match goal with
           | Hx : getitem VNone _ = Raise _ |- _ => cbn in Hx; injection Hx as <-
           end.
  all: split_and!; [eauto|reflexivity|reflexivity|intros; try discriminate; reflexivity].
Qed.

End WithLib.
End ModifyOrder.

(** * refresh_login *)

Module Refresh.
Import Py Env Spec Logic Run.

Lemma getitem_dict_inv (d : list (string * value)) (k : string) (v : value) :
  getitem (VDict d) k = Ok v → dict_get k d = Some v.
Proof. cbn. destruct (dict_get k d); [by intros [= ->]|discriminate]. Qed.

(** The tests of the code against the words of the description. *)
Lemma refresh_condition_accepts (result : value) :
  refresh_accepts result = true →
  Webull.refresh_condition result = Ok true ∧
  ∃ d a r e, result = VDict d ∧ getitem result "accessToken" = Ok a ∧
             getitem result "refreshToken" = Ok r ∧
             getitem result "tokenExpireTime" = Ok e.
Proof.
  destruct result as [| | | | | |d]; try discriminate. cbn.
  unfold nonempty_at, dict_has, Webull.refresh_condition. cbn.
  unfold dict_has.
  destruct (dict_get "accessToken" d) as [a|]; [|discriminate].
  destruct (dict_get "refreshToken" d) as [r|];
    [|rewrite !andb_false_r; cbn; discriminate].
  destruct (dict_get "tokenExpireTime" d) as [e|];
    [|rewrite !andb_false_r; discriminate].
  cbn.
  destruct (py_eq a (VStr "")); [discriminate|].
  destruct (py_eq r (VStr "")); [discriminate|].
  destruct (py_eq e (VStr "")); [discriminate|].
  intros _. split; [reflexivity|]. by exists d, a, r, e.
Qed.

(** What is returned for an answer that is not accepted, in the words of
    the description.  A JSON object is returned as it is, unless its
    ['accessToken'] is there and not empty and then ['refreshToken'] is
    missing, or ['refreshToken'] is there and not empty too and then
    ['tokenExpireTime'] is missing: the missing key is a [KeyError].  A list
    or a text is returned as it is unless it holds 'accessToken' (as an item,
    as a part), which is a [TypeError]; a number, a boolean and [None] are a
    [TypeError]. *)
Definition refresh_refusal (res : value) : result value :=
  match res with
  | VDict d =>
      if negb (nonempty_at "accessToken" d) then Ok res
      else match dict_get "refreshToken" d with
           | None => Raise (KeyError "refreshToken")
           | Some r =>
               if py_eq r (VStr "") then Ok res
               else match dict_get "tokenExpireTime" d with
                    | None => Raise (KeyError "tokenExpireTime")
                    | Some _ => Ok res
                    end
           end
  | VList l =>
      if existsb (λ x, py_eq x (VStr "accessToken")) l then Raise TypeError
      else Ok res
  | VStr s => if is_substring "accessToken" s then Raise TypeError else Ok res
  | _ => Raise TypeError
  end.

Lemma refresh_condition_rejects (res : value) :
  refresh_accepts res = false →
  match refresh_refusal res with
  | Ok v => v = res ∧ Webull.refresh_condition res = Ok false
  | Raise e => Webull.refresh_condition res = Raise e
  end.
Proof.
  unfold Webull.refresh_condition, refresh_refusal.
  destruct res as [| | | | s|l|d]; cbn; try done.
  - intros _. by destruct (is_substring "accessToken" s).
  - intros _. by destruct (existsb _ l).
  - unfold nonempty_at, dict_has.
    destruct (dict_get "accessToken" d) as [a|]; cbn; [|done].
    destruct (py_eq a (VStr "")); cbn; [done|].
    destruct (dict_get "refreshToken" d) as [r|]; cbn; [|done].
    destruct (py_eq r (VStr "")); cbn; [done|].
    destruct (dict_get "tokenExpireTime" d) as [e|]; cbn; [|done].
    by destruct (py_eq e (VStr "")).
Qed.

Section WithLib.
Context `{!PyLib}.


End WithLib.
End Refresh.

(** * place_order *)

Module PlaceOrder.
Import Py Env Spec Logic Run Headers Tokens.

Section WithLib.
Context `{!PyLib}.

Definition any_request (r : Request) : Prop := True.

Lemma requests_get_any (c : Client) (url : string) (params : option value)
    (headers : option loc) :
  hoare (client_is c) (sent_frame (client_is c) any_request) (λ _, True)
    (requests_get url params headers).
Proof.
  apply (hoare_send _ _ (λ w, mkRequest GET url None params
                                (snapshot headers w) (timeout (self w)))).
  - unfold client_is. congruence.
  - done.
Qed.

Lemma requests_post_any (c : Client) (url : string) (data : option value)
    (headers : option loc) :
  hoare (client_is c) (sent_frame (client_is c) any_request) (λ _, True)
    (requests_post url data headers).
Proof.
  apply (hoare_send _ _ (λ w, mkRequest POST url data None
                                (snapshot headers w) (timeout (self w)))).
  - unfold client_is. congruence.
  - done.
Qed.

Ltac any_hook :=
  idtac;
  lazymatch goal with
  | |- hoare _ _ _ (Webull.build_req_headers _ _ _) =>
      eapply hoare_weaken; [apply build_client_is|done]
  | |- hoare _ _ _ (requests_get _ _ _) => apply requests_get_any
  | |- hoare _ _ _ (requests_post _ _ _) => apply requests_post_any
  end.

(** [place_order] assigns no attribute of the client. *)
Lemma place_order_keeps_client
    (stock tId price action orderType enforce quant outsideRegularTradingHour
     stpPrice trial_value trial_type : value) (w : World) :
  self (Webull.place_order stock tId price action orderType enforce quant
          outsideRegularTradingHour stpPrice trial_value trial_type w).2
  = self w.
Proof.
  assert (Hh : hoare (client_is (self w))
                 (sent_frame (client_is (self w)) any_request) (λ _, True)
                 (Webull.place_order stock tId price action orderType enforce
                    quant outsideRegularTradingHour stpPrice trial_value
                    trial_type)).
  { unfold Webull.place_order, Webull.resolve_tId, Webull.get_ticker.
    hoare_run any_hook. }
  by destruct (Hh w eq_refl) as [[Hs _] _].
Qed.

(** The price fields of the payload, by order type. *)
Lemma place_order_data_keys
    (tId price action orderType enforce quant_int outsideRegularTradingHour
     stpPrice trial_value trial_type serialId : value)
    (data : list (string * value)) :
  Webull.place_order_data tId price action orderType enforce quant_int
    outsideRegularTradingHour stpPrice trial_value trial_type serialId
  = Ok data →
  (orderType = VStr "LMT" → has_keys ["lmtPrice"] ["auxPrice"] data) ∧
  (orderType = VStr "STP" → has_keys ["auxPrice"] ["lmtPrice"] data) ∧
  (orderType = VStr "STP LMT" → has_keys ["lmtPrice"; "auxPrice"] [] data) ∧
  (orderType = VStr "STP TRAIL" →
   has_keys ["trailingStopStep"; "trailingType"] [] data) ∧
  (orderType = VStr "MKT" →
   has_keys [] ["lmtPrice"; "auxPrice"] data ∧
   dict_get "outsideRegularTradingHour" data = Some (VBool false)).
Proof.
  intros E. unfold has_keys.
  split_and!; intros ->; revert E; unfold Webull.place_order_data; cbn.
  - destruct (py_float price); [|discriminate]. intros [= <-].
    split; repeat constructor.
  - destruct (py_float stpPrice); [|discriminate]. intros [= <-].
    split; repeat constructor.
  - destruct (py_float price); [|discriminate].
    destruct (py_float stpPrice); [|discriminate]. intros [= <-].
    split; repeat constructor.
  - destruct (py_float trial_value); [|discriminate]. intros [= <-].
    split; repeat constructor.
  - intros [= <-]. split; [split|]; repeat constructor.
Qed.

(** C7.  [place_order] first settles the ticker id: the one given, else
    the one [get_ticker] finds for the symbol; if that fails the call fails
    the same way and posts nothing.  With the id and a quantity that
    converts, it posts one request whose JSON body is the payload built from
    its arguments, and the payload's price fields follow the order type: LMT
    has [lmtPrice] and no [auxPrice], STP has [auxPrice] and no [lmtPrice],
    STP LMT has both, STP TRAIL has [trailingStopStep] and [trailingType],
    MKT has neither price and [outsideRegularTradingHour] false whatever was
    passed.  If a price does not convert, the call raises and posts nothing.
    In every case the client's attributes are what they were: nothing of the
    order is kept. *)
Theorem place_order_payload_by_type
    (stock tId price action orderType enforce quant outsideRegularTradingHour
     stpPrice trial_value trial_type : value) (w : World) (q : Z) :
  py_int quant = Ok q →
  let lookup := Webull.resolve_tId stock tId w in
  let run :=
    Webull.place_order stock tId price action orderType enforce quant
      outsideRegularTradingHour stpPrice trial_value trial_type w in
  (is_None tId = false → lookup = (Ok tId, w)) ∧
  (is_None tId = true → is_None stock = false →
   lookup = Webull.get_ticker stock w) ∧
  self run.2 = self w ∧
  match lookup.1 with
  | Raise e => run = (Raise e, lookup.2)
  | Ok t =>
      let serial := VStr (uuid_str (uuid_src lookup.2 (uuid_n lookup.2))) in
      match Webull.place_order_data t price action orderType enforce (VInt q)
              outsideRegularTradingHour stpPrice trial_value trial_type serial
      with
      | Ok data =>
          (∃ request,
             new_requests lookup.2 run.2 = [request] ∧
             req_method request = POST ∧
             req_url request = endpoints.place_orders (_account_id (self w)) ∧
             req_json request = Some (VDict data)) ∧
          (orderType = VStr "LMT" → has_keys ["lmtPrice"] ["auxPrice"] data) ∧
          (orderType = VStr "STP" → has_keys ["auxPrice"] ["lmtPrice"] data) ∧
          (orderType = VStr "STP LMT" →
           has_keys ["lmtPrice"; "auxPrice"] [] data) ∧
          (orderType = VStr "STP TRAIL" →
           has_keys ["trailingStopStep"; "trailingType"] [] data) ∧
          (orderType = VStr "MKT" →
           has_keys [] ["lmtPrice"; "auxPrice"] data ∧
           dict_get "outsideRegularTradingHour" data = Some (VBool false))
      | Raise e => run.1 = Raise e ∧ new_requests lookup.2 run.2 = []
      end
  end.
Proof.
  intros Hq lookup run.
  split_and!.
  - intros Ht. unfold lookup, Webull.resolve_tId. by rewrite Ht.
  - intros Ht Hs. unfold lookup, Webull.resolve_tId. by rewrite Ht, Hs.
  - apply place_order_keeps_client.
  - pose proof (place_order_keeps_client stock tId price action orderType
                  enforce quant outsideRegularTradingHour stpPrice trial_value
                  trial_type w) as Hself.
    fold run in Hself. subst run lookup.
    destruct (Webull.place_order _ _ _ _ _ _ _ _ _ _ _ w) as [r w'] eqn:E.
    cbn [fst snd] in Hself |- *. revert E. unfold Webull.place_order.
    rewrite bind_run.
    destruct (Webull.resolve_tId stock tId w) as [[t|e] w1] eqn:Hl;
      cbn [fst snd]; [|by intros [= <- <-]].
    intros E. cbv zeta.
    destruct (Webull.place_order_data t _ _ _ _ _ _ _ _ _ _) as [data|e] eqn:Hp.
    + split; [|by apply (place_order_data_keys _ _ _ _ _ _ _ _ _ _ _ _ Hp)].
      repeat first [rewrite Hq in E | rewrite Hp in E | exec_step E].
      all: injection E as <- <-.
      all: cbn [self with_net with_uuid_n] in Hself;
        rewrite ?self_built in Hself; rewrite Hself.
      all: eexists; split;
        [apply new_requests_app; cbn [sent with_net with_uuid_n];
         rewrite ?sent_built; reflexivity|].
      all: by split_and!.
    + repeat first [rewrite Hq in E | rewrite Hp in E | exec_step E].
      injection E as <- <-. split; [reflexivity|].
      apply new_requests_app. cbn [sent with_uuid_n].
      by rewrite ?sent_built, app_nil_r.
Qed.

End WithLib.
End PlaceOrder.

(** * run_screener *)

Module Screener.
Import Py Env Spec Logic Run.

Section WithLib.
Context `{!PyLib}.

(** C3.  In the payload of [run_screener], each rule that has both bounds
    is written with the bounds swapped relative to their names: the
    argument named [*_lte] follows ['gte='] and the argument named [*_gte]
    follows ['&lte='].  The payload is posted as it is, without headers. *)
Theorem run_screener_bounds_swapped
    (region price_lte price_gte pct_chg_gte pct_chg_lte sort sort_dir vol_lte
     vol_gte : value) (w : World) :
  let jdict := Webull.run_screener_jdict region price_lte price_gte pct_chg_gte
                 pct_chg_lte sort sort_dir vol_lte vol_gte in
  let rule name := rules ← getitem (VDict jdict) "rules"; getitem rules name in
  let run := Webull.run_screener region price_lte price_gte pct_chg_gte
               pct_chg_lte sort sort_dir vol_lte vol_gte w in
  (is_None price_lte = false → is_None price_gte = false →
   rule "wlas.screener.rule.price"
   = Ok (VStr ("gte=" +:+ py_str price_lte +:+ "&lte=" +:+ py_str price_gte))) ∧
  (is_None vol_lte = false → is_None vol_gte = false →
   rule "wlas.screener.rule.volume"
   = Ok (VStr ("gte=" +:+ py_str vol_lte +:+ "&lte=" +:+ py_str vol_gte))) ∧
  (is_None pct_chg_lte = false → is_None pct_chg_gte = false →
   rule "wlas.screener.rule.changeRatio"
   = Ok (VStr ("gte=" +:+ py_str pct_chg_lte +:+ "&lte=" +:+ py_str pct_chg_gte))) ∧
  (∃ request,
     new_requests w run.2 = [request] ∧ req_method request = POST ∧
     req_url request = endpoints.screener ∧
     req_json request = Some (VDict jdict) ∧ req_headers request = None).
Proof.
  intros jdict rule run. subst jdict rule run.
  unfold Webull.run_screener_jdict.
  split_and!.
  - intros -> ->. cbn [negb andb].
    destruct (is_None vol_lte), (is_None vol_gte), (is_None pct_chg_lte),
      (is_None pct_chg_gte); reflexivity.
  - intros -> ->. cbn [negb andb].
    destruct (is_None price_lte), (is_None price_gte), (is_None pct_chg_lte),
      (is_None pct_chg_gte); reflexivity.
  - intros -> ->. cbn [negb andb].
    destruct (is_None price_lte), (is_None price_gte), (is_None vol_lte),
      (is_None vol_gte); reflexivity.
  - destruct (Webull.run_screener _ _ _ _ _ _ _ _ _ w) as [r w'] eqn:E.
    revert E. unfold Webull.run_screener. intros E. exec E.
    all: injection E as <- <-; eexists.
    all: split; [apply new_requests_app; reflexivity|by split_and!].
Qed.

End WithLib.
End Screener.

(** * get_bars *)

Module Bars.
Import Py Env Spec Logic Run.

Lemma loc_assign_new (label : Webull.Timestamp) (bar : Webull.Bar)
    (df : Webull.DataFrame) :
  Webull.epoch label ∉ map (λ lb, Webull.epoch lb.1) df →
  Webull.loc_assign label bar df = (df ++ [(label, bar)])%list.
Proof.
  induction df as [|[l b] df IH]; intros Hn; [reflexivity|].
  cbn in *. apply not_elem_of_cons in Hn as [Hne Hn].
  destruct (Z.eqb_spec (Webull.epoch l) (Webull.epoch label)); [congruence|].
  by rewrite IH.
Qed.

(** Rows with distinct times are appended one after the other. *)
Lemma loc_assign_all (bars df : Webull.DataFrame) :
  NoDup (map (λ lb, Webull.epoch lb.1) (df ++ bars)) →
  fold_left (λ df lb, Webull.loc_assign lb.1 lb.2 df) bars df
  = (df ++ bars)%list.
Proof.
  revert df. induction bars as [|[l b] bars IH]; intros df Hnd.
  - by rewrite app_nil_r.
  - cbn. rewrite loc_assign_new.
    + rewrite IH; [by rewrite <- app_assoc|]. by rewrite <- app_assoc.
    + rewrite map_app in Hnd. apply NoDup_app in Hnd as (_ & Hd & _).
      intros Hin. apply (Hd _ Hin). cbn. left.
Qed.

Section WithLib.
Context `{!PyLib}.

(** The loop body of the code computes the record of the description. *)
Lemma bar_of_row_ohlcv (tz line : string) (lb : Webull.Timestamp * Webull.Bar) :
  ohlcv_of_line tz line = Some lb →
  fromtimestamp_ok (Webull.epoch lb.1) = true →
  Webull.bar_of_row tz (VStr line) = Ok lb.
Proof.
  unfold ohlcv_of_line, Webull.bar_of_row, Webull.float_column, Webull.column.
  set (cols := map _ (split_on "," line)).
  destruct (cols !! 0%nat) as [t|]; [|discriminate]. cbn.
  destruct (int_of_str t) as [n|]; [|discriminate]. cbn.
  destruct (cols !! 1%nat) as [c1|]; [|discriminate]. cbn.
  destruct (float_of_str c1) as [o|]; [|discriminate]. cbn.
  destruct (cols !! 2%nat) as [c2|]; [|discriminate]. cbn.
  destruct (float_of_str c2) as [c|]; [|discriminate]. cbn.
  destruct (cols !! 3%nat) as [c3|]; [|discriminate]. cbn.
  destruct (float_of_str c3) as [h|]; [|discriminate]. cbn.
  destruct (cols !! 4%nat) as [c4|]; [|discriminate]. cbn.
  destruct (float_of_str c4) as [l|]; [|discriminate]. cbn.
  destruct (cols !! 6%nat) as [c6|]; [|discriminate]. cbn.
  destruct (float_of_str c6) as [v|]; [|discriminate]. cbn.
  destruct (cols !! 7%nat) as [c7|]; [|discriminate]. cbn.
  destruct (float_of_str c7) as [x|]; [|discriminate]. cbn.
  intros [= <-]. cbn. by intros ->.
Qed.

Lemma get_bars_loop_ohlcv (tz : string) (lines : list string)
    (bars df : Webull.DataFrame) :
  mapM (ohlcv_of_line tz) lines = Some bars →
  Forall (λ lb, fromtimestamp_ok (Webull.epoch lb.1) = true) bars →
  Webull.get_bars_loop tz (map VStr lines) df
  = Ok (fold_left (λ df lb, Webull.loc_assign lb.1 lb.2 df) bars df).
Proof.
  rewrite mapM_Some. intros HF. revert df.
  induction HF as [|line lb lines bars Hl HF IH]; intros df Hok; [reflexivity|].
  apply Forall_cons in Hok as [Hok1 Hok]. cbn [map Webull.get_bars_loop].
  rewrite (bar_of_row_ohlcv _ _ _ Hl Hok1). cbn. by apply IH.
Qed.


End WithLib.
End Bars.

(** * The paper-trading overrides next to the methods they override *)

Module Paper.
Import Py Env Spec Logic Run Dicts.

(** [item['ticker']['symbol']] *)
Definition symbol_of (item : value) : result value :=
  t ← getitem item "ticker"; getitem t "symbol".

(** With symbols that are strings, the loop of [get_positions] stores each
    item under its symbol, in turn. *)
Lemma positions_by_symbol_str (items : list value) (syms : list string) :
  Forall2 (λ item s, symbol_of item = Ok (VStr s)) items syms →
  ∀ acc,
    PaperWebull.positions_by_symbol items (str_keyed acc)
    = Ok (str_keyed (fold_left (λ d kv, dict_set kv.1 kv.2 d)
                       (zip syms items) acc)).
Proof.
  induction 1 as [|item sym items syms Hs _ IH]; intros acc; [done|].
  unfold symbol_of in Hs.
  cbn [PaperWebull.positions_by_symbol zip zip_with fold_left fst snd].
  rewrite Hs. cbn [mbind result_bind]. rewrite pydict_store_str.
  apply IH.
Qed.

Lemma same_requests_one_more (s : list Request) (r1 r2 : Request) :
  same_request_but_url r1 r2 →
  Forall2 same_request_but_url (s ++ [r1]) (s ++ [r2]).
Proof.
  intros Hr. apply Forall2_app; [|by constructor].
  apply Forall_Forall2_diag, Forall_forall. by intros r _.
Qed.

(** Closes [same_but_urls] for two worlds that are written out. *)
Ltac same_worlds :=
  unfold same_but_urls; cbn [self heap inbox sent with_net];
  split_and!; [reflexivity|reflexivity|reflexivity|];
  apply same_requests_one_more; by split_and!.

Section WithLib.
Context `{!PyLib}.

(** [get_account]: the same call but for the URL. *)
Lemma get_account_same (w : World) :
  (PaperWebull.get_account w).1 = (Webull.get_account w).1 ∧
  same_but_urls (PaperWebull.get_account w).2 (Webull.get_account w).2.
Proof.
  destruct (PaperWebull.get_account w) as [r1 w1] eqn:E1.
  destruct (Webull.get_account w) as [r2 w2] eqn:E2.
  cbn [fst snd]. revert E1 E2.
  unfold PaperWebull.get_account, Webull.get_account. intros E1 E2.
  exec E1; injection E1 as <- <-;
    repeat first
      [ match goal with
        | H : inbox w = _ |- _ => rewrite H in E2
        | H : body _ = _ |- _ => rewrite H in E2
        end
      | exec_step E2 ];
    injection E2 as <- <-;
    (split; [reflexivity|]);
    same_worlds.
Qed.

Lemma get_current_orders_same (w : World) :
  (PaperWebull.get_current_orders w).1 = (Webull.get_current_orders w).1 ∧
  same_but_urls (PaperWebull.get_current_orders w).2
                (Webull.get_current_orders w).2.
Proof.
  unfold PaperWebull.get_current_orders, Webull.get_current_orders.
  rewrite !bind_run.
  destruct (get_account_same w) as [Hr Hw].
  destruct (PaperWebull.get_account w) as [r1 w1].
  destruct (Webull.get_account w) as [r2 w2].
  cbn [fst snd] in *. subst r2. by destruct r1.
Qed.

Lemma get_history_orders_same (status count : value) (w : World) :
  (PaperWebull.get_history_orders status count w).1
  = (Webull.get_history_orders status count w).1 ∧
  same_but_urls (PaperWebull.get_history_orders status count w).2
                (Webull.get_history_orders status count w).2.
Proof.
  destruct (PaperWebull.get_history_orders status count w) as [r1 w1] eqn:E1.
  destruct (Webull.get_history_orders status count w) as [r2 w2] eqn:E2.
  cbn [fst snd]. revert E1 E2.
  unfold PaperWebull.get_history_orders, Webull.get_history_orders.
  intros E1 E2.
  exec E1; injection E1 as <- <-;
    repeat first
      [ match goal with
        | H : inbox w = _ |- _ => rewrite H in E2
        | H : body _ = _ |- _ => rewrite H in E2
        end
      | exec_step E2 ];
    injection E2 as <- <-;
    (split; [reflexivity|]);
    same_worlds.
Qed.

Lemma get_positions_same (w : World) :
  same_but_urls (PaperWebull.get_positions w).2 (Webull.get_positions w).2 ∧
  (PaperWebull.get_positions w).1
  = (v ← (Webull.get_positions w).1;
     items ← Webull.py_iter v;
     PaperWebull.positions_by_symbol items []).
Proof.
  unfold PaperWebull.get_positions, Webull.get_positions.
  rewrite !bind_run.
  destruct (get_account_same w) as [Hr Hw].
  destruct (PaperWebull.get_account w) as [r1 w1].
  destruct (Webull.get_account w) as [r2 w2].
  cbn [fst snd] in *. subst r2.
  destruct r1 as [data|e]; cbn [fst snd mbind result_bind]; [|done].
  rewrite !lift_run.
  destruct (getitem data "positions") as [v|e];
    cbn [fst snd mbind result_bind]; [|done].
  rewrite bind_run, lift_run.
  destruct (Webull.py_iter v) as [items|e];
    cbn [fst snd mbind result_bind]; [|done].
  rewrite bind_run, lift_run. cbv beta iota. rewrite lift_run. cbn [fst snd].
  by destruct (PaperWebull.positions_by_symbol items []).
Qed.

(** What the base [get_positions] makes of an answer: its ['positions']. *)
Lemma get_positions_run (w : World) (resp : Response) (rest : list Response)
    (data : value) :
  inbox w = resp :: rest →
  body resp = Some data →
  (Webull.get_positions w).1 = getitem data "positions".
Proof.
  intros Hi Hb.
  destruct (Webull.get_positions w) as [r w'] eqn:E. cbn [fst].
  revert E. unfold Webull.get_positions, Webull.get_account. intros E.
  repeat first [rewrite Hi in E | rewrite Hb in E | exec_step E].
  all: by injection E as <- _.
Qed.

(** C8, as the code has it.  Of the eight methods [PaperWebull] overrides,
    [get_account] and [get_current_orders] have the parameters of the base
    method and, against the same vendor response, return the same value and
    leave the same world but for the URL requested.  [get_history_orders]
    does so too when both arguments are passed, but its default [status] is
    ['Cancelled'] where the base method's is ['All'].  [get_positions] has the
    same (empty) parameter list and makes the same request but for the URL;
    where the base method raises it raises the same, and where the base
    method returns the ['positions'] list of the answer as it is, it returns
    a dict keyed by symbol: each position stored under the symbol of its
    ticker, the last one of a symbol kept.  [get_account_id], [place_order],
    [modify_order] and [cancel_order] have other parameter lists than the
    methods they override. *)
Theorem paper_overrides_compared :
  (PaperWebull.sig_get_account = Webull.sig_get_account ∧
   ∀ w, (PaperWebull.get_account w).1 = (Webull.get_account w).1 ∧
        same_but_urls (PaperWebull.get_account w).2 (Webull.get_account w).2) ∧
  (PaperWebull.sig_get_current_orders = Webull.sig_get_current_orders ∧
   ∀ w, (PaperWebull.get_current_orders w).1 = (Webull.get_current_orders w).1 ∧
        same_but_urls (PaperWebull.get_current_orders w).2
                      (Webull.get_current_orders w).2) ∧
  (map fst PaperWebull.sig_get_history_orders
   = map fst Webull.sig_get_history_orders ∧
   dict_get "status" [("status", VStr "Cancelled")]
   = (PaperWebull.sig_get_history_orders !! 0%nat) ≫= snd ∧
   dict_get "status" [("status", VStr "All")]
   = (Webull.sig_get_history_orders !! 0%nat) ≫= snd ∧
   ∀ status count w,
     (PaperWebull.get_history_orders status count w).1
     = (Webull.get_history_orders status count w).1 ∧
     same_but_urls (PaperWebull.get_history_orders status count w).2
                   (Webull.get_history_orders status count w).2) ∧
  (PaperWebull.sig_get_positions = Webull.sig_get_positions ∧
   (∀ w, same_but_urls (PaperWebull.get_positions w).2
                       (Webull.get_positions w).2 ∧
         ∀ e, (Webull.get_positions w).1 = Raise e →
              (PaperWebull.get_positions w).1 = Raise e) ∧
   (∀ w resp rest data items syms,
      inbox w = resp :: rest →
      body resp = Some data →
      getitem data "positions" = Ok (VList items) →
      Forall2 (λ item s, symbol_of item = Ok (VStr s)) items syms →
      (Webull.get_positions w).1 = Ok (VList items) ∧
      ∃ positions,
        (PaperWebull.get_positions w).1 = Ok (str_keyed positions) ∧
        ∀ s, dict_get s positions = dict_get s (rev (zip syms items)))) ∧
  (PaperWebull.sig_get_account_id ≠ Webull.sig_get_account_id ∧
   PaperWebull.sig_place_order ≠ Webull.sig_place_order ∧
   PaperWebull.sig_modify_order ≠ Webull.sig_modify_order ∧
   PaperWebull.sig_cancel_order ≠ Webull.sig_cancel_order).
Proof.
  split_and!; try reflexivity; try discriminate.
  - apply get_account_same.
  - apply get_current_orders_same.
  - apply get_history_orders_same.
  - intros w. destruct (get_positions_same w) as [Hw Hr].
    split; [done|]. intros e He. by rewrite Hr, He.
  - intros w resp rest data items syms Hi Hb Hp Hs.
    pose proof (get_positions_run w resp rest data Hi Hb) as Hbase.
    rewrite Hp in Hbase. split; [done|].
    destruct (get_positions_same w) as [_ Hr].
    rewrite Hbase in Hr. cbn [mbind result_bind Webull.py_iter] in Hr.
    change (@nil (value * value)) with (str_keyed []) in Hr.
    rewrite (positions_by_symbol_str items syms Hs) in Hr.
    eexists. split; [exact Hr|].
    intros s. rewrite dict_get_fold.
    by destruct (dict_get s (rev (zip syms items))).
Qed.

End WithLib.

(** C8 as stated fails: the overrides do not all have the defaults and the
    return shape of the base methods.  [get_history_orders] defaults to
    another status, and against one and the same response [get_positions]
    returns a list in the base class and a dict in the paper class. *)
Lemma paper_overrides_differ :
  let w := Sample.fresh
             [Sample.ok_json
                (VDict [("positions",
                         VList [VDict [("ticker", VDict [("symbol", VStr "AAPL")]);
                                       ("position", VInt 3)]])])] in
  let item := VDict [("ticker", VDict [("symbol", VStr "AAPL")]);
                     ("position", VInt 3)] in
  Webull.sig_get_history_orders
  = [("status", Some (VStr "All")); ("count", Some (VInt 20))] ∧
  PaperWebull.sig_get_history_orders
  = [("status", Some (VStr "Cancelled")); ("count", Some (VInt 20))] ∧
  (Webull.get_positions (H := Sample.lib) w).1 = Ok (VList [item]) ∧
  (PaperWebull.get_positions (H := Sample.lib) w).1
  = Ok [(VStr "AAPL", item)].
Proof. vm_compute. by split_and!. Qed.

End Paper.

(** * Ticker resolution *)

Module Ticker.
Import Py Env Spec Logic Run.

Lemma getitem_raises (v : value) (k : string) (e : exn) :
  getitem v k = Raise e → is_ValueError e = false.
Proof.
  destruct v; cbn; try by intros [= <-].
  destruct (dict_get _ _); [discriminate|]. by intros [= <-].
Qed.

Lemma contains_raises (k : string) (v : value) (e : exn) :
  contains k v = Raise e → is_ValueError e = false.
Proof. destruct v; cbn; try discriminate; by intros [= <-]. Qed.

Lemma getindex_raises (v : value) (i : Z) (e : exn) :
  getindex v i = Raise e → is_ValueError e = false.
Proof.
  destruct v; cbn; try by intros [= <-].
  - destruct (_ <? 0); [by intros [= <-]|].
    destruct (String.get _ _); [discriminate|]. by intros [= <-].
  - destruct (_ <? 0); [by intros [= <-]|].
    destruct (_ !! _); [discriminate|]. by intros [= <-].
Qed.

Lemma py_iter_raises (v : value) (e : exn) :
  Webull.py_iter v = Raise e → is_ValueError e = false.
Proof. destruct v; cbn; try discriminate; by intros [= <-]. Qed.

Lemma no_data_get (v a : value) :
  dict_get_method v "data" = Ok a → no_data v = negb (truthy a).
Proof. destruct v; try discriminate. cbn. by intros [= <-]. Qed.

Lemma no_data_raises (v : value) (e : exn) :
  dict_get_method v "data" = Raise e →
  no_data v = false ∧ is_ValueError e = false.
Proof. destruct v; try discriminate; by intros [= <-]. Qed.

(** The loop over a list of JSON objects stops at the first that names
    [stock]. *)
Lemma get_ticker_loop_find (stock : string)
    (items : list (list (string * value))) (t : value) :
  Webull.get_ticker_loop (VStr stock) (map VDict items) t
  = match find (names stock) items with
    | Some item => getitem (VDict item) "tickerId"
    | None => Ok t
    end.
Proof.
  induction items as [|item items IH]; [reflexivity|].
  cbn [map Webull.get_ticker_loop find]. unfold names at 1.
  cbn [contains mbind result_bind mret result_ret getitem].
  unfold dict_has.
  destruct (dict_get "symbol" item) as [s|]; cbn.
  - destruct (py_eq s (VStr stock)); cbn; [reflexivity|].
    destruct (dict_get "disSymbol" item) as [s'|]; cbn; [|exact IH].
    destruct (py_eq s' (VStr stock)); cbn; [reflexivity|exact IH].
  - destruct (dict_get "disSymbol" item) as [s'|]; cbn; [|exact IH].
    destruct (py_eq s' (VStr stock)); cbn; [reflexivity|exact IH].
Qed.

Lemma get_ticker_loop_raises (stock : value) (items : list value) (t : value)
    (e : exn) :
  Webull.get_ticker_loop stock items t = Raise e → is_ValueError e = false.
Proof.
  induction items as [|item items IH]; [discriminate|].
  cbn [Webull.get_ticker_loop].
  destruct (contains "symbol" item) as [has|e1] eqn:Hc;
    cbn [mbind result_bind mret result_ret];
    [|intros [= <-]; by eapply contains_raises].
  assert (∀ k (b : bool) e,
            (if b then s ← getitem item k; mret (py_eq s stock) else mret false)
            = Raise e → is_ValueError e = false) as Htest.
  { intros k [] e0; [|discriminate].
    destruct (getitem item k) eqn:Hg; cbn; [discriminate|].
    intros [= <-]. by eapply getitem_raises. }
  destruct (if has then _ else _) as [[]|e1] eqn:H1;
    cbn [mbind result_bind mret result_ret].
  - apply getitem_raises.
  - destruct (contains "disSymbol" item) as [has'|e2] eqn:Hc';
      cbn [mbind result_bind mret result_ret];
      [|intros [= <-]; by eapply contains_raises].
    destruct (if has' then _ else _) as [[]|e2] eqn:H2;
      cbn [mbind result_bind mret result_ret].
    + apply getitem_raises.
    + exact IH.
    + intros [= <-]. by eapply Htest.
  - intros [= <-]. by eapply Htest.
Qed.

Section WithLib.
Context `{!PyLib}.

(** [get_ticker] on a symbol, the vendor answering with a non-empty list of
    JSON objects under ['data']: when an item names the symbol, the
    [tickerId] of the first such item is returned, provided it is not equal
    to 0; when none does, the [tickerId] of the first item of the list. *)
Theorem get_ticker_resolution (stock : string) (w : World) (resp : Response)
    (rest : list Response) (d : list (string * value))
    (first : list (string * value)) (others : list (list (string * value))) :
  stock ≠ "" →
  inbox w = resp :: rest →
  body resp = Some (VDict d) →
  dict_get "data" d = Some (VList (map VDict (first :: others))) →
  let run := Webull.get_ticker (VStr stock) w in
  match find (names stock) (first :: others) with
  | Some item =>
      ∀ id, dict_get "tickerId" item = Some id → py_eq id (VInt 0) = false →
            run.1 = Ok id
  | None => run.1 = getitem (VDict first) "tickerId"
  end.
Proof.
  intros Hs Hin Hbody Hdata run. subst run.
  pose proof (get_ticker_loop_find stock (first :: others) (VInt 0)) as Hloop.
  assert (truthy (VStr stock) && is_str (VStr stock) = true) as Hstock.
  { cbn. rewrite andb_true_r. apply negb_true_iff. by apply String.eqb_neq. }
  destruct (Webull.get_ticker (VStr stock) w) as [r w'] eqn:E. cbn [fst].
  revert E. unfold Webull.get_ticker. rewrite Hstock. intros E.
  assert (dict_get_method (VDict d) "data"
          = Ok (VList (map VDict (first :: others)))) as Hget.
  { cbn [dict_get_method]. by rewrite Hdata. }
  assert (getitem (VDict d) "data"
          = Ok (VList (map VDict (first :: others)))) as Hitem.
  { cbn [getitem]. by rewrite Hdata. }
  destruct (find (names stock) (first :: others)) as [item|].
  - intros id Hid Hne. cbn [getitem] in Hloop. rewrite Hid in Hloop.
    repeat first
      [ rewrite Hin in E | rewrite Hbody in E | rewrite Hget in E
      | rewrite Hitem in E | rewrite Hloop in E | rewrite Hne in E
      | progress cbn [mbind result_bind mret result_ret Webull.py_iter] in E
      | exec_step E ].
    by injection E as <- _.
  - repeat first
      [ rewrite Hin in E | rewrite Hbody in E | rewrite Hget in E
      | rewrite Hitem in E | rewrite Hloop in E
      | progress cbn [mbind result_bind mret result_ret Webull.py_iter] in E
      | exec_step E ].
    injection E as <- _. reflexivity.
Qed.

(** [get_ticker], the vendor answering: the call raises a [ValueError]
    exactly when [stock] is empty or not a string, or the answer is not JSON
    (the decoding error is a [ValueError]), or the answer has no ['data']. *)
Theorem get_ticker_ValueError (stock : value) (w : World) (resp : Response)
    (rest : list Response) :
  inbox w = resp :: rest →
  let run := Webull.get_ticker stock w in
  (∃ e, run.1 = Raise e ∧ is_ValueError e = true)
  ↔ truthy stock && is_str stock = false
    ∨ body resp = None
    ∨ ∃ res, body resp = Some res ∧ no_data res = true.
Proof.
  intros Hin run. subst run.
  destruct (Webull.get_ticker stock w) as [r w'] eqn:E. cbn [fst].
  revert E. unfold Webull.get_ticker.
  destruct (truthy stock && is_str stock) eqn:Hstock.
  - intros E.
    repeat first
      [ rewrite Hin in E
      | progress cbn [mbind result_bind mret result_ret] in E
      | exec_step E ].
    all: injection E as <- _.
    all: try match goal with
         | Hd : dict_get_method _ _ = Ok _ |- _ =>
             apply no_data_get in Hd;
             match goal with Ht : truthy _ = _ |- _ => rewrite Ht in Hd end;
             cbn [negb] in Hd
         | Hd : dict_get_method _ _ = Raise _ |- _ =>
             apply no_data_raises in Hd as [Hd ?]
         end.
    all: split;
      [ intros (e' & Hr & He')
      | intros [?|[?|(res & [= <-] & Hres)]]; try discriminate; try congruence ].
    all: try discriminate Hr.
    all: try (injection Hr as <-).
    all: try (eexists; split; reflexivity).
    all: try (right; left; reflexivity).
    all: try (right; right; eexists; split; [reflexivity|assumption]).
    all: exfalso.
    all: try (destruct (getindex _ 0) eqn:Hg; cbn in Hr;
              [|injection Hr as <-; apply getindex_raises in Hg]).
    all: repeat match goal with
         | Hh : getitem _ _ = Raise _ |- _ => apply getitem_raises in Hh
         | Hh : Webull.py_iter _ = Raise _ |- _ => apply py_iter_raises in Hh
         | Hh : Webull.get_ticker_loop _ _ _ = Raise _ |- _ =>
             apply get_ticker_loop_raises in Hh
         end.
    all: congruence.
  - intros E.
    repeat first
      [ progress cbn [mbind result_bind mret result_ret] in E
      | exec_step E ].
    injection E as <- _. split; [by left|]. intros _. by eexists.
Qed.

End WithLib.
End Ticker.

(** * The properties on concrete calls *)

Module Examples.
Import Py Env Spec Sample.

#[local] Existing Instance lib.

(** C1 as stated fails: a client that holds a trade token sends the OTOCO
    modification without it. *)
Lemma modify_order_otoco_sends_no_trade_token :
  let w := trading "TRADE-TOKEN"
             [tickers [("AAPL", 913256135)]; tickers [("AAPL", 913256135)];
              tickers [("AAPL", 913256135)]; ok_json (VDict [])] in
  let run := Webull.modify_order_otoco (H := lib) (VInt 1) (VInt 2) (VInt 3)
               (VStr "AAPL") (VInt 150) (VInt 140) (VInt 160) (VStr "DAY")
               (VInt 10) w in
  _trade_token (self w) = VStr "TRADE-TOKEN" ∧
  run.1 = Ok (VDict []) ∧
  map req_method (sent run.2) = [GET; GET; GET; POST] ∧
  map (λ r, req_headers r ≫= lookup "t_token") (sent run.2)
  = [None; None; None; None].
Proof. vm_compute. by split_and!. Qed.

(** C1 on a run of [place_order]: its one request is a POST and carries
    the client's trade token. *)
Lemma order_requests_and_the_trade_token_witness :
  let w := trading "TRADE-TOKEN" [ok_json (VDict [("success", VBool true)])] in
  let run := Webull.place_order (H := lib) VNone (VInt 913256135) (VInt 150)
               (VStr "BUY") (VStr "LMT") (VStr "GTC") (VInt 10) (VBool true)
               VNone (VInt 0) (VStr "DOLLAR") w in
  Forall (λ r, req_method r = POST → carries (VStr "TRADE-TOKEN") r)
         (new_requests w run.2) ∧
  map req_method (new_requests w run.2) = [POST].
Proof.
  split.
  - exact (proj1 (Tokens.order_requests_and_the_trade_token (H := lib))
             VNone (VInt 913256135) (VInt 150) (VStr "BUY") (VStr "LMT")
             (VStr "GTC") (VInt 10) (VBool true) VNone (VInt 0) (VStr "DOLLAR")
             (trading "TRADE-TOKEN" [ok_json (VDict [("success", VBool true)])])).
  - vm_compute. reflexivity.
Defined.

(** C9 on a run: the token of the first build is still sent after the
    client's trade token has been replaced. *)
Lemma build_req_headers_keeps_t_token_witness :
  let w := trading "OLD" [] in
  let first := Webull.build_req_headers (H := lib) true false true w in
  let later := Webull.build_req_headers (H := lib) false false true
                 (run_all [NewTradeToken (VStr "NEW"); Build false true true]
                    first.2) in
  deref (_headers (self w)) later.2 !! "t_token" = Some (VStr "OLD").
Proof.
  intros w first later.
  exact (proj2 (proj2 (proj2 (proj2
           (Headers.build_req_headers_keeps_t_token (H := lib) w false true
              [NewTradeToken (VStr "NEW"); Build false true true]
              false false true)))) eq_refl eq_refl).
Defined.

(** C10 on a run: an order id, no order, every other argument at its
    default. *)
Lemma modify_order_needs_the_order_witness :
  let w := trading "TRADE-TOKEN" [ok_json (VDict [])] in
  let run := Webull.modify_order (H := lib) VNone (VInt 512) VNone VNone
               (VInt 0) VNone VNone VNone (VInt 0) VNone w in
  run.1 = Raise TypeError ∧ sent run.2 = [].
Proof.
  intros w run.
  destruct (ModifyOrder.modify_order_needs_the_order (H := lib) (VInt 512)
              VNone VNone (VInt 0) VNone VNone VNone (VInt 0) VNone w
              eq_refl eq_refl) as (_ & Hs & _ & Ht).
  split; [exact (Ht eq_refl)|exact Hs].
Defined.



(** C7 on a run: a stop-limit order placed by symbol. *)
Lemma place_order_payload_by_type_witness :
  let w := trading "TRADE-TOKEN" [tickers [("AAPL", 913256135)];
                                  ok_json (VDict [("success", VBool true)])] in
  let run := Webull.place_order (H := lib) (VStr "AAPL") VNone (VInt 150)
               (VStr "SELL") (VStr "STP LMT") (VStr "GTC") (VInt 10)
               (VBool true) (VInt 140) (VInt 0) (VStr "DOLLAR") w in
  self run.2 = self w ∧
  ∃ data, map req_json (new_requests (Webull.get_ticker (H := lib) (VStr "AAPL") w).2 run.2)
          = [Some (VDict data)] ∧
          dict_get "tickerId" data = Some (VInt 913256135) ∧
          has_keys ["lmtPrice"; "auxPrice"] [] data.
Proof.
  intros w run.
  pose proof (PlaceOrder.place_order_payload_by_type (H := lib) (VStr "AAPL") VNone
                (VInt 150) (VStr "SELL") (VStr "STP LMT")
                (VStr "GTC") (VInt 10) (VBool true) (VInt 140) (VInt 0)
                (VStr "DOLLAR") w 10 eq_refl) as (_ & _ & Hs & Hp).
  split; [exact Hs|].
  cbv zeta in Hp.
  destruct Hp as ((request & Hn & _ & _ & Hj) & _ & _ & Hk & _).
  eexists. split; [|split; [|exact (Hk eq_refl)]].
  - fold run in Hn.
    change (Webull.resolve_tId (H := lib) (VStr "AAPL") VNone w)
      with (Webull.get_ticker (H := lib) (VStr "AAPL") w) in Hn.
    rewrite Hn. cbn [map]. by rewrite Hj.
  - reflexivity.
Defined.

(** C3 on a run: the call of the docstring with whole numbers,
    [run_screener(price_lte=1, price_gte=5)]. *)
Lemma run_screener_bounds_swapped_witness :
  (rules ← getitem
     (VDict (Webull.run_screener_jdict (H := lib) VNone (VInt 1) (VInt 5) VNone
               VNone VNone VNone VNone VNone)) "rules";
   getitem rules "wlas.screener.rule.price")
  = Ok (VStr "gte=1&lte=5").
Proof.
  exact (proj1 (Screener.run_screener_bounds_swapped (H := lib) VNone (VInt 1)
                  (VInt 5) VNone VNone VNone VNone VNone VNone (fresh []))
           eq_refl eq_refl).
Defined.


(** C4 on the input it fails on: the exact match ['ABC'] has ticker id 0,
    and the id returned is that of the first item of the list. *)
Lemma get_ticker_zero_id_falls_back :
  (Webull.get_ticker (H := lib) (VStr "ABC")
     (fresh [tickers [("ABCD", 913256135); ("ABC", 0)]])).1
  = Ok (VInt 913256135).
Proof. vm_compute. reflexivity. Qed.

(** The resolution on a run: the second item names the symbol. *)
Lemma get_ticker_resolution_witness :
  (Webull.get_ticker (H := lib) (VStr "AAPL")
     (fresh [tickers [("AAPLW", 950052430); ("AAPL", 913256135)]])).1
  = Ok (VInt 913256135).
Proof.
  exact (Ticker.get_ticker_resolution (H := lib) "AAPL"
           (fresh [tickers [("AAPLW", 950052430); ("AAPL", 913256135)]])
           (tickers [("AAPLW", 950052430); ("AAPL", 913256135)]) []
           [("data", VList (map VDict
               [[("symbol", VStr "AAPLW"); ("tickerId", VInt 950052430)];
                [("symbol", VStr "AAPL"); ("tickerId", VInt 913256135)]]))]
           [("symbol", VStr "AAPLW"); ("tickerId", VInt 950052430)]
           [[("symbol", VStr "AAPL"); ("tickerId", VInt 913256135)]]
           ltac:(discriminate) eq_refl eq_refl eq_refl
           (VInt 913256135) eq_refl eq_refl).
Defined.

(** The error on a run: an answer with an empty ['data']. *)
Lemma get_ticker_ValueError_witness :
  ∃ e, (Webull.get_ticker (H := lib) (VStr "AAPL")
          (fresh [ok_json (VDict [("data", VList [])])])).1 = Raise e
       ∧ is_ValueError e = true.
Proof.
  apply (proj2 (Ticker.get_ticker_ValueError (H := lib) (VStr "AAPL")
                  (fresh [ok_json (VDict [("data", VList [])])])
                  (ok_json (VDict [("data", VList [])])) [] eq_refl)).
  right. right. eexists. split; reflexivity.
Defined.

End Examples.

(** * The calls a client takes *)

Module Api.
Import Py Env.

(** A method call with its arguments, [self] apart.  [Paper_] marks the
    methods of [PaperWebull]. *)
Inductive call : Type :=
| Build_req_headers (include_trade_token include_time include_zone_var : bool)
| Credential_login (credential_path refresh : value)
| Save_credential (path credential_data : value)
| Login (username password device_name mfa question_id question_answer
         credential_path save_token token_path : value)
| Get_mfa (username : value)
| Check_mfa (username mfa : value)
| Get_security (username : value)
| Next_security (username : value)
| Check_security (username question_id question_answer : value)
| Logout
| Api_login (access_token refresh_token token_expire uuid mfa : value)
| Refresh_login (save_token token_path : value)
| Get_detail
| Get_account_id (id : value)
| Get_account
| Get_positions
| Get_portfolio
| Get_activities (index size : value)
| Get_current_orders
| Get_history_orders (status count : value)
| Get_trade_token (password : value)
| Get_ticker (stock : value)
| Get_quote (stock tId : value)
| Place_order (stock tId price action orderType enforce quant
               outsideRegularTradingHour stpPrice trial_value trial_type : value)
| Modify_order (order order_id stock tId price action orderType enforce quant
                outsideRegularTradingHour : value)
| Cancel_order (order_id : value)
| Place_order_otoco (stock price stop_loss_price limit_profit_price
                     time_in_force quant : value)
| Modify_order_otoco (order_id1 order_id2 order_id3 stock price stop_loss_price
                      limit_profit_price time_in_force quant : value)
| Cancel_order_otoco (combo_id : value)
| Place_order_crypto (stock tId price action orderType enforce entrust_type
                      quant outsideRegularTradingHour : value)
| Get_option_quote (stock tId optionId : value)
| Get_options_expiration_dates (stock count : value)
| Get_options (stock count includeWeekly direction expireDate queryAll : value)
| Get_options_by_strike_and_expire_date (stock expireDate strike direction : value)
| Place_order_option (optionId lmtPrice stpPrice action orderType enforce
                      quant : value)
| Modify_order_option (order lmtPrice stpPrice enforce quant : value)
| Cancel_all_orders
| Get_tradable (stock : value)
| Alerts_list
| Active_gainer_loser (direction rank_type count : value)
| Run_screener (region price_lte price_gte pct_chg_gte pct_chg_lte sort
                sort_dir vol_lte vol_gte : value)
| Get_analysis (stock : value)
| Get_capital_flow (stock tId show_hist : value)
| Get_etf_holding (stock tId has_num count : value)
| Get_institutional_holding (stock tId : value)
| Get_short_interest (stock tId : value)
| Get_financials (stock : value)
| Get_news (stock tId Id items : value)
| Get_bars (stock tId interval count extendTrading timeStamp : value)
| Get_bars_crypto (stock tId interval count extendTrading timeStamp : value)
| Get_options_bars (derivativeId interval count direction timeStamp : value)
| Get_dividends
| Get_five_min_ranking (extendTrading : value)
| Get_watchlists (as_list_symbols : value)
| Is_logged_in
| Paper_get_account
| Paper_get_account_id
| Paper_get_current_orders
| Paper_get_history_orders (status count : value)
| Paper_get_positions
| Paper_place_order (stock tId price action orderType enforce quant
                     outsideRegularTradingHour : value)
| Paper_modify_order (order price action orderType enforce quant
                      outsideRegularTradingHour : value)
| Paper_cancel_order (order_id : value)
| Paper_get_social_posts (topic num : value)
| Paper_get_social_home (topic num : value).

(** The call run for what it does to the world, its value dropped *)
Definition void {A : Type} (m : M A) : M unit := m ≫= λ _, mret tt.

Section WithOS.
Context `{!PyLib} `{!PyOS}.

Definition perform (c : call) : M unit :=
  match c with
  | Build_req_headers a b d => void (Webull.build_req_headers a b d)
  | Credential_login p r => void (Webull.credential_login p r)
  | Save_credential p d => void (Webull.save_credential p d)
  | Login u p d m qi qa cp st tp => void (Webull.login u p d m qi qa cp st tp)
  | Get_mfa u => void (Webull.get_mfa u)
  | Check_mfa u m => void (Webull.check_mfa u m)
  | Get_security u => void (Webull.get_security u)
  | Next_security u => void (Webull.next_security u)
  | Check_security u qi qa => void (Webull.check_security u qi qa)
  | Logout => void Webull.logout
  | Api_login a r e u m => void (Webull.api_login a r e u m)
  | Refresh_login st tp => void (Webull.refresh_login st tp)
  | Get_detail => void Webull.get_detail
  | Get_account_id i => void (Webull.get_account_id i)
  | Get_account => void Webull.get_account
  | Get_positions => void Webull.get_positions
  | Get_portfolio => void Webull.get_portfolio
  | Get_activities i s => void (Webull.get_activities i s)
  | Get_current_orders => void Webull.get_current_orders
  | Get_history_orders s n => void (Webull.get_history_orders s n)
  | Get_trade_token p => void (Webull.get_trade_token p)
  | Get_ticker s => void (Webull.get_ticker s)
  | Get_quote s t => void (Webull.get_quote s t)
  | Place_order s t p a o e q h sp tv tt' =>
      void (Webull.place_order s t p a o e q h sp tv tt')
  | Modify_order o i s t p a ot e q h =>
      void (Webull.modify_order o i s t p a ot e q h)
  | Cancel_order i => void (Webull.cancel_order i)
  | Place_order_otoco s p sl lp tif q =>
      void (Webull.place_order_otoco s p sl lp tif q)
  | Modify_order_otoco i1 i2 i3 s p sl lp tif q =>
      void (Webull.modify_order_otoco i1 i2 i3 s p sl lp tif q)
  | Cancel_order_otoco i => void (Webull.cancel_order_otoco i)
  | Place_order_crypto s t p a o e et q h =>
      void (Webull.place_order_crypto s t p a o e et q h)
  | Get_option_quote s t o => void (Webull.get_option_quote s t o)
  | Get_options_expiration_dates s n =>
      void (Webull.get_options_expiration_dates s n)
  | Get_options s n iw d e qa => void (Webull.get_options s n iw d e qa)
  | Get_options_by_strike_and_expire_date s e k d =>
      void (Webull.get_options_by_strike_and_expire_date s e k d)
  | Place_order_option o l s a ot e q =>
      void (Webull.place_order_option o l s a ot e q)
  | Modify_order_option o l s e q => void (Webull.modify_order_option o l s e q)
  | Cancel_all_orders => void Webull.cancel_all_orders
  | Get_tradable s => void (Webull.get_tradable s)
  | Alerts_list => void Webull.alerts_list
  | Active_gainer_loser d r n => void (Webull.active_gainer_loser d r n)
  | Run_screener r pl pg cg cl s sd vl vg =>
      void (Webull.run_screener r pl pg cg cl s sd vl vg)
  | Get_analysis s => void (Webull.get_analysis s)
  | Get_capital_flow s t h => void (Webull.get_capital_flow s t h)
  | Get_etf_holding s t h n => void (Webull.get_etf_holding s t h n)
  | Get_institutional_holding s t => void (Webull.get_institutional_holding s t)
  | Get_short_interest s t => void (Webull.get_short_interest s t)
  | Get_financials s => void (Webull.get_financials s)
  | Get_news s t i n => void (Webull.get_news s t i n)
  | Get_bars s t i n e ts => void (Webull.get_bars s t i n e ts)
  | Get_bars_crypto s t i n e ts => void (Webull.get_bars_crypto s t i n e ts)
  | Get_options_bars d i n dir ts => void (Webull.get_options_bars d i n dir ts)
  | Get_dividends => void Webull.get_dividends
  | Get_five_min_ranking e => void (Webull.get_five_min_ranking e)
  | Get_watchlists a => void (Webull.get_watchlists a)
  | Is_logged_in => void Webull.is_logged_in
  | Paper_get_account => void PaperWebull.get_account
  | Paper_get_account_id => void PaperWebull.get_account_id
  | Paper_get_current_orders => void PaperWebull.get_current_orders
  | Paper_get_history_orders s n => void (PaperWebull.get_history_orders s n)
  | Paper_get_positions => void PaperWebull.get_positions
  | Paper_place_order s t p a o e q h =>
      void (PaperWebull.place_order s t p a o e q h)
  | Paper_modify_order o p a ot e q h =>
      void (PaperWebull.modify_order o p a ot e q h)
  | Paper_cancel_order i => void (PaperWebull.cancel_order i)
  | Paper_get_social_posts t n => void (PaperWebull.get_social_posts t n)
  | Paper_get_social_home t n => void (PaperWebull.get_social_home t n)
  end.

(** The calls that assign an attribute of the client: the logins, the
    refresh, the account and trade-token lookups. *)
Definition assigns (c : call) : bool :=
  match c with
  | Credential_login _ _ | Save_credential _ _ | Login _ _ _ _ _ _ _ _ _
  | Api_login _ _ _ _ _ | Refresh_login _ _ | Get_account_id _
  | Get_trade_token _ | Is_logged_in | Paper_get_account_id => true
  | _ => false
  end.

End WithOS.
End Api.

(** * What every call leaves alone *)

Module Steps.
Import Py Env Spec Logic Run Api.

(** The attributes no method assigns after [__init__] *)
Definition fixed (c : Client) : loc * value * value * value :=
  (_headers c, _did c, _region_code c, timeout c).

(** The client's header dictionary is the object at [l]. *)
Definition own_headers (l : loc) (w : World) : Prop := _headers (self w) = l.

(** What a call may do: the fixed attributes stay, no dictionary but the
    client's own changes, that one loses no key, and requests are added to
    those sent, each with the client's timeout. *)
Definition step_frame (l : loc) (w w' : World) : Prop :=
  fixed (self w') = fixed (self w) ∧
  (∀ l', l' ≠ l → heap w' !! l' = heap w !! l') ∧
  dom (deref l w) ⊆ dom (deref l w') ∧
  ∃ new, sent w' = (sent w ++ new)%list ∧
         Forall (λ r, req_timeout r = timeout (self w)) new.

#[export] Instance step_frame_Frame (l : loc) :
  Frame (own_headers l) (step_frame l).
Proof.
  split.
  - intros w _. split_and!; try done. exists []. by rewrite app_nil_r.
  - intros w1 w2 w3 (F1 & H1 & D1 & n1 & E1 & T1) (F2 & H2 & D2 & n2 & E2 & T2).
    split_and!.
    + congruence.
    + intros l' Hl. by rewrite H2, H1.
    + set_solver.
    + exists (n1 ++ n2)%list. rewrite E2, E1, app_assoc. split; [done|].
      apply Forall_app. split; [done|].
      eapply Forall_impl; [exact T2|]. intros r ->.
      unfold fixed in F1. congruence.
  - intros w w' Hw (F & _). unfold own_headers, fixed in *. congruence.
  - intros w w' _ Hs Hh Hn. split_and!.
    + by rewrite Hs.
    + intros. by rewrite Hh.
    + unfold deref. by rewrite Hh.
    + exists []. by rewrite app_nil_r.
Qed.

Section WithLib.
Context `{!PyLib}.

Lemma built_headers_dom (a b c : bool) (w : World) :
  dom (deref (_headers (self w)) w) ⊆ dom (built_headers a b c w).
Proof.
  unfold built_headers. destruct a, b, c; cbv zeta;
    rewrite ?dom_insert_L; set_solver.
Qed.

Lemma build_step (l : loc) (a b c : bool) :
  hoare (own_headers l) (step_frame l) (λ h, h = l)
    (Webull.build_req_headers a b c).
Proof.
  intros w Hw. rewrite build_req_headers_run. cbn [fst snd]. split.
  - unfold own_headers in Hw. subst l. split_and!.
    + by rewrite self_built.
    + intros l' Hl. unfold built. cbn [heap with_heap].
      rewrite lookup_insert_ne by done. by destruct b.
    + rewrite deref_built. apply built_headers_dom.
    + exists []. by rewrite sent_built, app_nil_r.
  - by intros h [= <-].
Qed.

Lemma modify_self_step (l : loc) (f : Client → Client) :
  (∀ c, fixed (f c) = fixed c) →
  hoare (own_headers l) (step_frame l) (λ _, True) (modify_self f).
Proof.
  intros Hf w Hw. split; [|done]. unfold modify_self, step_frame, deref.
  cbn [snd self heap sent with_self]. split_and!; [apply Hf|done|done|].
  exists []. by rewrite app_nil_r.
Qed.

Lemma send_step (l : loc) (mk : World → Request) :
  (∀ w, req_timeout (mk w) = timeout (self w)) →
  hoare (own_headers l) (step_frame l) (λ _, True) (λ w, send (mk w) w).
Proof.
  intros Hmk w Hw. split; [|done]. unfold send, step_frame, deref.
  destruct (inbox w); cbn [snd self heap sent with_net];
    (split_and!; [done|done|done|]);
    exists [mk w]; (split; [done|]); by repeat constructor.
Qed.

Lemma requests_get_step (l : loc) (url : string) (params : option value)
    (headers : option loc) :
  hoare (own_headers l) (step_frame l) (λ _, True)
    (requests_get url params headers).
Proof.
  apply (send_step l (λ w, mkRequest GET url None params
                             (snapshot headers w) (timeout (self w)))).
  done.
Qed.

Lemma requests_post_step (l : loc) (url : string) (data : option value)
    (headers : option loc) :
  hoare (own_headers l) (step_frame l) (λ _, True)
    (requests_post url data headers).
Proof.
  apply (send_step l (λ w, mkRequest POST url data None
                             (snapshot headers w) (timeout (self w)))).
  done.
Qed.

End WithLib.

Section Rules.
Context {P : World → Prop} {R : World → World → Prop} `{!Frame P R}.

Lemma hoare_try_KeyError {A : Type} (Q : A → Prop) (body handler : M A) :
  hoare P R Q body → hoare P R Q handler →
  hoare P R Q (try_KeyError body handler).
Proof.
  intros Hb Hh w Hw. unfold try_KeyError.
  destruct (Hb w Hw) as [HR Hv].
  destruct (body w) as [[a|e] w'] eqn:E; simpl in *; [done|].
  destruct (is_KeyError e); simpl; [|split; [done|intros ? [=]]].
  destruct (Hh w') as [HR' Hv']; [by eapply frame_stable|].
  split; [by eapply frame_trans|done].
Qed.

Lemma hoare_json_load `{!PyOS} (p : string) :
  hoare P R (λ _ : option value, True) (json_load p).
Proof. by apply hoare_quiet. Qed.

End Rules.

(** Every method body, opened down to the steps of the monad *)
Ltac open_methods :=
  unfold perform, void,
    Webull.credential_login, Webull.save_credential, Webull.login,
    Webull.get_mfa, Webull.check_mfa, Webull.get_security,
    Webull.next_security, Webull.check_security, Webull.logout,
    Webull.api_login, Webull.refresh_login, Webull._save_token,
    Webull.get_detail, Webull.get_account_id, Webull.get_portfolio,
    Webull.get_activities, Webull.get_positions, Webull.get_current_orders,
    Webull.get_history_orders, Webull.get_trade_token, Webull.get_quote,
    Webull.place_order, Webull.modify_order, Webull.cancel_all_orders,
    Webull.cancel_order, Webull.place_order_otoco, Webull.modify_order_otoco,
    Webull.cancel_order_otoco, Webull.place_order_crypto,
    Webull.get_option_quote, Webull.get_options_by_strike_and_expire_date,
    Webull.get_options, Webull.get_options_expiration_dates,
    Webull.place_order_option, Webull.modify_order_option,
    Webull.get_tradable, Webull.alerts_list, Webull.active_gainer_loser,
    Webull.run_screener, Webull.get_analysis, Webull.get_capital_flow,
    Webull.get_etf_holding, Webull.get_institutional_holding,
    Webull.get_short_interest, Webull.get_financials, Webull.get_news,
    Webull.get_bars, Webull.get_bars_crypto, Webull.get_options_bars,
    Webull.get_dividends, Webull.get_five_min_ranking, Webull.get_watchlists,
    Webull.is_logged_in, Webull.get_account, Webull.otoco_legs,
    Webull.otoco_leg, Webull.resolve_tId, Webull.get_ticker,
    Webull.get_account_type, Webull.py_or,
    PaperWebull.get_account_id, PaperWebull.get_current_orders,
    PaperWebull.get_history_orders, PaperWebull.get_positions,
    PaperWebull.place_order, PaperWebull.modify_order,
    PaperWebull.cancel_order, PaperWebull.get_social_posts,
    PaperWebull.get_social_home, PaperWebull.get_account.

Ltac step_hook :=
  idtac;
  lazymatch goal with
  | |- hoare _ _ _ (Webull.build_req_headers _ _ _ ≫= _) =>
      eapply hoare_bind; [apply build_step|intros ? ->]
  | |- hoare _ _ _ (Webull.build_req_headers _ _ _) =>
      eapply hoare_weaken; [apply build_step|done]
  | |- hoare _ _ _ (requests_get _ _ _) => apply requests_get_step
  | |- hoare _ _ _ (requests_post _ _ _) => apply requests_post_step
  | |- hoare _ _ _ (modify_self _) => apply modify_self_step; by intros []
  | |- hoare _ _ _ (try_KeyError _ _) => apply hoare_try_KeyError
  | |- hoare _ _ _ (json_load _) => apply hoare_json_load
  | |- hoare _ _ _ (match ?x with _ => _ end) => destruct x
  end.

Section WithOS.
Context `{!PyLib} `{!PyOS}.

Lemma perform_steps (c : call) (l : loc) :
  hoare (own_headers l) (step_frame l) (λ _, True) (perform c).
Proof.
  destruct c; repeat progress open_methods; hoare_run step_hook.
Qed.

End WithOS.
End Steps.

(** * The device id *)

Module Device.
Import Py Env Spec Logic Run.

(** [_get_did] on a file name, case by case *)
Lemma get_did_run (path : value) (f : string) (w : World) :
  Webull.did_filename path = Ok f →
  Webull._get_did path w
  = match did_bin w f with
    | Pickled saved => (Ok saved, w)
    | Unreadable e => (Raise e, w)
    | NoFile (Some e) => (Raise e, with_uuid_n (S (uuid_n w)) w)
    | NoFile None =>
        let did := VStr (uuid_hex (uuid_src w (uuid_n w))) in
        (Ok did,
         with_did_bin (λ g, if String.eqb g f then Pickled did else did_bin w g)
           (with_uuid_n (S (uuid_n w)) w))
    end.
Proof.
  intros Ef.
  unfold Webull._get_did, mbind, M_bind, lift, load_did_bin, uuid4,
    dump_did_bin, mret, M_ret.
  rewrite Ef.
  destruct (did_bin w f) as [[e|]|saved|e] eqn:E; cbn; rewrite ?E; reflexivity.
Qed.

(** [_get_did(path)] goes by the file did.bin in [path] (in the working
    directory when [path] is empty; a [path] that is not text raises
    [TypeError]).  A file that unpickles gives the saved id and nothing is
    touched; one that does not raises.  With no file there, a new UUID is
    drawn: if the file can be created, its hex is saved there and returned,
    no other file is touched, and asking again gives the same id and changes
    nothing; if not, the call raises and nothing is saved. *)
Theorem get_did_persists (path : value) (w : World) :
  let run := Webull._get_did path w in
  match Webull.did_filename path with
  | Raise e => run = (Raise e, w)
  | Ok f =>
      match did_bin w f with
      | Pickled saved => run = (Ok saved, w)
      | Unreadable e => run = (Raise e, w)
      | NoFile creating =>
          let did := VStr (uuid_hex (uuid_src w (uuid_n w))) in
          uuid_n run.2 = S (uuid_n w) ∧
          match creating with
          | Some e => run.1 = Raise e ∧ did_bin run.2 = did_bin w
          | None =>
              run.1 = Ok did ∧ did_bin run.2 f = Pickled did ∧
              (∀ g, g ≠ f → did_bin run.2 g = did_bin w g) ∧
              Webull._get_did path run.2 = (Ok did, run.2)
          end
      end
  end.
Proof.
  cbv zeta.
  destruct (Webull.did_filename path) as [f|e] eqn:Ef.
  2:{ unfold Webull._get_did. by rewrite bind_run, lift_run, Ef. }
  rewrite (get_did_run path f w Ef).
  destruct (did_bin w f) as [[e|]|saved|e] eqn:E; try done.
  cbn [fst snd uuid_n with_did_bin with_uuid_n did_bin].
  rewrite String.eqb_refl. split_and!; try done.
  - intros g Hg. apply String.eqb_neq in Hg. by rewrite Hg.
  - rewrite (get_did_run path f _ Ef).
    cbn [did_bin with_did_bin with_uuid_n]. by rewrite String.eqb_refl.
Qed.

(** A world in which [Webull()] can be made: did.bin in the working
    directory unpickles, or is not there and can be created. *)
Definition did_usable (w : World) : bool :=
  match did_bin w "did.bin" with
  | Pickled _ | NoFile None => true
  | _ => false
  end.

(** The device id [Webull()] takes: the saved one, else a new one. *)
Definition did_taken (w : World) : value :=
  match did_bin w "did.bin" with
  | Pickled saved => saved
  | _ => VStr (uuid_hex (uuid_src w (uuid_n w)))
  end.

(** [__init__] returns exactly where did.bin is usable. *)
Lemma init_returns (w : World) :
  (Webull.__init__ w).1 = Ok tt ↔ did_usable w = true.
Proof.
  unfold Webull.__init__, Webull._get_did, did_usable.
  unfold mbind, M_bind, lift, load_did_bin, alloc, modify_self, uuid4,
    dump_did_bin, mret, M_ret. cbn.
  destruct (did_bin w "did.bin") as [[e|]|saved|e] eqn:E; cbn; rewrite ?E; cbn.
  all: split; done.
Qed.

(** What [__init__] leaves when it returns: a client with a new header
    dictionary of its own, the device id in it and in did.bin, empty session
    attributes and the fixed region, zone and timeout; no request is made and
    no other dictionary is touched. *)
Lemma init_client (w : World) :
  did_usable w = true →
  let run := Webull.__init__ w in
  let c := self run.2 in
  run.1 = Ok tt ∧
  _did c = did_taken w ∧
  did_bin run.2 "did.bin" = Pickled (_did c) ∧
  deref (_headers c) run.2 = Webull.default_headers (_did c) ∧
  heap w !! _headers c = None ∧
  (∀ l, l ≠ _headers c → heap run.2 !! l = heap w !! l) ∧
  sent run.2 = sent w ∧
  (_account_id c, _trade_token c, _access_token c, _refresh_token c,
   _token_expire c, _uuid c)
  = (VStr "", VStr "", VStr "", VStr "", VStr "", VStr "") ∧
  (_region_code c, zone_var c, timeout c, _credential_data c)
  = (VInt 6, VStr "dc_core_r001", VInt 15, None).
Proof.
  unfold did_usable, did_taken, Webull.__init__, Webull._get_did.
  unfold mbind, M_bind, lift, load_did_bin, alloc, modify_self, uuid4,
    dump_did_bin, mret, M_ret. cbn.
  destruct (did_bin w "did.bin") as [[e|]|saved|e] eqn:E; try done; intros _.
  all: cbn; rewrite ?E; cbn.
  all: unfold deref; cbn; rewrite lookup_insert_eq; cbn.
  all: split_and!; try reflexivity.
  all: try (apply not_elem_of_dom, is_fresh).
  all: try exact E.
  all: intros l Hl; by rewrite lookup_insert_ne.
Qed.

(** Two clients made one after the other have the same device id, since
    the second reads the did.bin the first left, and header dictionaries of
    their own: making the second leaves the headers of the first as they
    were. *)
Theorem clients_share_the_device_id (w : World) :
  (Webull.__init__ w).1 = Ok tt →
  let w1 := (Webull.__init__ w).2 in
  let w2 := (Webull.__init__ w1).2 in
  (Webull.__init__ w1).1 = Ok tt ∧
  _did (self w2) = _did (self w1) ∧
  _headers (self w2) ≠ _headers (self w1) ∧
  deref (_headers (self w1)) w2 = deref (_headers (self w1)) w1.
Proof.
  intros Hu%init_returns w1 w2.
  destruct (init_client w Hu) as (_ & _ & Hd1 & Hh1 & _).
  fold w1 in Hd1, Hh1.
  assert (did_usable w1 = true) as Hu1.
  { unfold did_usable. by rewrite Hd1. }
  destruct (init_client w1 Hu1) as (Hr2 & Hs2 & Hd2 & Hh2 & Hnew & Hold & _).
  fold w2 in Hs2, Hd2, Hh2, Hnew, Hold.
  assert (_headers (self w2) ≠ _headers (self w1)) as Hne.
  { intros E. rewrite E in Hnew. unfold deref in Hh1.
    rewrite Hnew in Hh1. cbn in Hh1.
    apply (f_equal (λ m : gmap string value, m !! "did")) in Hh1.
    rewrite lookup_empty in Hh1. discriminate Hh1. }
  split_and!; [done| |done|].
  - rewrite Hs2. unfold did_taken. by rewrite Hd1.
  - unfold deref. by rewrite Hold.
Qed.
End Device.

(** * Invariants of a client over any calls *)

Module Invariants.
Import Py Env Spec Logic Run Api Steps Tokens PlaceOrder.

Section WithOS.
Context `{!PyLib} `{!PyOS}.

(** Calls made one after the other, whatever each returns or raises *)
Definition run_calls (cs : list call) (w : World) : World :=
  fold_left (λ w c, (perform c w).2) cs w.

Lemma run_calls_steps (cs : list call) (w : World) :
  step_frame (_headers (self w)) w (run_calls cs w).
Proof.
  revert w. induction cs as [|c cs IH]; intros w.
  - by apply frame_refl.
  - change (run_calls (c :: cs) w) with (run_calls cs (perform c w).2).
    destruct (perform_steps c (_headers (self w)) w eq_refl) as [Hc _].
    eapply frame_trans; [exact Hc|].
    assert (_headers (self (perform c w).2) = _headers (self w)) as <-.
    { destruct Hc as (F & _). unfold fixed in F. congruence. }
    apply IH.
Qed.

(** No call assigns the header dictionary, the device id, the region code
    or the timeout of a client. *)
Theorem calls_keep_the_fixed_attributes (cs : list call) (w : World) :
  let c := self w in
  let c' := self (run_calls cs w) in
  _headers c' = _headers c ∧ _did c' = _did c ∧
  _region_code c' = _region_code c ∧ timeout c' = timeout c.
Proof.
  destruct (run_calls_steps cs w) as (F & _). unfold fixed in F.
  cbv zeta. split_and!; congruence.
Qed.

(** No call touches a dictionary other than the client's own header
    dictionary, and no call removes a header from that one. *)
Theorem calls_only_add_headers (cs : list call) (w : World) :
  let l := _headers (self w) in
  let w' := run_calls cs w in
  (∀ l', l' ≠ l → heap w' !! l' = heap w !! l') ∧
  (∀ k, is_Some (deref l w !! k) → is_Some (deref l w' !! k)).
Proof.
  destruct (run_calls_steps cs w) as (_ & Hh & Hd & _).
  cbv zeta. split; [done|].
  intros k Hk. apply elem_of_dom. apply elem_of_dom in Hk. set_solver.
Qed.

(** A client that [__init__] has made sends every request with a timeout of
    15 seconds, and never rewrites the record of a request it has sent. *)
Theorem every_request_has_the_timeout (cs : list call) (w : World) :
  (Webull.__init__ w).1 = Ok tt →
  let w0 := (Webull.__init__ w).2 in
  let w' := run_calls cs w0 in
  sent w' = (sent w0 ++ new_requests w0 w')%list ∧
  Forall (λ r, req_timeout r = VInt 15) (new_requests w0 w').
Proof.
  intros Hu%Device.init_returns w0 w'.
  destruct (run_calls_steps cs w0) as (_ & _ & _ & new & E & T).
  fold w' in E. rewrite (new_requests_app _ _ _ E). split; [done|].
  eapply Forall_impl; [exact T|]. intros r ->.
  destruct (Device.init_client w Hu) as (_ & _ & _ & _ & _ & _ & _ & _ & Hi).
  unfold w0. by injection Hi as _ _ ->.
Qed.

End WithOS.

(** *** The calls that assign nothing *)

Ltac kept_hook :=
  idtac;
  lazymatch goal with
  | |- hoare _ _ _ (Webull.build_req_headers _ _ _ ≫= _) =>
      eapply hoare_bind; [apply build_client_is|intros ? ->]
  | |- hoare _ _ _ (Webull.build_req_headers _ _ _) =>
      eapply hoare_weaken; [apply build_client_is|done]
  | |- hoare _ _ _ (requests_get _ _ _) => apply requests_get_any
  | |- hoare _ _ _ (requests_post _ _ _) => apply requests_post_any
  | |- hoare _ _ _ (match ?x with _ => _ end) => destruct x
  end.

(** The request shows the client's device id and access token. *)
Definition credentials (c : Client) (r : Request) : Prop :=
  ∃ h, req_headers r = Some h ∧ h !! "did" = Some (_did c) ∧
       h !! "access_token" = Some (_access_token c).

(** The client is [c] and its header dictionary shows its device id and
    access token, as after any [build_req_headers]. *)
Definition signed (c : Client) (w : World) : Prop :=
  self w = c ∧ deref (_headers c) w !! "did" = Some (_did c) ∧
  deref (_headers c) w !! "access_token" = Some (_access_token c).

#[export] Instance signed_Frame (c : Client) (Φ : Request → Prop) :
  Frame (signed c) (sent_frame (signed c) Φ).
Proof.
  apply sent_frame_Frame. unfold signed, deref.
  intros w w' (? & ? & ?) Hs Hh. by rewrite Hs, Hh.
Qed.

(** The calls whose every request follows a [build_req_headers] of the same
    call: all that assign nothing, but for the questions and codes of the
    login, which send the dictionary as it is, and the screener, which sends
    none. *)
Definition rebuilds (c : call) : bool :=
  match c with
  | Get_mfa _ | Check_mfa _ _ | Get_security _ | Next_security _
  | Check_security _ _ _ | Run_screener _ _ _ _ _ _ _ _ _ => false
  | _ => negb (assigns c)
  end.

Section WithLib.
Context `{!PyLib}.

Lemma built_headers_did (a b c : bool) (w : World) :
  built_headers a b c w !! "did" = Some (_did (self w)).
Proof.
  unfold built_headers.
  destruct a, b, c; cbv zeta;
    repeat (rewrite lookup_insert_ne by discriminate);
    by rewrite lookup_insert_eq.
Qed.

Lemma built_headers_access_token (a b c : bool) (w : World) :
  built_headers a b c w !! "access_token" = Some (_access_token (self w)).
Proof.
  unfold built_headers.
  destruct a, b, c; cbv zeta;
    repeat (rewrite lookup_insert_ne by discriminate);
    by rewrite lookup_insert_eq.
Qed.

Lemma built_signed (a b d : bool) (w : World) :
  signed (self w) (built a b d w).
Proof.
  unfold signed. rewrite self_built, deref_built.
  by rewrite built_headers_did, built_headers_access_token.
Qed.

Lemma build_signed (c : Client) (Φ : Request → Prop) (a b d : bool) :
  hoare (signed c) (sent_frame (signed c) Φ) (λ h, h = _headers c)
    (Webull.build_req_headers a b d).
Proof.
  intros w (Hs & _). rewrite build_req_headers_run. cbn [fst snd]. split.
  - split; [subst c; apply built_signed|].
    exists []. by rewrite sent_built, app_nil_r.
  - intros h [= <-]. by rewrite Hs.
Qed.

Lemma requests_get_signed (c : Client) (url : string)
    (params : option value) :
  hoare (signed c) (sent_frame (signed c) (credentials c)) (λ _, True)
    (requests_get url params (Some (_headers c))).
Proof.
  apply (hoare_send _ _ (λ w, mkRequest GET url None params
                                (snapshot (Some (_headers c)) w)
                                (timeout (self w)))).
  - unfold signed, deref. intros w w' (? & ? & ?) Hs Hh. by rewrite Hs, Hh.
  - intros w (_ & Hd & Ha). by eexists.
Qed.

Lemma requests_post_signed (c : Client) (url : string)
    (data : option value) :
  hoare (signed c) (sent_frame (signed c) (credentials c)) (λ _, True)
    (requests_post url data (Some (_headers c))).
Proof.
  apply (hoare_send _ _ (λ w, mkRequest POST url data None
                                (snapshot (Some (_headers c)) w)
                                (timeout (self w)))).
  - unfold signed, deref. intros w w' (? & ? & ?) Hs Hh. by rewrite Hs, Hh.
  - intros w (_ & Hd & Ha). by eexists.
Qed.

(** From its first [build_req_headers] on, a call that assigns nothing runs
    with the dictionary signed. *)
Lemma signed_block {B : Type} (c : Client) (a b d : bool) (body : loc → M B) :
  hoare (signed c) (sent_frame (signed c) (credentials c)) (λ _, True)
    (body (_headers c)) →
  hoare (client_is c) (sent_frame (client_is c) (credentials c)) (λ _, True)
    (Webull.build_req_headers a b d ≫= body).
Proof.
  intros Hb w Hw. rewrite bind_run, build_req_headers_run. cbv beta iota.
  unfold client_is in Hw. subst c.
  destruct (Hb (built a b d w) (built_signed a b d w))
    as [[(Hs & _) (new & E & F)] _].
  split; [|done]. split; [exact Hs|].
  exists new. by rewrite E, sent_built.
Qed.

End WithLib.

Ltac signed_hook :=
  idtac;
  lazymatch goal with
  | |- hoare (client_is _) _ _ (Webull.build_req_headers _ _ _ ≫= _) =>
      apply signed_block
  | |- hoare (signed _) _ _ (Webull.build_req_headers _ _ _ ≫= _) =>
      eapply hoare_bind; [apply build_signed|intros ? ->]
  | |- hoare (signed _) _ _ (requests_get _ _ (Some _)) =>
      apply requests_get_signed
  | |- hoare (signed _) _ _ (requests_post _ _ (Some _)) =>
      apply requests_post_signed
  | |- hoare _ _ _ (match ?x with _ => _ end) => destruct x
  end.

Section WithOS.
Context `{!PyLib} `{!PyOS}.

Lemma perform_keeps (c : call) (cl : Client) :
  assigns c = false →
  hoare (client_is cl) (sent_frame (client_is cl) any_request) (λ _, True)
    (perform c).
Proof.
  destruct c; try discriminate; intros _;
    repeat progress open_methods; hoare_run kept_hook.
Qed.


(** Every request of a call that builds its headers shows the device id and
    the access token the client has. *)
Theorem requests_show_the_credentials (c : call) (w : World) :
  rebuilds c = true →
  Forall (credentials (self w)) (new_requests w (perform c w).2).
Proof.
  intros Hc.
  assert (hoare (client_is (self w))
            (sent_frame (client_is (self w)) (credentials (self w)))
            (λ _, True) (perform c)) as Hh.
  { destruct c; try discriminate Hc;
      repeat progress open_methods; hoare_run signed_hook. }
  destruct (Hh w eq_refl) as [[_ (new & E & F)] _].
  by rewrite (new_requests_app _ _ _ E).
Qed.

End WithOS.
End Invariants.

(** * The session: account id, trade token *)

Module Session.
Import Py Env Spec Logic Run Tokens.

Section WithLib.
Context `{!PyLib}.

(** [get_account_id], the vendor answering with JSON that has a ['success']
    entry: when it is falsy, or the ['data'] list is empty, the call returns
    [None] and assigns nothing; otherwise the entry of ['data'] at [id]
    gives the zone and the account id, both assigned and the id returned as
    text. *)
Theorem get_account_id_outcome (id : value) (w : World) (resp : Response)
    (rest : list Response) (res s : value) :
  inbox w = resp :: rest →
  body resp = Some res →
  getitem res "success" = Ok s →
  let run := Webull.get_account_id id w in
  (truthy s = false → run.1 = Ok VNone ∧ self run.2 = self w) ∧
  (getitem res "data" = Ok (VList []) → run.1 = Ok VNone ∧ self run.2 = self w) ∧
  (∀ data i d z a,
     truthy s = true → getitem res "data" = Ok (VList data) → data ≠ [] →
     py_int id = Ok i → getindex (VList data) i = Ok d →
     getitem d "rzone" = Ok z → getitem d "secAccountId" = Ok a →
     run.1 = Ok (VStr (py_str a)) ∧
     self run.2 = set_account_id (VStr (py_str a))
                    (set_zone_var (VStr (py_str z)) (self w))).
Proof.
  intros Hin Hbody Hs run. subst run.
  destruct (Webull.get_account_id id w) as [r w'] eqn:E. cbn [fst snd].
  revert E. unfold Webull.get_account_id. intros E.
  split_and!.
  - intros Ht.
    repeat first [rewrite Hin in E | rewrite Hbody in E | rewrite Hs in E
                 | rewrite Ht in E
                 | progress cbn [mbind result_bind mret result_ret] in E
                 | exec_step E].
    injection E as <- <-. split; [done|]. cbn [self with_net with_self]. by rewrite ?self_built.
  - intros Hd.
    repeat first [rewrite Hin in E | rewrite Hbody in E | rewrite Hs in E
                 | rewrite Hd in E
                 | progress cbn [mbind result_bind mret result_ret len length] in E
                 | exec_step E].
    all: injection E as <- <-; split; [done|]; cbn [self with_net with_self]; by rewrite ?self_built.
  - intros data i d z a Ht Hd Hne Hi Hg Hz Ha.
    assert (len (VList data) = Ok (Z.of_nat (length data))) as Hl by done.
    assert ((0 <? Z.of_nat (length data)) = true) as Hpos.
    { destruct data; [done|]. cbn [length]. apply Z.ltb_lt. lia. }
    repeat first [rewrite Hin in E | rewrite Hbody in E | rewrite Hs in E
                 | rewrite Ht in E | rewrite Hd in E | rewrite Hl in E
                 | rewrite Hpos in E | rewrite Hi in E | rewrite Hg in E
                 | rewrite Hz in E | rewrite Ha in E
                 | progress cbn [mbind result_bind mret result_ret] in E
                 | exec_step E].
    injection E as <- <-. split; [done|]. cbn [self with_net with_self]. by rewrite ?self_built.
Qed.

(** The zone is assigned before the account id is read: an account without
    ['secAccountId'] leaves the call failed and the zone changed. *)
Theorem get_account_id_half_done (id : value) (w : World) (resp : Response)
    (rest : list Response) (res s d z : value) (data : list value) (i : Z)
    (e : exn) :
  inbox w = resp :: rest →
  body resp = Some res →
  getitem res "success" = Ok s → truthy s = true →
  getitem res "data" = Ok (VList data) → data ≠ [] →
  py_int id = Ok i → getindex (VList data) i = Ok d →
  getitem d "rzone" = Ok z → getitem d "secAccountId" = Raise e →
  let run := Webull.get_account_id id w in
  run.1 = Raise e ∧
  self run.2 = set_zone_var (VStr (py_str z)) (self w).
Proof.
  intros Hin Hbody Hs Ht Hd Hne Hi Hg Hz Ha run. subst run.
  destruct (Webull.get_account_id id w) as [r w'] eqn:E. cbn [fst snd].
  revert E. unfold Webull.get_account_id. intros E.
  assert (len (VList data) = Ok (Z.of_nat (length data))) as Hl by done.
  assert ((0 <? Z.of_nat (length data)) = true) as Hpos.
  { destruct data; [done|]. cbn [length]. apply Z.ltb_lt. lia. }
  repeat first [rewrite Hin in E | rewrite Hbody in E | rewrite Hs in E
               | rewrite Ht in E | rewrite Hd in E | rewrite Hl in E
               | rewrite Hpos in E | rewrite Hi in E | rewrite Hg in E
               | rewrite Hz in E | rewrite Ha in E
               | progress cbn [mbind result_bind mret result_ret] in E
               | exec_step E].
  injection E as <- <-. split; [done|].
  cbn [self with_net with_self]. by rewrite ?self_built.
Qed.

End WithLib.

Section WithOS.
Context `{!PyLib} `{!PyOS}.

(** [is_logged_in] says [True] whenever [get_account_id] returns, whatever
    it returns; [False] exactly when it raises a [KeyError]; any other
    exception comes through.  So of an answer that is a JSON object: without
    a ['success'] key the verdict is [False]; with a falsy ['success'], the
    vendor saying no, it is [True]; with a truthy ['success'] and no
    ['data'] it is [False]. *)
Theorem is_logged_in_verdict (w : World) (resp : Response)
    (rest : list Response) (d : list (string * value)) :
  inbox w = resp :: rest →
  body resp = Some (VDict d) →
  let asked := Webull.get_account_id (VInt 0) w in
  let run := Webull.is_logged_in w in
  (run.2 = asked.2 ∧
   match asked.1 with
   | Ok _ => run.1 = Ok (VBool true)
   | Raise e => run.1 = if is_KeyError e then Ok (VBool false) else Raise e
   end) ∧
  (dict_get "success" d = None → run.1 = Ok (VBool false)) ∧
  (∀ s, dict_get "success" d = Some s → truthy s = false →
        run.1 = Ok (VBool true)) ∧
  (∀ s, dict_get "success" d = Some s → truthy s = true →
        dict_get "data" d = None → run.1 = Ok (VBool false)).
Proof.
  intros Hin Hbody asked run. subst run asked.
  assert (Hgen : (Webull.is_logged_in w).2 = (Webull.get_account_id (VInt 0) w).2 ∧
    match (Webull.get_account_id (VInt 0) w).1 with
    | Ok _ => (Webull.is_logged_in w).1 = Ok (VBool true)
    | Raise e => (Webull.is_logged_in w).1
                 = if is_KeyError e then Ok (VBool false) else Raise e
    end).
  { unfold Webull.is_logged_in, try_KeyError.
    rewrite (bind_run (Webull.get_account_id (VInt 0))).
    destruct (Webull.get_account_id (VInt 0) w) as [[a|e] w'].
    - by rewrite ret_run.
    - cbn [fst snd]. destruct (is_KeyError e); by rewrite ?ret_run. }
  split; [exact Hgen|]. destruct Hgen as [_ Hgen].
  destruct (Webull.get_account_id (VInt 0) w) as [r w'] eqn:E.
  cbn [fst] in Hgen.
  revert E. unfold Webull.get_account_id. intros E.
  split_and!.
  - intros Hs.
    repeat first [rewrite Hin in E | rewrite Hbody in E
                 | progress cbn [mbind result_bind mret result_ret getitem] in E
                 | rewrite Hs in E
                 | exec_step E].
    injection E as <- <-. exact Hgen.
  - intros s Hs Ht.
    repeat first [rewrite Hin in E | rewrite Hbody in E
                 | progress cbn [mbind result_bind mret result_ret getitem] in E
                 | rewrite Hs in E | rewrite Ht in E
                 | exec_step E].
    injection E as <- <-. exact Hgen.
  - intros s Hs Ht Hd.
    repeat first [rewrite Hin in E | rewrite Hbody in E
                 | progress cbn [mbind result_bind mret result_ret getitem] in E
                 | rewrite Hs in E | rewrite Ht in E | rewrite Hd in E
                 | exec_step E].
    injection E as <- <-. exact Hgen.
Qed.

(** [api_login] takes the four session values as given, asks for the
    account with the new access token in the headers, and assigns what
    [get_account_id] returns to [_account_id], after [get_account_id] has
    itself assigned it: the account id as text when the vendor lists an
    account, [None] when it does not.  If the lookup raises, so does the
    call, the four values already taken. *)
Theorem api_login_outcome
    (access_token refresh_token token_expire uuid mfa : value) (w : World) :
  let taken := set_uuid uuid (set_token_expire token_expire
                 (set_refresh_token refresh_token
                    (set_access_token access_token (self w)))) in
  let asked := Webull.get_account_id (VInt 0) (with_self taken w) in
  let run := Webull.api_login access_token refresh_token token_expire uuid mfa w in
  match asked.1 with
  | Ok acct =>
      run = (Ok VNone, with_self (set_account_id acct (self asked.2)) asked.2)
  | Raise e => run = (Raise e, asked.2)
  end ∧
  ∀ resp rest,
    inbox w = resp :: rest →
    (∃ r, new_requests w run.2 = [r] ∧
          req_headers r ≫= lookup "access_token" = Some access_token) ∧
    ∀ res s,
      body resp = Some res →
      getitem res "success" = Ok s →
      (truthy s = false →
       run.1 = Ok VNone ∧ self run.2 = set_account_id VNone taken) ∧
      (∀ data d z a,
         truthy s = true → getitem res "data" = Ok (VList data) → data ≠ [] →
         getindex (VList data) 0 = Ok d →
         getitem d "rzone" = Ok z → getitem d "secAccountId" = Ok a →
         run.1 = Ok VNone ∧
         self run.2 = set_account_id (VStr (py_str a))
                        (set_zone_var (VStr (py_str z)) taken)).
Proof.
  intros taken asked run. subst asked run. split.
  - unfold Webull.api_login.
    repeat (rewrite !bind_run, !modify_self_run; cbv beta iota;
            cbn [self with_self]).
    change (with_self _ (with_self _ (with_self _ (with_self _ w))))
      with (with_self taken w).
    rewrite bind_run.
    destruct (Webull.get_account_id (VInt 0) (with_self taken w))
      as [[acct|e] w1]; [|done].
    rewrite bind_run, modify_self_run. cbv beta iota. by rewrite ret_run.
  - intros resp rest Hin.
    destruct (Webull.api_login _ _ _ _ _ w) as [r w'] eqn:E. cbn [fst snd].
    revert E. unfold Webull.api_login, Webull.get_account_id. intros E.
    split.
    + repeat first [rewrite Hin in E | exec_step E].
      all: injection E as <- <-.
      all: eexists; split;
        [unfold new_requests; cbn [sent with_net with_self];
         rewrite ?sent_built; cbn [sent with_net with_self];
         by rewrite drop_app_length|].
      all: cbn [req_headers mbind option_bind].
      all: match goal with
           | |- deref _ (built _ _ _ ?W) !! _ = _ =>
               change (_headers (self w)) with (_headers (self W))
           end.
      all: by rewrite deref_built, Invariants.built_headers_access_token.
    + intros res s Hbody Hs. split.
      * intros Ht.
        repeat first [rewrite Hin in E | rewrite Hbody in E | rewrite Hs in E
                     | rewrite Ht in E
                     | progress cbn [mbind result_bind mret result_ret] in E
                     | exec_step E].
        injection E as <- <-. split; [done|].
        cbn [self with_net with_self]. by rewrite ?self_built.
      * intros data d z a Ht Hd Hne Hg Hz Ha.
        assert (len (VList data) = Ok (Z.of_nat (length data))) as Hl by done.
        assert ((0 <? Z.of_nat (length data)) = true) as Hpos.
        { destruct data; [done|]. cbn [length]. apply Z.ltb_lt. lia. }
        assert (py_int (VInt 0) = Ok 0) as Hi by done.
        repeat first [rewrite Hin in E | rewrite Hbody in E | rewrite Hs in E
                     | rewrite Ht in E | rewrite Hd in E | rewrite Hl in E
                     | rewrite Hpos in E | rewrite Hi in E | rewrite Hg in E
                     | rewrite Hz in E | rewrite Ha in E
                     | progress cbn [mbind result_bind mret result_ret] in E
                     | exec_step E].
        injection E as <- <-. split; [done|].
        cbn [self with_net with_self]. by rewrite ?self_built.
Qed.

(** [get_trade_token] posts the digest of the salted password, never the
    password; the trade token changes exactly when the answer has a
    ['tradeToken'] key, and the call says which. *)
Theorem get_trade_token_outcome (password : string) (w : World)
    (resp : Response) (rest : list Response) (d : list (string * value)) :
  inbox w = resp :: rest →
  body resp = Some (VDict d) →
  let run := Webull.get_trade_token (VStr password) w in
  map (λ r, (req_method r, req_url r, req_json r)) (new_requests w run.2)
  = [(POST, endpoints.trade_token,
      Some (VDict [("pwd", VStr (md5_hexdigest ("wl_app-a&b@!423^" +:+ password)))]))] ∧
  match dict_get "tradeToken" d with
  | Some t => run.1 = Ok (VBool true) ∧ self run.2 = set_trade_token t (self w)
  | None => run.1 = Ok (VBool false) ∧ self run.2 = self w
  end.
Proof.
  intros Hin Hbody run. subst run.
  destruct (Webull.get_trade_token _ w) as [r w'] eqn:E. cbn [fst snd].
  revert E. unfold Webull.get_trade_token. intros E.
  unfold new_requests.
  destruct (dict_get "tradeToken" d) as [t|] eqn:Ht.
  all: repeat first [rewrite Hin in E | rewrite Hbody in E
               | progress cbn [mbind result_bind mret result_ret contains
                               getitem Webull.str_add] in E
               | progress unfold dict_has in E
               | rewrite Ht in E
               | exec_step E].
  all: injection E as <- <-; cbn [self sent with_net with_self];
    rewrite ?self_built, ?sent_built, drop_app_length; done.
Qed.

Lemma get_trade_token_sets (password : string) (w : World)
    (resp : Response) (rest : list Response) (d : list (string * value))
    (t : value) :
  inbox w = resp :: rest →
  body resp = Some (VDict d) →
  dict_get "tradeToken" d = Some t →
  _trade_token (self (Webull.get_trade_token (VStr password) w).2) = t.
Proof.
  intros Hin Hbody Ht.
  destruct (Webull.get_trade_token _ w) as [r w'] eqn:E. cbn [fst snd].
  revert E. unfold Webull.get_trade_token. intros E.
  repeat first [rewrite Hin in E | rewrite Hbody in E
               | progress cbn [mbind result_bind mret result_ret contains
                               getitem Webull.str_add] in E
               | progress unfold dict_has in E
               | rewrite Ht in E
               | exec_step E].
  by injection E as <- <-.
Qed.

Ltac order_hook :=
  idtac;
  lazymatch goal with
  | |- hoare _ _ _ (Webull.build_req_headers false _ _ ≫= _) =>
      eapply hoare_bind; [apply build_found|intros ? ->]
  | |- hoare _ _ _ (requests_get _ _ (Some _)) => apply requests_get_found
  | |- hoare _ _ _ (requests_post _ _ (Some _)) => apply requests_post_found
  | |- hoare _ _ _ (Webull.get_ticker _) => apply get_ticker_found
  end.

(** The token the vendor issues to [get_trade_token] is the one the next
    order carries. *)
Theorem issued_trade_token_is_carried (password : string) (w : World)
    (resp : Response) (rest : list Response) (d : list (string * value))
    (t : value) :
  inbox w = resp :: rest →
  body resp = Some (VDict d) →
  dict_get "tradeToken" d = Some t →
  let w1 := (Webull.get_trade_token (VStr password) w).2 in
  (∀ stock tId price action orderType enforce quant outsideRegularTradingHour
     stpPrice trial_value trial_type,
     Forall (λ r, req_method r = POST → carries t r)
       (new_requests w1
          (Webull.place_order stock tId price action orderType enforce quant
             outsideRegularTradingHour stpPrice trial_value trial_type w1).2)) ∧
  (∀ order_id,
     Forall (λ r, req_method r = POST → carries t r)
       (new_requests w1 (Webull.cancel_order order_id w1).2)).
Proof.
  intros Hin Hbody Ht w1.
  pose proof (get_trade_token_sets password w resp rest d t Hin Hbody Ht) as Hw1.
  fold w1 in Hw1. split; intros.
  - rewrite <- Hw1.
    apply (posts_carry_after_lookup (Webull.resolve_tId stock tId)
             (λ tId headers, _)).
    + intros c. apply resolve_tId_client_is.
    + intros. hoare_run order_hook.
  - rewrite <- Hw1.
    apply (posts_carry_after_build (λ headers, _)).
    intros. hoare_run order_hook.
Qed.

End WithOS.
End Session.

(** * Logging in *)

Module Login.
Import Py Env Spec Logic Run Api Steps.

Section WithOS.
Context `{!PyLib} `{!PyOS}.

Lemma void_world {A : Type} (m : M A) (w : World) : (void m w).2 = (m w).2.
Proof. unfold void. rewrite bind_run. by destruct (m w) as [[a|e] w']. Qed.

Lemma get_account_id_appends (id : value) (w : World) :
  ∃ new, sent (Webull.get_account_id id w).2 = (sent w ++ new)%list.
Proof.
  destruct (perform_steps (Get_account_id id) (_headers (self w)) w eq_refl)
    as [(_ & _ & _ & new & E & _) _].
  exists new. cbn [perform] in E. by rewrite void_world in E.
Qed.

Lemma written_built (a b c : bool) (w : World) :
  written (built a b c w) = written w.
Proof. by destruct b. Qed.

(** The session of a client: its four tokens *)
Definition session (c : Client) : value * value * value * value :=
  (_access_token c, _refresh_token c, _token_expire c, _uuid c).

Lemma get_account_id_session (id : value) (w : World) :
  let w' := (Webull.get_account_id id w).2 in
  session (self w') = session (self w) ∧
  _credential_data (self w') = _credential_data (self w) ∧
  written w' = written w.
Proof.
  cbv zeta.
  destruct (Webull.get_account_id id w) as [r w'] eqn:E. cbn [snd].
  revert E. unfold Webull.get_account_id. intros E.
  exec E.
  all: injection E as <- <-; cbn [self written with_net with_self];
    rewrite ?self_built; split_and!; try reflexivity; by destruct w.
Qed.

(** The request [login] makes with a user name and a password: the password
    goes out as the digest of its salted text, and the headers are rebuilt
    only when a verification code is given. *)
Theorem login_request
    (username device_name mfa question_id question_answer credential_path
     save_token token_path : value) (password : string) (is_email : bool)
    (w : World) :
  truthy credential_path = false →
  truthy username = true →
  password ≠ "" →
  validate_email username = Ok is_email →
  let run := Webull.login username (VStr password) device_name mfa question_id
               question_answer credential_path save_token token_path w in
  ∃ r, head (new_requests w run.2) = Some r ∧
       req_method r = POST ∧ req_url r = endpoints.login ∧
       req_json r
       = Some (VDict (Webull.login_data username
                        (VInt (if is_email then 2 else 1)) (_did (self w))
                        device_name
                        (VStr (md5_hexdigest ("wl_app-a&b@!423^" +:+ password)))
                        (_region_code (self w)) mfa question_id
                        question_answer)) ∧
       req_headers r
       = Some (if py_eq mfa (VStr "")
               then deref (_headers (self w)) w
               else built_headers false false true w).
Proof.
  intros Hc Hu Hp Hv run. subst run.
  assert (truthy (VStr password) = true) as Hpw.
  { cbn. apply negb_true_iff. by apply String.eqb_neq. }
  destruct (Webull.login _ _ _ _ _ _ _ _ _ w) as [r w'] eqn:E. cbn [fst snd].
  revert E. unfold Webull.login, Webull.get_account_type, Webull._save_token.
  rewrite Hc, Hu, Hpw.
  cbn [negb orb]. intros E.
  unfold new_requests.
  destruct (py_eq mfa (VStr "")) eqn:Hm.
  all: cbn [negb] in E.
  all: repeat first [rewrite Hv in E
               | progress cbn [mbind result_bind mret result_ret
                               Webull.str_add] in E
               | exec_step E].
  all: injection E as <- <-.
  all: repeat match goal with
       | Hx : Webull.get_account_id ?i ?W = (_, ?w1) |- _ =>
           let new := fresh "new" in
           let Hnew := fresh "Hnew" in
           destruct (get_account_id_appends i W) as [new Hnew];
           rewrite Hx in Hnew; cbn [snd] in Hnew; clear Hx
       end.
  all: cbn [self sent with_net with_self with_written] in *.
  all: rewrite ?sent_built in *.
  all: try match goal with Hnew : sent _ = _ |- _ => rewrite Hnew end.
  all: rewrite <- ?app_assoc, drop_app_length; cbn [app head].
  all: eexists; split; [reflexivity|].
  all: cbn [req_method req_url req_json req_headers snapshot fmap
            option_fmap option_map].
  all: rewrite ?deref_built.
  all: by split_and!.
Qed.

(** What [login] does with the answer: without an ['accessToken'] the
    client and the files are left alone; with the four entries of a session
    they are assigned at once, whatever the account lookup that follows does,
    and when the call returns the answer is the new credential data, written
    to the token file if asked. *)
Theorem login_outcome
    (username device_name mfa question_id question_answer credential_path
     save_token token_path : value) (password : string) (is_email : bool)
    (w : World) (resp : Response) (rest : list Response)
    (d : list (string * value)) :
  truthy credential_path = false →
  truthy username = true →
  password ≠ "" →
  validate_email username = Ok is_email →
  inbox w = resp :: rest →
  body resp = Some (VDict d) →
  let run := Webull.login username (VStr password) device_name mfa question_id
               question_answer credential_path save_token token_path w in
  match dict_get "accessToken" d with
  | None =>
      run.1 = Ok (VDict d) ∧ self run.2 = self w ∧ written run.2 = written w
  | Some a =>
      ∀ r e u,
        dict_get "refreshToken" d = Some r →
        dict_get "tokenExpireTime" d = Some e →
        dict_get "uuid" d = Some u →
        session (self run.2) = (a, r, e, u) ∧
        ∀ v, run.1 = Ok v →
             v = VDict d ∧
             _credential_data (self run.2) = Some (VDict d) ∧
             written run.2
             = if truthy save_token
               then (written w
                     ++ [(if truthy token_path then token_path
                          else Webull.DEFAULT_CREDENTIAL_PATH, VDict d)])%list
               else written w
  end.
Proof.
  intros Hc Hu Hp Hv Hin Hbody run. subst run.
  assert (truthy (VStr password) = true) as Hpw.
  { cbn. apply negb_true_iff. by apply String.eqb_neq. }
  destruct (Webull.login _ _ _ _ _ _ _ _ _ w) as [r w'] eqn:E. cbn [fst snd].
  revert E. unfold Webull.login, Webull.get_account_type, Webull._save_token.
  rewrite Hc, Hu, Hpw.
  cbn [negb orb]. intros E.
  destruct (dict_get "accessToken" d) as [a|] eqn:Ha.
  - intros rt e u Hr He Hu'.
    repeat first [rewrite Hv in E | rewrite Hin in E | rewrite Hbody in E
                 | progress cbn [mbind result_bind mret result_ret
                                 Webull.str_add contains getitem] in E
                 | progress unfold dict_has in E
                 | rewrite Ha in E | rewrite Hr in E | rewrite He in E
                 | rewrite Hu' in E
                 | exec_step E].
    all: injection E as <- <-.
    all: match goal with
         | Hx : Webull.get_account_id ?i ?W = (_, ?w1) |- _ =>
             destruct (get_account_id_session i W) as (Hs & Hcd & Hwr);
             rewrite Hx in Hs, Hcd, Hwr; cbn [snd] in Hs, Hcd, Hwr
         end.
    all: unfold session in *.
    all: cbn [self written with_net with_self with_written set_uuid
              set_token_expire set_refresh_token set_access_token
              set_account_id set_credential_data _access_token _refresh_token
              _token_expire _uuid _credential_data] in *.
    all: rewrite ?self_built in *.
    all: split; [congruence|].
    all: intros v [= <-]; split_and!; try reflexivity.
    all: by rewrite Hwr, ?written_built.
  - repeat first [rewrite Hv in E | rewrite Hin in E | rewrite Hbody in E
                 | progress cbn [mbind result_bind mret result_ret
                                 Webull.str_add contains getitem] in E
                 | progress unfold dict_has in E
                 | rewrite Ha in E
                 | exec_step E].
    all: injection E as <- <-.
    all: cbn [self written with_net with_self].
    all: by rewrite ?self_built, ?written_built.
Qed.

End WithOS.
End Login.

(** * The credential file *)

Module Credentials.
Import Py Env Spec Logic Run Dicts Api Steps Login Refresh.

Section WithOS.
Context `{!PyLib} `{!PyOS}.

Lemma last_dump_app (p : string) (files : list (value * value))
    (path content : value) (found : option value) :
  last_dump p (files ++ [(path, content)]) found
  = match path_str path with
    | Ok s => if String.eqb s p then Some content else last_dump p files found
    | Raise _ => last_dump p files found
    end.
Proof.
  revert found. induction files as [|[q c] files IH]; intros found; [done|].
  cbn [app last_dump]. by rewrite IH.
Qed.

Lemma json_load_run (p : string) (w : World) :
  json_load p w = (Ok (last_dump p (written w) None), w).
Proof. reflexivity. Qed.

(** [save_credential] with no data given, on a client that has none (no
    login has assigned [_credential_data], and [__init__] does not): the
    call raises [AttributeError] and writes no file. *)
Theorem save_credential_needs_a_login (path credential_data : value)
    (w : World) :
  truthy credential_data = false →
  _credential_data (self w) = None →
  Webull.save_credential path credential_data w = (Raise AttributeError, w).
Proof.
  intros Hd Hc. unfold Webull.save_credential. rewrite Hd.
  rewrite !bind_run, get_self_run. cbv beta iota. rewrite Hc.
  reflexivity.
Qed.

(** Without a user name or a password, and with no credential file, [login]
    asks the vendor nothing: it says the file is missing and returns
    [None]. *)
Theorem login_without_credentials
    (username password device_name mfa question_id question_answer
     credential_path save_token token_path : value) (p : string) (w : World) :
  truthy credential_path = false →
  truthy username && truthy password = false →
  path_str Webull.DEFAULT_CREDENTIAL_PATH = Ok p →
  last_dump p (written w) None = None →
  let run := Webull.login username password device_name mfa question_id
               question_answer credential_path save_token token_path w in
  run.1 = Ok VNone ∧ self run.2 = self w ∧ sent run.2 = sent w ∧
  stdout run.2
  = (stdout w
     ++ [VStr ("Failed to open " +:+ p
               +:+ ": [Errno 2] No such file or directory: " +:+ str_repr p)])%list.
Proof.
  intros Hc Hup Hp Hf run. subst run.
  destruct (Webull.login _ _ _ _ _ _ _ _ _ w) as [r w'] eqn:E. cbn [fst snd].
  revert E. unfold Webull.login, Webull.credential_login. rewrite Hc.
  assert (negb (truthy username) || negb (truthy password) = true) as ->.
  { rewrite <- negb_andb. by rewrite Hup. }
  cbn [truthy String.eqb negb]. intros E.
  repeat first [rewrite Hp in E | rewrite json_load_run in E | rewrite Hf in E
               | exec_step E].
  by injection E as <- <-.
Qed.

(** What [refresh_login] leaves in the files when asked to save the token *)
Lemma refresh_login_saves (save_token token_path : value) (w : World)
    (resp : Response) (rest : list Response) (d : list (string * value))
    (rt : string) :
  inbox w = resp :: rest →
  body resp = Some (VDict d) →
  refresh_accepts (VDict d) = true →
  _refresh_token (self w) = VStr rt →
  truthy save_token = true →
  truthy token_path = false →
  written (Webull.refresh_login save_token token_path w).2
  = (written w ++ [(Webull.DEFAULT_CREDENTIAL_PATH,
                    VDict (dict_set "uuid" (_uuid (self w)) d))])%list.
Proof.
  intros Hin Hbody Hacc Hrt Hst Htp.
  destruct (refresh_condition_accepts _ Hacc)
    as (Hc & d' & a & r & e & [= <-] & Ha & Hr & He).
  destruct (Webull.refresh_login save_token token_path w) as [x w'] eqn:E.
  cbn [snd]. revert E.
  unfold Webull.refresh_login, Webull._save_token. intros E.
  repeat first [rewrite Hrt in E | rewrite Hin in E | rewrite Hbody in E
               | rewrite Hc in E | rewrite Ha in E | rewrite Hr in E
               | rewrite He in E | rewrite Hst in E | rewrite Htp in E
               | progress cbn [mbind result_bind mret result_ret
                               Webull.str_add setitem] in E
               | exec_step E].
  by injection E as _ <-.
Qed.


End WithOS.
End Credentials.

(** * Calls without a symbol or an id *)

Module Inputs.
Import Py Env Spec Logic Run.

Section WithOS.
Context `{!PyLib} `{!PyOS}.

(** The call raised [ValueError(msg)] and made no request. *)
Definition refused {A : Type} (msg : string) (w : World) (run : result A * World)
  : Prop :=
  run.1 = Raise (ValueError msg) ∧ sent run.2 = sent w.

(** With neither a symbol nor a ticker id, the methods that take either
    raise before any request; [place_order], [place_order_crypto] and the
    paper [place_order] before they touch anything. *)
Theorem needs_a_stock_or_an_id (w : World) :
  let msg := "Must provide a stock symbol or a stock id" in
  (∀ price action orderType enforce quant outsideRegularTradingHour stpPrice
     trial_value trial_type,
     Webull.place_order VNone VNone price action orderType enforce quant
       outsideRegularTradingHour stpPrice trial_value trial_type w
     = (Raise (ValueError msg), w)) ∧
  (∀ price action orderType enforce entrust_type quant
     outsideRegularTradingHour,
     Webull.place_order_crypto VNone VNone price action orderType enforce
       entrust_type quant outsideRegularTradingHour w
     = (Raise (ValueError msg), w)) ∧
  (∀ price action orderType enforce quant outsideRegularTradingHour,
     PaperWebull.place_order VNone VNone price action orderType enforce quant
       outsideRegularTradingHour w
     = (Raise (ValueError msg), w)) ∧
  (∀ interval count extendTrading timeStamp,
     refused msg w (Webull.get_bars VNone VNone interval count extendTrading
                      timeStamp w)) ∧
  (∀ interval count extendTrading timeStamp,
     refused msg w (Webull.get_bars_crypto VNone VNone interval count
                      extendTrading timeStamp w)) ∧
  (∀ show_hist, refused msg w (Webull.get_capital_flow VNone VNone show_hist w)) ∧
  (∀ has_num count,
     refused msg w (Webull.get_etf_holding VNone VNone has_num count w)) ∧
  refused msg w (Webull.get_institutional_holding VNone VNone w) ∧
  refused msg w (Webull.get_short_interest VNone VNone w) ∧
  (∀ Id items, refused msg w (Webull.get_news VNone VNone Id items w)) ∧
  (∀ tId, truthy tId = false →
          refused msg w (Webull.get_quote VNone tId w)) ∧
  (∀ tId optionId, truthy tId = false →
          Webull.get_option_quote VNone tId optionId w
          = (Raise (ValueError msg), w)).
Proof.
  cbv zeta. unfold refused.
  split_and!; intros; try reflexivity.
  all: try (unfold Webull.get_quote, Webull.get_option_quote;
            cbn [truthy negb andb];
            match goal with Ht : truthy _ = false |- _ => rewrite Ht end;
            cbn [negb andb]).
  all: rewrite ?bind_run, ?build_req_headers_run; cbv beta iota.
  all: try reflexivity.
  all: rewrite ?bind_run, ?raise_run; cbv beta iota; cbn [fst snd].
  all: try (split; [reflexivity|by rewrite sent_built]).
  all: unfold Webull.get_bars, Webull.get_bars_crypto, Webull.get_capital_flow,
         Webull.get_etf_holding, Webull.get_institutional_holding,
         Webull.get_short_interest, Webull.get_news, Webull.resolve_tId;
       cbn [is_None negb];
       rewrite !bind_run, build_req_headers_run; cbv beta iota;
       rewrite ?bind_run, raise_run; cbv beta iota; cbn [fst snd];
       (split; [reflexivity|by rewrite sent_built]).
Qed.

(** Given a symbol, [get_quote] looks it up and ignores [tId]; a
    [ValueError] of the lookup comes back as one that names the symbol, and
    the quote is asked for the id found, written as text. *)
Theorem get_quote_prefers_the_symbol (stock tId : value) (w : World) :
  truthy stock = true →
  let lookup := Webull.get_ticker stock (built false false true w) in
  let run := Webull.get_quote stock tId w in
  (∀ tId', Webull.get_quote stock tId' w = run) ∧
  match lookup.1 with
  | Raise e =>
      run.1 = Raise (if is_ValueError e
                     then ValueError ("Could not find ticker for stock "
                                      +:+ py_str stock)
                     else e) ∧
      sent run.2 = sent lookup.2
  | Ok id =>
      ∃ r, sent run.2 = (sent lookup.2 ++ [r])%list ∧
           req_url r = endpoints.quotes (VStr (py_str id))
  end.
Proof.
  intros Hs lookup run. subst lookup run. split.
  - intros tId'. unfold Webull.get_quote. by rewrite Hs.
  - destruct (Webull.get_ticker stock (built false false true w))
      as [[id|e] w1] eqn:Ht; cbn [fst snd].
    all: destruct (Webull.get_quote stock tId w) as [r w'] eqn:E; cbn [fst snd].
    all: revert E; unfold Webull.get_quote, try_ValueError; rewrite Hs.
    all: cbn [negb andb]; intros E.
    all: repeat first [rewrite Ht in E | exec_step E].
    all: try (injection E as <- <-; eexists; split; reflexivity).
    all: destruct (is_ValueError e); exec E; by injection E as <- <-.
Qed.

End WithOS.
End Inputs.

(** * Cancelling every open order *)

Module CancelAll.
Import Py Env Spec Logic Run.

Section WithLib.
Context `{!PyLib}.

(** The address the [i]-th cancellation after [w] is posted to: the order
    id, then the next UUID drawn. *)
Definition cancel_url (w : World) (i : nat) (id : value) : string :=
  endpoints.cancel_order (_account_id (self w)) +:+ py_str id +:+ "/"
    +:+ uuid_str (uuid_src w (uuid_n w + i)%nat).

(** What [cancel_order] makes of an answer *)
Definition cancelled (r : Response) : result value :=
  match body r with
  | Some v => getitem v "success"
  | None => Raise JSONDecodeError
  end.

Lemma cancel_order_step (id : value) (w : World) (r : Response)
    (rest : list Response) :
  inbox w = r :: rest →
  ∃ w' q,
    Webull.cancel_order id w = (cancelled r, w') ∧
    self w' = self w ∧ uuid_src w' = uuid_src w ∧
    uuid_n w' = S (uuid_n w) ∧ inbox w' = rest ∧
    sent w' = (sent w ++ [q])%list ∧
    req_method q = POST ∧ req_url q = cancel_url w 0 id.
Proof.
  intros Hi. unfold cancel_url, cancelled. rewrite Nat.add_0_r.
  destruct (Webull.cancel_order id w) as [x w'] eqn:E.
  revert E. unfold Webull.cancel_order. intros E.
  repeat first [rewrite Hi in E | exec_step E].
  all: injection E as <- <-; do 2 eexists; split_and!; try reflexivity.
Qed.

(** The body of the loop of [cancel_all_orders] *)
Definition cancel_one (order : value) : M unit :=
  order_id ← lift (getitem order "orderId");
  Webull.cancel_order order_id;;
  mret tt.

Lemma cancel_all_orders_loop (w : World) :
  Webull.cancel_all_orders w
  = (open_orders ← Webull.get_current_orders;
     orders ← lift (Webull.py_iter open_orders);
     for_each orders cancel_one;;
     mret VNone) w.
Proof. reflexivity. Qed.

Lemma cancel_url_S (w w' : World) (i : nat) (id : value) :
  self w' = self w → uuid_src w' = uuid_src w → uuid_n w' = S (uuid_n w) →
  cancel_url w' i id = cancel_url w (S i) id.
Proof.
  intros Hs Hu Hn. unfold cancel_url. rewrite Hs, Hu, Hn.
  by rewrite Nat.add_succ_comm.
Qed.

Lemma cancel_loop_ok (orders ids : list value) :
  Forall2 (λ o id, getitem o "orderId" = Ok id) orders ids →
  ∀ (answers rest : list Response) (w : World),
  Forall (λ a, ∃ s, cancelled a = Ok s) answers →
  length answers = length orders →
  inbox w = (answers ++ rest)%list →
  ∃ w' qs,
    for_each orders cancel_one w = (Ok tt, w') ∧
    self w' = self w ∧ uuid_src w' = uuid_src w ∧
    uuid_n w' = (uuid_n w + length orders)%nat ∧ inbox w' = rest ∧
    sent w' = (sent w ++ qs)%list ∧
    Forall (λ q, req_method q = POST) qs ∧
    map req_url qs = imap (cancel_url w) ids.
Proof.
  induction 1 as [|o id orders ids Ho _ IH]; intros answers rest w Ha Hl Hi.
  - destruct answers; [|discriminate]. exists w, []. cbn.
    rewrite app_nil_r, Nat.add_0_r. by split_and!.
  - destruct answers as [|a answers]; [discriminate|].
    apply Forall_cons in Ha as [[s Hs] Ha].
    destruct (cancel_order_step id w a (answers ++ rest) Hi)
      as (w1 & q & E & Hself & Hsrc & Hn & Hin & Hsent & Hm & Hu).
    destruct (IH answers rest w1 Ha ltac:(by injection Hl) Hin)
      as (w' & qs & E' & Hself' & Hsrc' & Hn' & Hin' & Hsent' & Hm' & Hu').
    exists w', (q :: qs). split_and!.
    + change (for_each (o :: orders) cancel_one w)
        with ((cancel_one o;; for_each orders cancel_one) w).
      rewrite bind_run. unfold cancel_one at 1.
      rewrite bind_run, lift_run, Ho. cbv beta iota.
      rewrite bind_run, E, Hs. cbv beta iota. rewrite ret_run. exact E'.
    + congruence.
    + congruence.
    + rewrite Hn', Hn. cbn [length]. lia.
    + done.
    + rewrite Hsent', Hsent, <- app_assoc. done.
    + by constructor.
    + cbn [map imap]. rewrite Hu, Hu'. f_equal.
      apply imap_ext. intros i x _. by apply cancel_url_S.
Qed.

Lemma for_each_app {A : Type} (xs ys : list A) (f : A → M unit) (w : World) :
  for_each (xs ++ ys) f w = (for_each xs f;; for_each ys f) w.
Proof.
  revert w. induction xs as [|x xs IH]; intros w.
  - reflexivity.
  - change (for_each ((x :: xs) ++ ys) f w)
      with ((f x;; for_each (xs ++ ys) f) w).
    change (for_each (x :: xs) f) with (f x;; for_each xs f).
    rewrite !bind_run. destruct (f x w) as [[[]|e] w1]; [|done].
    rewrite IH. by rewrite bind_run.
Qed.

(** [cancel_all_orders] posts one cancellation for each open order, in the
    order listed, each to the cancel address that ends in the order id and a
    UUID drawn for it, and returns [None] whatever the answers say under
    'success'. *)
Theorem cancel_all_orders_cancels_each (w : World)
    (open_orders : value) (orders ids : list value)
    (answers rest : list Response) :
  let w1 := (Webull.get_current_orders w).2 in
  let run := Webull.cancel_all_orders w in
  (Webull.get_current_orders w).1 = Ok open_orders →
  Webull.py_iter open_orders = Ok orders →
  Forall2 (λ o id, getitem o "orderId" = Ok id) orders ids →
  Forall (λ a, ∃ s, cancelled a = Ok s) answers →
  length answers = length orders →
  inbox w1 = (answers ++ rest)%list →
  run.1 = Ok VNone ∧ inbox run.2 = rest ∧
  ∃ qs, sent run.2 = (sent w1 ++ qs)%list ∧
        Forall (λ q, req_method q = POST) qs ∧
        map req_url qs = imap (cancel_url w1) ids.
Proof.
  intros w1 run E Hit Hids Ha Hl Hi. subst w1 run.
  destruct (Webull.get_current_orders w) as [x w1] eqn:Ew.
  cbn [fst snd] in E, Hi |- *. subst x. rename Ew into E.
  destruct (cancel_loop_ok orders ids Hids answers rest w1 Ha Hl Hi)
    as (w' & qs & E' & _ & _ & _ & Hin & Hsent & Hm & Hu).
  assert (Er : Webull.cancel_all_orders w = (Ok VNone, w')).
  { rewrite cancel_all_orders_loop, bind_run, E. cbv beta iota.
    rewrite bind_run, lift_run, Hit. cbv beta iota.
    by rewrite bind_run, E'. }
  rewrite Er. cbn [fst snd].
  split_and!; [done..|]. by exists qs.
Qed.

(** A cancellation that raises ends [cancel_all_orders]: the orders listed
    before it have been cancelled, the ones after it are never asked
    about. *)
Theorem cancel_all_orders_stops_at_a_failure (w : World)
    (open_orders : value) (done later ids : list value) (o id : value)
    (answers rest : list Response) (bad : Response) (e : exn) :
  let w1 := (Webull.get_current_orders w).2 in
  let run := Webull.cancel_all_orders w in
  (Webull.get_current_orders w).1 = Ok open_orders →
  Webull.py_iter open_orders = Ok (done ++ o :: later)%list →
  Forall2 (λ o id, getitem o "orderId" = Ok id) done ids →
  getitem o "orderId" = Ok id →
  Forall (λ a, ∃ s, cancelled a = Ok s) answers →
  length answers = length done →
  inbox w1 = (answers ++ bad :: rest)%list →
  cancelled bad = Raise e →
  run.1 = Raise e ∧ inbox run.2 = rest ∧
  ∃ qs, sent run.2 = (sent w1 ++ qs)%list ∧
        map req_url qs = imap (cancel_url w1) (ids ++ [id])%list.
Proof.
  intros w1 run E Hit Hids Ho Ha Hl Hi Hbad. subst w1 run.
  destruct (Webull.get_current_orders w) as [x w1] eqn:Ew.
  cbn [fst snd] in E, Hi |- *. subst x. rename Ew into E.
  destruct (cancel_loop_ok done ids Hids answers (bad :: rest) w1 Ha Hl Hi)
    as (w2 & qs & E2 & Hself & Hsrc & Hn & Hin & Hsent & _ & Hu).
  destruct (cancel_order_step id w2 bad rest Hin)
    as (w3 & q & E3 & _ & _ & _ & Hin3 & Hsent3 & _ & Hu3).
  assert (Er : Webull.cancel_all_orders w = (Raise e, w3)).
  { rewrite cancel_all_orders_loop, bind_run, E. cbv beta iota.
    rewrite bind_run, lift_run, Hit. cbv beta iota.
    rewrite bind_run, for_each_app, bind_run, E2. cbv beta iota.
    change (for_each (o :: later) cancel_one w2)
      with ((cancel_one o;; for_each later cancel_one) w2).
    rewrite bind_run. unfold cancel_one at 1.
    rewrite bind_run, lift_run, Ho. cbv beta iota.
    by rewrite bind_run, E3, Hbad. }
  rewrite Er. cbn [fst snd].
  split_and!; [done..|]. exists (qs ++ [q])%list. split.
  - by rewrite Hsent3, Hsent, <- app_assoc.
  - rewrite map_app, imap_app, Hu. cbn [map imap]. f_equal.
    rewrite Hu3. unfold cancel_url. rewrite Hself, Hsrc, Hn.
    rewrite (Forall2_length _ _ _ Hids). by rewrite Nat.add_assoc.
Qed.

End WithLib.
End CancelAll.

(** * The requests of the other calls *)

Module Counts.
Import Py Env Spec Logic Run Requests.

#[local] Hint Extern 1 (sends _ _ (modify_self _)) =>
  apply sends_quiet; done : sends.
#[local] Hint Extern 1 (sends _ _ (print _)) => apply sends_quiet; done : sends.
#[local] Hint Extern 1 (sends _ _ (json_dump _ _)) =>
  apply sends_quiet; done : sends.
#[local] Hint Extern 1 (sends _ _ (json_load _)) =>
  apply sends_quiet; done : sends.

Section WithOS.
Context `{!PyLib} `{!PyOS}.

#[local] Hint Resolve build_req_headers_sends get_ticker_sends
  resolve_tId_given resolve_tId_by_symbol get_account_sends
  get_account_id_sends : sends.

Lemma get_account_type_sends (username : value) :
  sends 0 0 (Webull.get_account_type username).
Proof. unfold Webull.get_account_type. sends_count. Qed.
#[local] Hint Resolve get_account_type_sends : sends.

Lemma get_options_expiration_dates_sends (stock count : value) :
  sends 2 2 (Webull.get_options_expiration_dates stock count).
Proof. unfold Webull.get_options_expiration_dates. sends_count. Qed.
#[local] Hint Resolve get_options_expiration_dates_sends : sends.

Lemma get_options_sends
    (stock count includeWeekly direction expireDate queryAll : value) :
  let n := if truthy expireDate then 2%nat else 4%nat in
  sends n n (Webull.get_options stock count includeWeekly direction expireDate
               queryAll).
Proof.
  unfold Webull.get_options. destruct (truthy expireDate); cbn [negb];
    sends_count.
Qed.

Lemma by_symbol_or_id (stock tId : value) :
  sends (if truthy stock then 1 else 0) (if truthy stock then 1 else 0)
    (if truthy stock
     then try_ValueError
            (t ← Webull.get_ticker stock; mret (VStr (py_str t)))
            (raise (ValueError ("Could not find ticker for stock "
                                +:+ py_str stock)))
     else mret tId).
Proof. destruct (truthy stock); sends_count. Qed.

Lemma get_option_quote_sends (stock tId optionId : value) :
  let n := if truthy stock then 2%nat else 1%nat in
  sends n n (Webull.get_option_quote stock tId optionId).
Proof.
  unfold Webull.get_option_quote.
  eapply sends_weaken.
  - eapply sends_bind; [apply sends_if_raise_l, sends_ret|intros _].
    eapply sends_bind; [apply by_symbol_or_id|intros ?]. sends_go.
  - destruct (truthy stock); simpl; lia.
  - destruct (truthy stock); simpl; lia.
Qed.

(** The requests of the calls that read the market or the account: one
    each; one more, for the lookup of [get_ticker], in those given a symbol;
    and [get_options] without an expiry date makes four, since it looks the
    symbol up for the list of dates and again for the contracts. *)
Theorem requests_per_data_call :
  ((∀ password, sends 1 1 (Webull.get_trade_token password)) ∧
   (∀ index size, sends 1 1 (Webull.get_activities index size)) ∧
   sends 1 1 Webull.get_portfolio ∧
   sends 1 1 Webull.alerts_list ∧
   (∀ direction rank_type count,
      sends 1 1 (Webull.active_gainer_loser direction rank_type count)) ∧
   sends 1 1 Webull.get_dividends ∧
   (∀ extendTrading, sends 1 1 (Webull.get_five_min_ranking extendTrading)) ∧
   (∀ as_list_symbols, sends 1 1 (Webull.get_watchlists as_list_symbols)) ∧
   (∀ derivativeId interval count direction timeStamp,
      sends 1 1 (Webull.get_options_bars derivativeId interval count direction
                   timeStamp)) ∧
   (∀ topic num, sends 1 1 (PaperWebull.get_social_posts topic num)) ∧
   (∀ topic num, sends 1 1 (PaperWebull.get_social_home topic num))) ∧
  ((∀ stock, sends 2 2 (Webull.get_tradable stock)) ∧
   (∀ stock, sends 2 2 (Webull.get_analysis stock)) ∧
   (∀ stock, sends 2 2 (Webull.get_financials stock)) ∧
   (∀ stock count,
      sends 2 2 (Webull.get_options_expiration_dates stock count))) ∧
  ((∀ stock tId show_hist,
      sends (with_lookup tId) (with_lookup tId)
        (Webull.get_capital_flow stock tId show_hist)) ∧
   (∀ stock tId has_num count,
      sends (with_lookup tId) (with_lookup tId)
        (Webull.get_etf_holding stock tId has_num count)) ∧
   (∀ stock tId,
      sends (with_lookup tId) (with_lookup tId)
        (Webull.get_institutional_holding stock tId)) ∧
   (∀ stock tId,
      sends (with_lookup tId) (with_lookup tId)
        (Webull.get_short_interest stock tId)) ∧
   (∀ stock tId Id items,
      sends (with_lookup tId) (with_lookup tId)
        (Webull.get_news stock tId Id items)) ∧
   (∀ stock tId interval count extendTrading timeStamp,
      sends (with_lookup tId) (with_lookup tId)
        (Webull.get_bars_crypto stock tId interval count extendTrading
           timeStamp)) ∧
   (∀ stock tId optionId,
      let n := if truthy stock then 2%nat else 1%nat in
      sends n n (Webull.get_option_quote stock tId optionId))) ∧
  ((∀ stock count includeWeekly direction expireDate queryAll,
      let n := if truthy expireDate then 2%nat else 4%nat in
      sends n n (Webull.get_options stock count includeWeekly direction
                   expireDate queryAll)) ∧
   (∀ stock expireDate strike direction,
      let n := if truthy expireDate then 2%nat else 4%nat in
      sends n n (Webull.get_options_by_strike_and_expire_date stock expireDate
                   strike direction))).
Proof.
  split_and!; intros.
  all: try apply get_options_sends.
  all: try apply get_option_quote_sends.
  all: try apply get_options_expiration_dates_sends.
  all: try (unfold with_lookup; destruct (is_None tId) eqn:?).
  all: try (subst n; destruct (truthy expireDate) eqn:Et).
  all: unfold Webull.get_trade_token, Webull.get_activities,
         Webull.get_portfolio, Webull.alerts_list, Webull.active_gainer_loser,
         Webull.get_dividends, Webull.get_five_min_ranking,
         Webull.get_watchlists, Webull.get_options_bars,
         PaperWebull.get_social_posts, PaperWebull.get_social_home,
         Webull.get_tradable, Webull.get_analysis, Webull.get_financials,
         Webull.get_capital_flow, Webull.get_etf_holding,
         Webull.get_institutional_holding, Webull.get_short_interest,
         Webull.get_news, Webull.get_bars_crypto,
         Webull.get_options_by_strike_and_expire_date.
  all: try sends_count.
  all: eapply sends_weaken;
    [eapply sends_bind;
       [pose proof (get_options_sends stock (VInt (-1)) (VInt 1) direction
                      expireDate (VInt 0)) as Hg;
        cbv zeta in Hg; rewrite Et in Hg; exact Hg
       |intros ?; sends_go]
    |simpl; lia|simpl; lia].
Qed.

End WithOS.
End Counts.

(** * Options *)

Module Options.
Import Py Env Spec Logic Run.

Section WithLib.
Context `{!PyLib}.

(** An option order given no price is posted without one, whatever its type
    (the defaults are a limit order and no limit price).  An answer whose
    status is not 200 raises an [Exception] of the status and the reason,
    its body unread; an answer of status 200 is parsed and returned. *)
Theorem place_order_option_without_a_price
    (optionId lmtPrice stpPrice action orderType enforce quant : value)
    (w : World) (q t : Z) (resp : Response) (rest : list Response) :
  py_int quant = Ok q →
  py_int optionId = Ok t →
  truthy lmtPrice = false →
  truthy stpPrice = false →
  inbox w = resp :: rest →
  let run := Webull.place_order_option optionId lmtPrice stpPrice action
               orderType enforce quant w in
  (∃ request,
     new_requests w run.2 = [request] ∧ req_method request = POST ∧
     req_url request = endpoints.place_option_orders (_account_id (self w)) ∧
     req_json request
     = Some (VDict [("orderType", orderType);
                    ("serialId", VStr (uuid_str (uuid_src w (uuid_n w))));
                    ("timeInForce", enforce);
                    ("orders",
                     VList [VDict [("quantity", VInt q); ("action", action);
                                   ("tickerId", VInt t);
                                   ("tickerType", VStr "OPTION")]])])) ∧
  run.1 = (if status_code resp =? 200
           then match body resp with
                | Some v => Ok v
                | None => Raise JSONDecodeError
                end
           else Raise (Exception_ "place_option_order failed"
                         (status_code resp) (reason resp))).
Proof.
  intros Hq Ht Hl Hs Hi run. subst run.
  destruct (Webull.place_order_option _ _ _ _ _ _ _ w) as [r w'] eqn:E.
  cbn [fst snd]. revert E. unfold Webull.place_order_option.
  rewrite Hl, Hs, !andb_false_r. intros E.
  repeat first [rewrite Hq in E | rewrite Ht in E | rewrite Hi in E
               | exec_step E].
  all: injection E as <- <-.
  all: injection Hx as <-.
  all: split; [eexists; split;
      [apply new_requests_app; cbn [sent with_net with_uuid_n];
       rewrite ?sent_built; reflexivity|by split_and!]|].
  all: by destruct (status_code resp =? 200).
Qed.

(** No later than today: ['days'] is there and is not above 0 *)
Definition expired (d : value) : Prop :=
  ∃ days, getitem d "days" = Ok days ∧ py_positive days = Ok false.

(** Still to come: ['days'] is there and is above 0 *)
Definition upcoming (d : value) : Prop :=
  ∃ days, getitem d "days" = Ok days ∧ py_positive days = Ok true.

Lemma next_expire_date_first (before after : list value) (expireDate : value) :
  Forall expired before →
  match after with [] => True | d :: _ => upcoming d end →
  Webull.next_expire_date (before ++ after) expireDate
  = match after with [] => Ok expireDate | d :: _ => getitem d "date" end.
Proof.
  intros Hb Ha. induction Hb as [|x before (days & Hd & Hp) _ IH].
  - destruct after as [|d after]; [done|].
    destruct Ha as (days & Hd & Hp). cbn. rewrite Hd. cbn. by rewrite Hp.
  - cbn. rewrite Hd. cbn. rewrite Hp. exact IH.
Qed.

(** Without an expiry date, [get_options] asks for the contracts of the
    first listed date whose ['days'] is above 0, passing over the dates
    before it; if no listed date has, it asks with the expiry date it was
    given. *)
Theorem get_options_takes_the_next_expiry
    (stock count includeWeekly direction expireDate queryAll : value)
    (w : World) (dates date : value) (before after : list value) :
  let listing := Webull.get_options_expiration_dates stock (VInt (-1))
                   (built false false true w) in
  let lookup := Webull.get_ticker stock listing.2 in
  let run := Webull.get_options stock count includeWeekly direction expireDate
               queryAll w in
  truthy expireDate = false →
  listing.1 = Ok dates →
  Webull.py_iter dates = Ok (before ++ after)%list →
  Forall expired before →
  match after with [] => True | d :: _ => upcoming d end →
  match after with [] => Ok expireDate | d :: _ => getitem d "date" end
  = Ok date →
  match lookup.1 with
  | Ok tId =>
      ∃ r, sent run.2 = (sent lookup.2 ++ [r])%list ∧
           req_method r = GET ∧ req_url r = endpoints.options tId ∧
           req_params r
           = Some (VDict [("count", count); ("includeWeekly", includeWeekly);
                          ("direction", direction); ("expireDate", date);
                          ("unSymbol", stock); ("queryAll", queryAll)])
  | Raise e => run.1 = Raise e ∧ sent run.2 = sent lookup.2
  end.
Proof.
  intros listing lookup run He Hd Hit Hb Ha Hdate. subst run lookup listing.
  destruct (Webull.get_options_expiration_dates stock (VInt (-1))
              (built false false true w)) as [x w1] eqn:El.
  cbn [fst snd] in Hd |- *. subst x. rename El into Hd.
  pose proof (next_expire_date_first before after expireDate Hb Ha) as Hn.
  rewrite Hdate in Hn.
  destruct (Webull.get_ticker stock w1) as [[tId|e] w2] eqn:Ht; cbn [fst snd].
  all: destruct (Webull.get_options _ _ _ _ _ _ w) as [r w'] eqn:E.
  all: cbn [fst snd]; revert E; unfold Webull.get_options; rewrite He.
  all: cbn [negb]; intros E.
  all: repeat first [rewrite Hd in E | rewrite Hit in E | rewrite Hn in E
                    | rewrite Ht in E | exec_step E].
  all: injection E as <- <-; try done.
  all: eexists; by split_and!.
Qed.

End WithLib.
End Options.

(** * The portfolio *)

Module Account.
Import Py Env Spec Logic Run Dicts.

(** The member [item] has the string [kv.1] under 'key' and [kv.2] under
    'value'. *)
Definition member (item : value) (kv : string * value) : Prop :=
  getitem item "key" = Ok (VStr kv.1) ∧ getitem item "value" = Ok kv.2.

Lemma portfolio_of_str (items : list value) (kvs : list (string * value)) :
  Forall2 member items kvs →
  ∀ acc,
    Webull.portfolio_of items (str_keyed acc)
    = Ok (str_keyed (fold_left (λ d kv, dict_set kv.1 kv.2 d) kvs acc)).
Proof.
  induction 1 as [|item [s v] items kvs [Hk Hv] _ IH]; intros acc; [done|].
  cbn [fst snd] in Hk, Hv.
  cbn [Webull.portfolio_of fold_left fst snd].
  rewrite Hv, Hk. cbn [mbind result_bind]. rewrite pydict_store_str.
  apply IH.
Qed.

Section WithLib.
Context `{!PyLib}.

(** [get_portfolio] makes of the account's members a dictionary from each
    'key' to its 'value'; of two members with one key, the later is the one
    kept. *)
Theorem get_portfolio_keeps_the_last (w : World) (data members : value)
    (items : list value) (kvs : list (string * value)) :
  (Webull.get_account w).1 = Ok data →
  getitem data "accountMembers" = Ok members →
  Webull.py_iter members = Ok items →
  Forall2 member items kvs →
  ∃ output,
    (Webull.get_portfolio w).1 = Ok (str_keyed output) ∧
    ∀ k, dict_get k output = dict_get k (rev kvs).
Proof.
  intros E Hm Hit Hkv.
  destruct (Webull.get_account w) as [x w1] eqn:Ew.
  cbn [fst snd] in E. subst x. rename Ew into E.
  eexists. split.
  - unfold Webull.get_portfolio.
    rewrite bind_run, E. cbv beta iota.
    rewrite bind_run, lift_run, Hm. cbv beta iota.
    rewrite bind_run, lift_run, Hit. cbv beta iota.
    rewrite lift_run. cbn [fst].
    change (@nil (value * value)) with (str_keyed []).
    apply (portfolio_of_str items kvs Hkv).
  - intros k. rewrite dict_get_fold. by destruct (dict_get k (rev kvs)).
Qed.

End WithLib.
End Account.

(** * The theorems on runs of the sample world *)

Module Runs.
Import Py Env Spec Run Sample Api.

#[local] Existing Instance lib.
#[local] Existing Instance os.


(** The requests of an order placed by symbol show the credentials. *)
Lemma requests_show_the_credentials_witness :
  let w := trading "TRADE-TOKEN"
             [tickers [("AAPL", 913256135)]; ok_json (VDict [])] in
  let c := Place_order (VStr "AAPL") VNone (VInt 150) (VStr "BUY") (VStr "LMT")
             (VStr "GTC") (VInt 10) (VBool true) VNone (VInt 0) (VStr "DOLLAR") in
  Forall (Invariants.credentials (self w)) (new_requests w (perform c w).2).
Proof.
  intros w c.
  exact (Invariants.requests_show_the_credentials c w eq_refl).
Defined.

(** An account listed: the id and the zone are taken as text. *)
Lemma get_account_id_outcome_witness :
  let res := VDict [("success", VBool true);
                    ("data", VList [VDict [("rzone", VStr "dc_core_r002");
                                           ("secAccountId", VInt 10203040)]])] in
  let w := fresh [ok_json res] in
  let run := Webull.get_account_id (VInt 0) w in
  run.1 = Ok (VStr "10203040") ∧
  self run.2 = set_account_id (VStr "10203040")
                 (set_zone_var (VStr "dc_core_r002") (self w)).
Proof.
  intros res w run.
  exact (proj2 (proj2 (Session.get_account_id_outcome (VInt 0) w (ok_json res)
                         [] res (VBool true) eq_refl eq_refl eq_refl))
           [VDict [("rzone", VStr "dc_core_r002");
                   ("secAccountId", VInt 10203040)]] 0
           (VDict [("rzone", VStr "dc_core_r002");
                   ("secAccountId", VInt 10203040)])
           (VStr "dc_core_r002") (VInt 10203040)
           eq_refl eq_refl ltac:(discriminate) eq_refl eq_refl eq_refl eq_refl).
Defined.

(** An account with a zone and no id: the call fails, the zone is changed. *)
Lemma get_account_id_half_done_witness :
  let res := VDict [("success", VBool true);
                    ("data", VList [VDict [("rzone", VStr "dc_core_r002")]])] in
  let w := fresh [ok_json res] in
  let run := Webull.get_account_id (VInt 0) w in
  run.1 = Raise (KeyError "secAccountId") ∧
  self run.2 = set_zone_var (VStr "dc_core_r002") (self w).
Proof.
  intros res w run.
  exact (Session.get_account_id_half_done (VInt 0) w (ok_json res) [] res
           (VBool true) (VDict [("rzone", VStr "dc_core_r002")])
           (VStr "dc_core_r002") [VDict [("rzone", VStr "dc_core_r002")]] 0
           (KeyError "secAccountId")
           eq_refl eq_refl eq_refl eq_refl eq_refl ltac:(discriminate)
           eq_refl eq_refl eq_refl eq_refl).
Defined.

(** Two clients made where there is no did.bin yet. *)
Lemma clients_share_the_device_id_witness :
  let w := boot [] in
  let w1 := (Webull.__init__ w).2 in
  let w2 := (Webull.__init__ w1).2 in
  (Webull.__init__ w1).1 = Ok tt ∧
  _did (self w2) = _did (self w1) ∧
  _headers (self w2) ≠ _headers (self w1) ∧
  deref (_headers (self w1)) w2 = deref (_headers (self w1)) w1.
Proof.
  intros w. exact (Device.clients_share_the_device_id w eq_refl).
Defined.

(** A new client that looks a symbol up and logs out. *)
Lemma every_request_has_the_timeout_witness :
  let w := boot [tickers [("AAPL", 913256135)]; ok_json (VDict [])] in
  let w0 := (Webull.__init__ w).2 in
  let w' := Invariants.run_calls [Get_ticker (VStr "AAPL"); Logout] w0 in
  sent w' = (sent w0 ++ new_requests w0 w')%list ∧
  Forall (λ r, req_timeout r = VInt 15) (new_requests w0 w').
Proof.
  intros w.
  exact (Invariants.every_request_has_the_timeout
           [Get_ticker (VStr "AAPL"); Logout] w eq_refl).
Defined.

(** The vendor says the session is not valid: [is_logged_in] says it is. *)
Lemma is_logged_in_verdict_witness :
  let w := fresh [ok_json (VDict [("success", VBool false)])] in
  (Webull.is_logged_in w).1 = Ok (VBool true).
Proof.
  intros w.
  exact (proj1 (proj2 (proj2 (Session.is_logged_in_verdict w
                  (ok_json (VDict [("success", VBool false)])) []
                  [("success", VBool false)] eq_refl eq_refl)))
           (VBool false) eq_refl eq_refl).
Defined.

(** An account listed: [api_login] leaves its id in the client. *)
Lemma api_login_outcome_witness :
  let res := VDict [("success", VBool true);
                    ("data", VList [VDict [("rzone", VStr "dc_core_r002");
                                           ("secAccountId", VInt 10203040)]])] in
  let w := fresh [ok_json res] in
  let run := Webull.api_login (VStr "dc_us1.a1") (VStr "r1")
               (VStr "2030-01-01T00:00:00.000+0000") (VStr "u1") (VStr "") w in
  run.1 = Ok VNone ∧ _account_id (self run.2) = VStr "10203040" ∧
  ∃ r, new_requests w run.2 = [r] ∧
       req_headers r ≫= lookup "access_token" = Some (VStr "dc_us1.a1").
Proof.
  intros res w run.
  destruct (proj2 (Session.api_login_outcome (VStr "dc_us1.a1") (VStr "r1")
              (VStr "2030-01-01T00:00:00.000+0000") (VStr "u1") (VStr "") w)
              (ok_json res) [] eq_refl) as (H3 & H).
  destruct (proj2 (H res (VBool true) eq_refl eq_refl)
              [VDict [("rzone", VStr "dc_core_r002");
                      ("secAccountId", VInt 10203040)]]
              (VDict [("rzone", VStr "dc_core_r002");
                      ("secAccountId", VInt 10203040)])
              (VStr "dc_core_r002") (VInt 10203040)
              eq_refl eq_refl ltac:(discriminate) eq_refl eq_refl eq_refl)
    as (H1 & H2).
  split; [exact H1|]. split; [|exact H3].
  fold run in H2. by rewrite H2.
Defined.

Lemma get_trade_token_outcome_witness :
  let w := fresh [ok_json (VDict [("tradeToken", VStr "T1")])] in
  let run := Webull.get_trade_token (VStr "123456") w in
  map (λ r, (req_method r, req_url r, req_json r)) (new_requests w run.2)
  = [(POST, "https://trade.webullfintech.com/api/trading/v1/global/trade/login",
      Some (VDict [("pwd", VStr "8ef707cd505562a5e84e1a5f0388bac3")]))] ∧
  run.1 = Ok (VBool true) ∧ self run.2 = set_trade_token (VStr "T1") (self w).
Proof.
  intros w run.
  exact (Session.get_trade_token_outcome "123456" w
           (ok_json (VDict [("tradeToken", VStr "T1")])) []
           [("tradeToken", VStr "T1")] eq_refl eq_refl).
Defined.

Lemma issued_trade_token_is_carried_witness :
  let w := fresh [ok_json (VDict [("tradeToken", VStr "T1")]);
                  ok_json (VDict [("success", VBool true)])] in
  let w1 := (Webull.get_trade_token (VStr "123456") w).2 in
  Forall (λ r, req_method r = POST → carries (VStr "T1") r)
    (new_requests w1 (Webull.cancel_order (VInt 77) w1).2).
Proof.
  intros w w1.
  exact (proj2 (Session.issued_trade_token_is_carried "123456" w
                  (ok_json (VDict [("tradeToken", VStr "T1")]))
                  [ok_json (VDict [("success", VBool true)])]
                  [("tradeToken", VStr "T1")] (VStr "T1")
                  eq_refl eq_refl eq_refl) (VInt 77)).
Defined.

(** A login by phone number with a verification code *)
Lemma login_request_witness :
  let w := fresh [ok_json (VDict [("msg", VStr "wrong password")])] in
  let run := Webull.login (VStr "5551234567") (VStr "123456") (VStr "")
               (VStr "654321") (VStr "") (VStr "") (VStr "") (VBool false) VNone w in
  ∃ r, head (new_requests w run.2) = Some r ∧
       req_method r = POST ∧
       req_url r = "https://userapi.webull.com/api/passport/login/v5/account" ∧
       req_json r
       = Some (VDict [("account", VStr "5551234567");
                      ("accountType", VStr "1");
                      ("deviceId", VStr "hex0");
                      ("deviceName", VStr "default_string");
                      ("grade", VInt 1);
                      ("pwd", VStr "8ef707cd505562a5e84e1a5f0388bac3");
                      ("regionId", VInt 6);
                      ("extInfo", VDict [("codeAccountType", VInt 1);
                                         ("verificationCode", VStr "654321")])]) ∧
       req_headers r = Some (built_headers false false true w).
Proof.
  intros w run.
  exact (Login.login_request (VStr "5551234567") (VStr "") (VStr "654321")
           (VStr "") (VStr "") (VStr "") (VBool false) VNone "123456" false w
           eq_refl eq_refl ltac:(discriminate) eq_refl).
Defined.

(** A login the vendor refuses leaves the client and the files alone. *)
Lemma login_outcome_witness :
  let w := fresh [ok_json (VDict [("msg", VStr "wrong password")])] in
  let run := Webull.login (VStr "5551234567") (VStr "123456") (VStr "")
               (VStr "") (VStr "") (VStr "") (VStr "") (VBool true) VNone w in
  run.1 = Ok (VDict [("msg", VStr "wrong password")]) ∧
  self run.2 = self w ∧ written run.2 = written w.
Proof.
  intros w run.
  exact (Login.login_outcome (VStr "5551234567") (VStr "") (VStr "")
           (VStr "") (VStr "") (VStr "") (VBool true) VNone "123456" false w
           (ok_json (VDict [("msg", VStr "wrong password")])) []
           [("msg", VStr "wrong password")]
           eq_refl eq_refl ltac:(discriminate) eq_refl eq_refl eq_refl).
Defined.

Lemma save_credential_needs_a_login_witness :
  let w := fresh [] in
  Webull.save_credential (VStr "") VNone w = (Raise AttributeError, w).
Proof.
  intros w.
  exact (Credentials.save_credential_needs_a_login (VStr "") VNone w
           eq_refl eq_refl).
Defined.

Lemma login_without_credentials_witness :
  let w := fresh [] in
  let run := Webull.login (VStr "") (VStr "") (VStr "") (VStr "") (VStr "")
               (VStr "") (VStr "") (VBool false) VNone w in
  run.1 = Ok VNone ∧ self run.2 = self w ∧ sent run.2 = sent w ∧
  stdout run.2
  = [VStr "Failed to open webull_credentials.json: [Errno 2] No such file or directory: 'webull_credentials.json'"].
Proof.
  intros w run.
  exact (Credentials.login_without_credentials (VStr "") (VStr "") (VStr "")
           (VStr "") (VStr "") (VStr "") (VStr "") (VBool false) VNone
           "webull_credentials.json" w eq_refl eq_refl eq_refl eq_refl).
Defined.


(** A quote by symbol: the id the lookup finds is the one asked about. *)
Lemma get_quote_prefers_the_symbol_witness :
  let w := fresh [tickers [("AAPL", 913256135)];
                  ok_json (VDict [("symbol", VStr "AAPL")])] in
  let lookup := Webull.get_ticker (VStr "AAPL") (built false false true w) in
  let run := Webull.get_quote (VStr "AAPL") (VInt 5) w in
  ∃ r, sent run.2 = (sent lookup.2 ++ [r])%list ∧
       req_url r = endpoints.quotes (VStr (py_str (VInt 913256135))).
Proof.
  intros w lookup run.
  pose proof (Inputs.get_quote_prefers_the_symbol (VStr "AAPL") (VInt 5) w
                eq_refl) as H.
  cbv zeta in H. destruct H as [_ H]. exact H.
Defined.

(** Two open orders, one cancellation refused: both are asked for, and the
    call returns [None]. *)
Lemma cancel_all_orders_cancels_each_witness :
  let o1 := VDict [("orderId", VInt 11)] in
  let o2 := VDict [("orderId", VInt 12)] in
  let yes := ok_json (VDict [("success", VBool true)]) in
  let no := ok_json (VDict [("success", VBool false)]) in
  let w := fresh [ok_json (VDict [("openOrders", VList [o1; o2])]); yes; no] in
  let w1 := (Webull.get_current_orders w).2 in
  let run := Webull.cancel_all_orders w in
  run.1 = Ok VNone ∧ inbox run.2 = [] ∧
  ∃ qs, sent run.2 = (sent w1 ++ qs)%list ∧
        Forall (λ q, req_method q = POST) qs ∧
        map req_url qs = imap (CancelAll.cancel_url w1) [VInt 11; VInt 12].
Proof.
  intros o1 o2 yes no w w1 run.
  refine (CancelAll.cancel_all_orders_cancels_each w (VList [o1; o2])
            [o1; o2] [VInt 11; VInt 12] [yes; no] [] eq_refl eq_refl _ _
            eq_refl eq_refl).
  - by repeat constructor.
  - repeat constructor; by eexists.
Defined.

(** The second of three cancellations is answered by a gateway error: the
    third order is never asked about. *)
Lemma cancel_all_orders_stops_at_a_failure_witness :
  let o1 := VDict [("orderId", VInt 11)] in
  let o2 := VDict [("orderId", VInt 12)] in
  let o3 := VDict [("orderId", VInt 13)] in
  let yes := ok_json (VDict [("success", VBool true)]) in
  let bad := mkResponse 502 "Bad Gateway" None in
  let w := fresh [ok_json (VDict [("openOrders", VList [o1; o2; o3])]);
                  yes; bad; yes] in
  let w1 := (Webull.get_current_orders w).2 in
  let run := Webull.cancel_all_orders w in
  run.1 = Raise JSONDecodeError ∧ inbox run.2 = [yes] ∧
  ∃ qs, sent run.2 = (sent w1 ++ qs)%list ∧
        map req_url qs = imap (CancelAll.cancel_url w1) [VInt 11; VInt 12].
Proof.
  intros o1 o2 o3 yes bad w w1 run.
  refine (CancelAll.cancel_all_orders_stops_at_a_failure w
            (VList [o1; o2; o3]) [o1] [o3] [VInt 11] o2 (VInt 12) [yes] [yes]
            bad JSONDecodeError eq_refl eq_refl _ eq_refl _ eq_refl eq_refl
            eq_refl).
  - by repeat constructor.
  - repeat constructor; by eexists.
Defined.

(** A limit order for an option, no price given, refused by the vendor. *)
Lemma place_order_option_without_a_price_witness :
  let w := trading "TRADE-TOKEN" [mkResponse 403 "Forbidden" None] in
  let run := Webull.place_order_option (VInt 1017) VNone VNone (VStr "BUY")
               (VStr "LMT") (VStr "DAY") (VInt 1) w in
  run.1 = Raise (Exception_ "place_option_order failed" 403 "Forbidden").
Proof.
  intros w run.
  exact (proj2 (Options.place_order_option_without_a_price (VInt 1017) VNone
                  VNone (VStr "BUY") (VStr "LMT") (VStr "DAY") (VInt 1) w
                  1 1017 (mkResponse 403 "Forbidden" None) []
                  eq_refl eq_refl eq_refl eq_refl eq_refl)).
Defined.

(** Of a date that expires today and one a week away, the second is asked
    for. *)
Lemma get_options_takes_the_next_expiry_witness :
  let today := VDict [("date", VStr "2026-11-06"); ("days", VInt 0)] in
  let next := VDict [("date", VStr "2026-11-13"); ("days", VInt 7)] in
  let w := fresh [tickers [("AAPL", 913256135)];
                  ok_json (VDict [("expireDateList", VList [today; next])]);
                  tickers [("AAPL", 913256135)];
                  ok_json (VDict [("data", VList [])])] in
  let listing := Webull.get_options_expiration_dates (VStr "AAPL") (VInt (-1))
                   (built false false true w) in
  let lookup := Webull.get_ticker (VStr "AAPL") listing.2 in
  let run := Webull.get_options (VStr "AAPL") (VInt (-1)) (VInt 1) (VStr "all")
               VNone (VInt 0) w in
  match lookup.1 with
  | Ok tId =>
      ∃ r, sent run.2 = (sent lookup.2 ++ [r])%list ∧
           req_method r = GET ∧ req_url r = endpoints.options tId ∧
           req_params r
           = Some (VDict [("count", VInt (-1)); ("includeWeekly", VInt 1);
                          ("direction", VStr "all");
                          ("expireDate", VStr "2026-11-13");
                          ("unSymbol", VStr "AAPL"); ("queryAll", VInt 0)])
  | Raise e => run.1 = Raise e ∧ sent run.2 = sent lookup.2
  end.
Proof.
  intros today next w listing lookup run.
  refine (Options.get_options_takes_the_next_expiry (VStr "AAPL") (VInt (-1))
            (VInt 1) (VStr "all") VNone (VInt 0) w (VList [today; next])
            (VStr "2026-11-13") [today] [next] eq_refl eq_refl eq_refl _ _
            eq_refl).
  - repeat constructor. by exists (VInt 0).
  - by exists (VInt 7).
Defined.

(** A key listed twice: the later value is the one returned. *)
Lemma get_portfolio_keeps_the_last_witness :
  let m k v := VDict [("key", VStr k); ("value", VStr v)] in
  let w := fresh [ok_json (VDict [("accountMembers",
                    VList [m "totalMarketValue" "100.00";
                           m "cashBalance" "5.00";
                           m "totalMarketValue" "120.00"])])] in
  ∃ output,
    (Webull.get_portfolio w).1 = Ok (str_keyed output) ∧
    ∀ k, dict_get k output
         = dict_get k [("totalMarketValue", VStr "120.00");
                       ("cashBalance", VStr "5.00");
                       ("totalMarketValue", VStr "100.00")].
Proof.
  intros m w.
  refine (Account.get_portfolio_keeps_the_last w
            _ _ [m "totalMarketValue" "100.00"; m "cashBalance" "5.00";
                 m "totalMarketValue" "120.00"]
            [("totalMarketValue", VStr "100.00"); ("cashBalance", VStr "5.00");
             ("totalMarketValue", VStr "120.00")]
            eq_refl eq_refl eq_refl _).
  by repeat constructor.
Defined.

End Runs.
